(** * openseat: the course-availability monitor

    A shallow embedding of the monitor's [Run] function and of the helpers
    it calls ([loadConfig], [getBaseURL], [buildPayload], [fetchDocument],
    [checkSectionOpen], [getCourseName], [sendEmail], the [EmailSender]
    implementations), followed by the properties of the polling engine.

    The program talks to the outside (the timetable server, the mail
    service, the configuration file, the process environment, the clock).
    The outside is an [Env]: a deterministic oracle that fixes the answer
    to the n-th request.  Every request is asked at most once, so
    quantifying over all oracles covers every run of the program.  The
    effects the program has are recorded in a [World]: counters of the
    requests made, the clock, and the trace of events.  Every event of
    the trace is stamped with the loop position at which it happened,
    so that a lookup or a notification can be told to belong to an
    entity even when two entities have the same CRN.

    [Run] loops until every section has been found; the model gives the
    outer loop a fuel, the number of cycles it may run, and says
    [Polling] when the fuel is used up.  The properties hold for every
    fuel. *)

From stdpp Require Import gmap strings list.
From Stdlib Require Import ZArith Lia Ascii.

Local Open Scope string_scope.
Local Open Scope list_scope.
Local Open Scope Z_scope.

(** ** Strings *)

(** [strings.Contains(s, substr)]: [substr] occurs in [s]. *)
Fixpoint strings_Contains (s substr : string) : bool :=
  if String.prefix substr s then true
  else match s with
       | EmptyString => false
       | String _ s' => strings_Contains s' substr
       end.

(** The white space of [strings.TrimSpace].  A Go string is its bytes,
    and [TrimSpace] reads them as UTF-8: it trims the six ASCII blanks
    of its fast path (tab, line feed, vertical tab, form feed, carriage
    return, space) and, beyond ASCII, the runes of [unicode.IsSpace],
    which are here by their encodings:
    U+0085 and U+00A0 (C2 85, C2 A0), U+1680 (E1 9A 80),
    U+2000 to U+200A, U+2028, U+2029 and U+202F (E2 80 80..8A, A8, A9,
    AF), U+205F (E2 81 9F) and U+3000 (E3 80 80).
    Bytes that are not valid UTF-8 decode to U+FFFD one byte at a time,
    which is not white space, so nothing else is trimmed. *)
Definition isSpace (a : ascii) : bool :=
  let n := nat_of_ascii a in
  ((9 <=? n)%nat && (n <=? 13)%nat) || (n =? 32)%nat.

Definition isSpace2 (a b : ascii) : bool :=
  let y := nat_of_ascii b in
  (nat_of_ascii a =? 194)%nat && ((y =? 133)%nat || (y =? 160)%nat).

Definition isSpace3 (a b c : ascii) : bool :=
  let x := nat_of_ascii a in
  let y := nat_of_ascii b in
  let z := nat_of_ascii c in
  ((x =? 225)%nat && (y =? 154)%nat && (z =? 128)%nat) ||
  ((x =? 226)%nat && (y =? 128)%nat &&
   (((128 <=? z)%nat && (z <=? 138)%nat) ||
    (z =? 168)%nat || (z =? 169)%nat || (z =? 175)%nat)) ||
  ((x =? 226)%nat && (y =? 129)%nat && (z =? 159)%nat) ||
  ((x =? 227)%nat && (y =? 128)%nat && (z =? 128)%nat).

(** The string is one white-space rune. *)
Definition isSpaceRune (s : string) : bool :=
  match s with
  | String a EmptyString => isSpace a
  | String a (String b EmptyString) => isSpace2 a b
  | String a (String b (String c EmptyString)) => isSpace3 a b c
  | _ => false
  end.

(** [TrimLeftFunc(s, unicode.IsSpace)]: the runes are decoded from the
    left, and the first that is not white space ends the trimming. *)
Fixpoint trimLeft (s : string) : string :=
  match s with
  | EmptyString => EmptyString
  | String a s1 =>
      if isSpace a then trimLeft s1
      else
        match s1 with
        | EmptyString => s
        | String b s2 =>
            if isSpace2 a b then trimLeft s2
            else
              match s2 with
              | EmptyString => s
              | String c s3 => if isSpace3 a b c then trimLeft s3 else s
              end
        end
  end.

(** [TrimRightFunc(s, unicode.IsSpace)]: the runes are decoded from the
    right.  The last rune of a string starts at its last byte that is
    not a continuation byte, so, with the rest trimmed, a byte and what
    is left after it go when together they are one white-space rune. *)
Fixpoint trimRight (s : string) : string :=
  match s with
  | EmptyString => EmptyString
  | String a s' =>
      let u := String a (trimRight s') in
      if isSpaceRune u then EmptyString else u
  end.

(** [strings.TrimSpace]. *)
Definition strings_TrimSpace (s : string) : string := trimRight (trimLeft s).

(** A string from its bytes. *)
Definition bytes (l : list nat) : string :=
  fold_right (fun n s => String (ascii_of_nat n) s) EmptyString l.

(** The no-break space of [&nbsp;], U+00A0, as goquery's [Text] gives it. *)
Definition nbsp : string := bytes [194; 160]%nat.

(** ** Errors

    The [error] values the program builds with [fmt.Errorf], one
    constructor per message; [%w] wrapping keeps the cause. *)
Inductive error : Type :=
| ErrReadConfig                      (* failed to read config file: %w *)
| ErrParseConfig                     (* failed to parse config file: %w *)
| ErrNoCRNsSpecified                 (* no CRNs specified in config *)
| ErrLoadConfig (cause : error)      (* failed to load config: %w *)
| ErrNoValidCRNs                     (* no valid CRNs to monitor *)
| ErrRequestFailed (cause : string)  (* request failed: %w *)
| ErrUnexpectedStatus (code : Z)     (* unexpected status: %d %s *)
| ErrParseHTML                       (* failed to parse HTML: %w *)
| ErrCourseNotFound (crn : string)   (* course not found for CRN: %s *)
| ErrApiKeyNotSet                    (* RESEND_API_KEY not set *)
| ErrResend (cause : string)         (* the error of the mail client *)
| ErrMock.                           (* mock email error *)

(** A Go result pair [(value, error)] of which exactly one side counts. *)
Inductive result (A : Type) : Type :=
| Ok (a : A)
| Err (e : error).
Arguments Ok {A} a.
Arguments Err {A} e.

(** ** Configuration *)

Definition DefaultTimetableURL : string :=
  "https://selfservice.banner.vt.edu/ssb/HZSKVTSC.P_ProcRequest".

Record Config : Type := mkConfig {
  CRNs : list string;
  Email : string;
  CheckInterval : Z;
  Term : string;
  Campus : string;
  BaseURL : string
}.

(** The zero value [Config{}]. *)
Definition zeroConfig : Config := mkConfig [] "" 0 "" "" "".

Record CourseStatus : Type := mkCourseStatus {
  CRN : string;
  Name : string;
  Found : bool
}.

(** [url.Values]: form fields, each with its list of values. *)
Abbreviation Values := (gmap string (list string)).

Definition getBaseURL (c : Config) : string :=
  if bool_decide (BaseURL c <> "") then BaseURL c else DefaultTimetableURL.

Definition buildPayload (c : Config) (crn : string) (openOnly : bool) : Values :=
  let rawMap : Values :=
    list_to_map
      [ ("CAMPUS", [Campus c]);
        ("TERMYEAR", [Term c]);
        ("CORE_CODE", ["AR%"]);
        ("subj_code", ["%"]);
        ("SCHDTYPE", ["%"]);
        ("CRSE_NUMBER", [""]);
        ("crn", [crn]);
        ("sess_code", ["%"]);
        ("BTN_PRESSED", ["FIND class sections"]);
        ("inst_name", [""]);
        ("disp_comments_in", [""]) ] in
  if openOnly then <["open_only" := ["on"]]> rawMap else rawMap.

(** ** The outside *)

(** What [os.ReadFile] followed by [json.Unmarshal] yields for a path. *)
Inductive ConfigFile : Type :=
| Unreadable
| Malformed
| Parsed (cfg : Config).

(** A parsed HTML document, seen through the two queries the program
    makes: the text of [.dataentrytable], and for every
    [.dataentrytable tr] row the text of its first and third cell. *)
Record TableRow : Type := mkRow { td1 : string; td3 : string }.

Record Document : Type := mkDocument {
  tableText : string;
  tableRows : list TableRow
}.

(** The answer of the network to one [http.PostForm]. *)
Inductive HttpReply : Type :=
| TransportError (cause : string)
| Response (status : Z) (body : option Document).
    (* [body = None]: goquery cannot read the body *)

Record Env : Type := mkEnv {
  readConfig : string -> ConfigFile;
  getenv : string -> string;
  (* the reply to the n-th POST of the run *)
  server : nat -> string -> Values -> HttpReply;
  (* the outcome of the n-th call of the mail client *)
  resend : nat -> string -> string -> string -> string -> option string
}.

(** ** Effects *)

(** The loop position at which an event happens. *)
Inductive Origin : Type :=
| Startup
| Resolving
| Checking (attempt : Z) (i : nat)
| Waiting (attempt : Z).

(** What the program prints, one constructor per print site of [Run]
    with the values it formats (colours and icons left out). *)
Inductive Message : Type :=
| MsgBanner
| MsgSummary (ncrns : nat) (email : option string) (interval : Z) (term : string)
| MsgFetching
| MsgSkipping (crn : string)
| MsgResolved (crn name : string)
| MsgSeparator
| MsgChecking (frame attempt : Z) (crn : string)
| MsgErrorChecking (checkTime : Z) (crn : string) (err : error)
| MsgSeatAvailable (name crn : string)
| MsgNotificationSent (email : string)
| MsgAllFound
| MsgWaitLine (frame : nat) (attempt found total timeLeft checkTime : Z).

Inductive Event : Type :=
| EvPost (targetUrl : string) (payload : Values)   (* http.PostForm *)
| EvSendEmail (to subject body : string)           (* entry into sendEmail *)
| EvResend (apiKey to subject body : string)       (* client.Emails.Send *)
| EvSleep (d : Z)                                  (* time.Sleep *)
| EvPrint (m : Message).                           (* fmt.Printf, fmt.Println *)

Record World : Type := mkWorld {
  posts : nat;                      (* POSTs made so far *)
  mails : nat;                      (* mail client calls made so far *)
  now : Z;                          (* the clock, in nanoseconds *)
  pos : Origin;                     (* where the program is *)
  trace : list (Origin * Event)     (* the events so far, oldest first *)
}.

Definition initialWorld : World := mkWorld 0 0 0 Startup [].

(** A computation with effects on the world. *)
Definition M (A : Type) : Type := World -> A * World.

Definition ret {A} (a : A) : M A := fun w => (a, w).

Definition bind {A B} (c : M A) (k : A -> M B) : M B :=
  fun w => let (a, w') := c w in k a w'.

Notation "'let*' x ':=' c 'in' k" := (bind c (fun x => k))
  (at level 10, x pattern, c at level 100, k at level 200).

Definition emit (e : Event) : M unit :=
  fun w => (tt, mkWorld (posts w) (mails w) (now w) (pos w) (trace w ++ [(pos w, e)])).

Definition at_pos (o : Origin) : M unit :=
  fun w => (tt, mkWorld (posts w) (mails w) (now w) o (trace w)).

Definition next_post : M nat :=
  fun w => (posts w, mkWorld (S (posts w)) (mails w) (now w) (pos w) (trace w)).

Definition next_mail : M nat :=
  fun w => (mails w, mkWorld (posts w) (S (mails w)) (now w) (pos w) (trace w)).

(** [time.Now()]. *)
Definition time_Now : M Z := fun w => (now w, w).

(** [time.Sleep(d)]: the clock advances while the program sleeps, and
    only then. *)
Definition time_Sleep (d : Z) : M unit :=
  let* _ := emit (EvSleep d) in
  fun w => (tt, mkWorld (posts w) (mails w) (now w + Z.max 0 d) (pos w) (trace w)).

Definition Printf (m : Message) : M unit := emit (EvPrint m).

Definition Millisecond : Z := 1000000.
Definition Second : Z := 1000000000.

(** ** The program *)

Section Program.

Variable env : Env.

(** [loadConfig]: the file is read and parsed by the outside; the
    defaults and the check on the CRN list are the program's. *)
Definition loadConfig (path : string) : Config * option error :=
  match readConfig env path with
  | Unreadable => (zeroConfig, Some ErrReadConfig)
  | Malformed => (zeroConfig, Some ErrParseConfig)
  | Parsed cfg =>
      let cfg := if CheckInterval cfg =? 0
                 then mkConfig (CRNs cfg) (Email cfg) 30 (Term cfg) (Campus cfg) (BaseURL cfg)
                 else cfg in
      let cfg := if bool_decide (Campus cfg = "")
                 then mkConfig (CRNs cfg) (Email cfg) (CheckInterval cfg) (Term cfg) "0" (BaseURL cfg)
                 else cfg in
      let cfg := if bool_decide (Term cfg = "")
                 then mkConfig (CRNs cfg) (Email cfg) (CheckInterval cfg) "202601" (Campus cfg) (BaseURL cfg)
                 else cfg in
      let cfg := if bool_decide (BaseURL cfg = "")
                 then mkConfig (CRNs cfg) (Email cfg) (CheckInterval cfg) (Term cfg) (Campus cfg)
                               DefaultTimetableURL
                 else cfg in
      if (length (CRNs cfg) =? 0)%nat
      then (zeroConfig, Some ErrNoCRNsSpecified)
      else (cfg, None)
  end.

(** [fetchDocument]: one POST; the reply is an error unless the status
    is 200 and the body parses. *)
Definition fetchDocument (targetUrl : string) (payload : Values) : M (result Document) :=
  let* n := next_post in
  let* _ := emit (EvPost targetUrl payload) in
  match server env n targetUrl payload with
  | TransportError cause => ret (Err (ErrRequestFailed cause))
  | Response status body =>
      if negb (status =? 200) then ret (Err (ErrUnexpectedStatus status))
      else match body with
           | None => ret (Err ErrParseHTML)
           | Some doc => ret (Ok doc)
           end
  end.

(** [checkSectionOpen]: the section is open when its CRN occurs in the
    table of the open-only search. *)
Definition checkSectionOpen (c : Config) (crn : string) : M (result bool) :=
  let payload := buildPayload c crn true in
  let* r := fetchDocument (getBaseURL c) payload in
  match r with
  | Err err => ret (Err err)
  | Ok doc => ret (Ok (strings_Contains (tableText doc) crn))
  end.

(** The [Each] callback of [getCourseName]: a row whose first cell
    contains the CRN sets the name to its trimmed third cell. *)
Definition scanRow (crn : string) (courseName : string) (row : TableRow) : string :=
  if strings_Contains (td1 row) crn then strings_TrimSpace (td3 row) else courseName.

(** [getCourseName]. *)
Definition getCourseName (c : Config) (crn : string) : M (result string) :=
  let payload := buildPayload c crn false in
  let* r := fetchDocument (BaseURL c) payload in
  match r with
  | Err err => ret (Err err)
  | Ok doc =>
      let courseName := foldl (scanRow crn) "" (tableRows doc) in
      if bool_decide (courseName = "") then ret (Err (ErrCourseNotFound crn))
      else ret (Ok courseName)
  end.

(** [sendEmail]: the package-level function, with the API key of the
    process environment. *)
Definition sendEmail (to subject body : string) : M (option error) :=
  let* _ := emit (EvSendEmail to subject body) in
  let apiKey := getenv env "RESEND_API_KEY" in
  if bool_decide (apiKey = "") then ret (Some ErrApiKeyNotSet)
  else
    let* n := next_mail in
    let* _ := emit (EvResend apiKey to subject body) in
    ret (ErrResend <$> resend env n apiKey to subject body).

(** *** The email senders

    [EmailSender] is the interface; the repository has two
    implementations, the production one and the test double. *)

Record ResendEmailSender : Type := mkResendEmailSender { APIKey : string }.

Record MockEmailSender : Type := mkMockEmailSender {
  Sent : list (string * string * string);   (* To, Subject, Body *)
  ShouldError : bool
}.

Definition ResendEmailSender_Send (r : ResendEmailSender) (to subject body : string)
  : M (option error) :=
  if bool_decide (APIKey r = "") then ret (Some ErrApiKeyNotSet)
  else
    let* n := next_mail in
    let* _ := emit (EvResend (APIKey r) to subject body) in
    ret (ErrResend <$> resend env n (APIKey r) to subject body).

(** The mock has a pointer receiver: the call returns the mock as it is
    afterwards. *)
Definition MockEmailSender_Send (m : MockEmailSender) (to subject body : string)
  : option error * MockEmailSender :=
  if ShouldError m then (Some ErrMock, m)
  else (None, mkMockEmailSender (Sent m ++ [(to, subject, body)]) (ShouldError m)).

Inductive EmailSender : Type :=
| ResendSender (r : ResendEmailSender)
| MockSender (m : MockEmailSender).

(** Dynamic dispatch of [Send] on an [EmailSender] value; the result
    carries the object as the call leaves it. *)
Definition Send (s : EmailSender) (to subject body : string)
  : M (option error * EmailSender) :=
  match s with
  | ResendSender r =>
      let* e := ResendEmailSender_Send r to subject body in ret (e, s)
  | MockSender m =>
      let (e, m') := MockEmailSender_Send m to subject body in ret (e, MockSender m')
  end.

(** *** Run *)

Record RunOptions : Type := mkRunOptions {
  ConfigPath : string;
  opts_EmailSender : option EmailSender      (* [None] is the nil interface *)
}.

(** [truncateEmail]; [Run] calls it with [maxLen = 35]. *)
Definition truncateEmail (email : string) (maxLen : nat) : string :=
  if (String.length email <=? maxLen)%nat then email
  else String.substring 0 (maxLen - 3) email +:+ "...".

(** The two locals of [Run] that track the entities. *)
Record Session : Type := mkSession {
  courses : list CourseStatus;
  remaining : Z
}.

Definition emptySession : Session := mkSession [] 0.

(** A [for ... range] loop over a slice that threads a state. *)
Fixpoint forRange {A S : Type} (body : S -> A -> M S) (s : S) (l : list A) : M S :=
  match l with
  | [] => ret s
  | x :: l' => let* s' := body s x in forRange body s' l'
  end.

(** The body of the start-up loop: a CRN whose name cannot be fetched
    is skipped, the others are appended. *)
Definition resolveCourse (cfg : Config) (courses : list CourseStatus) (crn : string)
  : M (list CourseStatus) :=
  let* r := getCourseName cfg crn in
  match r with
  | Err _ =>
      let* _ := Printf (MsgSkipping crn) in
      ret courses
  | Ok name =>
      let courses := courses ++ [mkCourseStatus crn name false] in
      let* _ := Printf (MsgResolved crn name) in
      ret courses
  end.

Definition markFound (c : CourseStatus) : CourseStatus :=
  mkCourseStatus (CRN c) (Name c) true.

(** The body of the inner loop of [Run], for index [i]. *)
Definition checkCourse (cfg : Config) (attempt checkTime : Z) (s : Session) (i : nat)
  : M Session :=
  match courses s !! i with
  | None => ret s                       (* not reached: i ranges over the slice *)
  | Some c =>
      if Found c then ret s             (* continue *)
      else
        let* _ := at_pos (Checking attempt i) in
        let* _ := Printf (MsgChecking (Z.rem attempt 10) attempt (CRN c)) in
        let* r := checkSectionOpen cfg (CRN c) in
        match r with
        | Err err =>
            let* _ := Printf (MsgErrorChecking checkTime (CRN c) err) in
            ret s                       (* continue *)
        | Ok open =>
            let* s' :=
              (if open then
                 let s' := mkSession (<[i := markFound c]> (courses s)) (remaining s - 1) in
                 let* _ := Printf (MsgSeatAvailable (Name c) (CRN c)) in
                 let* _ :=
                   (if bool_decide (Email cfg <> "") then
                      let* _ := sendEmail (Email cfg) "VT Course Section Open!"
                                  ("OPEN SEAT: " +:+ Name c +:+ " (CRN: " +:+ CRN c +:+ ")") in
                      Printf (MsgNotificationSent (Email cfg))
                    else ret tt) in
                 ret s'
               else ret s) in
            let* _ := time_Sleep (500 * Millisecond) in
            ret s'
        end
  end.

(** One poll cycle: the inner loop over the indices of [courses]. *)
Definition pollCycle (cfg : Config) (attempt checkTime : Z) (s : Session) : M Session :=
  forRange (checkCourse cfg attempt checkTime) s (seq 0 (length (courses s))).

(** A Go [int64] product. *)
Definition wrap64 (z : Z) : Z := (z + 2 ^ 63) mod 2 ^ 64 - 2 ^ 63.

(** [Duration.Round] for a positive unit, away from the overflow cases. *)
Definition Duration_Round (d m : Z) : Z :=
  let r := Z.rem d m in
  if d <? 0 then (if - r + - r <? m then d - r else d - m - r)
  else (if r + r <? m then d - r else d + m - r).

(** The spinner loop between two cycles: it runs while the clock is
    before [waitUntil].  Each turn sleeps 100ms, so [fuel] turns are
    enough when [fuel] is at least the interval in tenths of a second. *)
Fixpoint waitLoop (fuel : nat) (attempt checkTime : Z) (s : Session) (waitUntil : Z) (i : nat)
  : M unit :=
  match fuel with
  | O => ret tt
  | S fuel' =>
      let* t := time_Now in
      if t <? waitUntil then
        let* t' := time_Now in
        let timeLeft := Duration_Round (waitUntil - t') Second in
        let found := Z.of_nat (length (courses s)) - remaining s in
        let* _ := Printf (MsgWaitLine (i mod 10) attempt found
                            (Z.of_nat (length (courses s))) timeLeft checkTime) in
        let* _ := time_Sleep (100 * Millisecond) in
        waitLoop fuel' attempt checkTime s waitUntil (S i)
      else ret tt
  end.

Definition waitInterval (interval attempt checkTime : Z) (s : Session) : M unit :=
  let* _ := at_pos (Waiting attempt) in
  let* t := time_Now in
  let waitUntil := t + interval in
  waitLoop (S (Z.to_nat (interval / (100 * Millisecond)))) attempt checkTime s waitUntil 0.

(** How a run stands: [Run] has returned, or it is still polling after
    the cycles the fuel allowed. *)
Inductive Outcome : Type :=
| Returned (err : option error)
| Polling.

(** The outer loop of [Run]; [fuel] bounds the number of cycles.  The
    attempt counter is a Go [int]; it is not wrapped here. *)
Fixpoint runLoop (fuel : nat) (cfg : Config) (interval attempt : Z) (s : Session)
  : M (Outcome * Session) :=
  match fuel with
  | O => ret (Polling, s)
  | S fuel' =>
      let* checkTime := time_Now in
      let* s' := pollCycle cfg attempt checkTime s in
      if remaining s' =? 0 then
        let* _ := Printf MsgAllFound in
        ret (Returned None, s')
      else
        let* _ := waitInterval interval attempt checkTime s' in
        runLoop fuel' cfg interval (attempt + 1) s'
  end.

(** The start-up loop of [Run]. *)
Definition resolveCourses (cfg : Config) : M (list CourseStatus) :=
  let* _ := at_pos Resolving in
  forRange (resolveCourse cfg) [] (CRNs cfg).

(** What is known of a run: its outcome, the entities as [Run] holds
    them at that moment, and the sender object behind [emailSender]. *)
Record RunResult : Type := mkRunResult {
  outcome : Outcome;
  session : Session;
  emailSender : option EmailSender
}.

Definition Run (fuel : nat) (opts : RunOptions) : M RunResult :=
  let (cfg, err) := loadConfig (ConfigPath opts) in
  match err with
  | Some e =>
      ret (mkRunResult (Returned (Some (ErrLoadConfig e))) emptySession (opts_EmailSender opts))
  | None =>
      let emailSender :=
        match opts_EmailSender opts with
        | Some sender => sender
        | None => ResendSender (mkResendEmailSender (getenv env "RESEND_API_KEY"))
        end in
      let* _ := Printf MsgBanner in
      let* _ := Printf (MsgSummary (length (CRNs cfg))
                          (if bool_decide (Email cfg <> "")
                           then Some (truncateEmail (Email cfg) 35) else None)
                          (CheckInterval cfg) (Term cfg)) in
      let* _ := Printf MsgFetching in
      let* courses := resolveCourses cfg in
      if (length courses =? 0)%nat then
        ret (mkRunResult (Returned (Some ErrNoValidCRNs)) (mkSession courses 0)
               (Some emailSender))
      else
        let* _ := Printf MsgSeparator in
        let remaining := Z.of_nat (length courses) in
        let interval := wrap64 (CheckInterval cfg * Second) in
        let* r := runLoop fuel cfg interval 1 (mkSession courses remaining) in
        ret (mkRunResult (fst r) (snd r) (Some emailSender))
  end.

End Program.

Arguments Run env fuel opts _ : simpl never.
Arguments buildPayload c crn openOnly : simpl never.

(** ** Reading traces *)

Definition isPost (e : Event) : bool :=
  match e with EvPost _ _ => true | _ => false end.

Definition isSend (e : Event) : bool :=
  match e with EvSendEmail _ _ _ => true | _ => false end.

(** The lookups of a trace: its POSTs, with the loop position of each.
    At start-up they are name searches, in a cycle availability
    searches. *)
Definition isLookup (e : Origin * Event) : bool := isPost (snd e).

Definition lookups (tr : list (Origin * Event)) : list (Origin * Event) :=
  List.filter isLookup tr.

(** The notification attempts of a trace: the calls of [sendEmail]. *)
Definition isNotification (e : Origin * Event) : bool := isSend (snd e).

Definition notifications (tr : list (Origin * Event)) : list (Origin * Event) :=
  List.filter isNotification tr.

(** The event happened while entity [i] was being checked. *)
Definition checking (i : nat) (o : Origin) : bool :=
  match o with
  | Checking _ j => (i =? j)%nat
  | _ => false
  end.

(** The number of notification attempts made for entity [i]. *)
Definition notificationsOf (i : nat) (tr : list (Origin * Event)) : nat :=
  length (List.filter (fun e => checking i (fst e) && isSend (snd e)) tr).

(** The number of lookups made for entity [i]. *)
Definition lookupsOf (i : nat) (tr : list (Origin * Event)) : nat :=
  length (List.filter (fun e => checking i (fst e) && isPost (snd e)) tr).

(** What was printed. *)
Definition printed (tr : list (Origin * Event)) : list Message :=
  omap (fun e => match e with (_, EvPrint m) => Some m | _ => None end) tr.

(** The events between two worlds of one run. *)
Definition emitted (w w' : World) : list (Origin * Event) :=
  drop (length (trace w)) (trace w').

(** The entities that are still pending. *)
Definition isPending (c : CourseStatus) : bool := negb (Found c).

Definition pending (l : list CourseStatus) : list CourseStatus :=
  List.filter isPending l.

(** Entity [i] is tracked and found. *)
Definition foundAt (s : Session) (i : nat) : bool :=
  match courses s !! i with
  | Some c => Found c
  | None => false
  end.

(** What [checkSectionOpen] returns when its POST is the n-th of the run. *)
Definition availability (env : Env) (cfg : Config) (crn : string) (n : nat) : result bool :=
  fst (checkSectionOpen env cfg crn (mkWorld n 0 0 Startup [])).

(** What [getCourseName] returns when its POST is the n-th of the run. *)
Definition resolution (env : Env) (cfg : Config) (crn : string) (n : nat) : result string :=
  fst (getCourseName env cfg crn (mkWorld n 0 0 Startup [])).

(** The lookup that [checkCourse] makes for a course. *)
Definition lookupEvent (cfg : Config) (c : CourseStatus) : Event :=
  EvPost (getBaseURL cfg) (buildPayload cfg (CRN c) true).

(** The name search that start-up makes for an identifier. *)
Definition nameSearch (cfg : Config) (crn : string) : Event :=
  EvPost (BaseURL cfg) (buildPayload cfg crn false).

(** The message that announces a course. *)
Definition notifySubject : string := "VT Course Section Open!".

Definition notifyBody (c : CourseStatus) : string :=
  "OPEN SEAT: " +:+ Name c +:+ " (CRN: " +:+ CRN c +:+ ")".

(** The call of [sendEmail] that announces a course. *)
Definition notifyEvent (cfg : Config) (c : CourseStatus) : Event :=
  EvSendEmail (Email cfg) notifySubject (notifyBody c).

(** What [sendEmail] leaves in the trace: the call, and the request to
    the mail service when there is an API key. *)
Definition mailEvents (env : Env) (to subject body : string) : list Event :=
  EvSendEmail to subject body ::
  (if bool_decide (getenv env "RESEND_API_KEY" = "") then []
   else [EvResend (getenv env "RESEND_API_KEY") to subject body]).

(** The events of one turn of the inner loop on a pending course, given
    what the lookup returned. *)
Definition stepEvents (env : Env) (cfg : Config) (attempt checkTime : Z)
    (c : CourseStatus) (r : result bool) : list Event :=
  EvPrint (MsgChecking (Z.rem attempt 10) attempt (CRN c)) ::
  lookupEvent cfg c ::
  match r with
  | Err err => [EvPrint (MsgErrorChecking checkTime (CRN c) err)]
  | Ok false => [EvSleep (500 * Millisecond)]
  | Ok true =>
      EvPrint (MsgSeatAvailable (Name c) (CRN c)) ::
      (if bool_decide (Email cfg <> "")
       then mailEvents env (Email cfg) notifySubject (notifyBody c)
            ++ [EvPrint (MsgNotificationSent (Email cfg))]
       else [])
      ++ [EvSleep (500 * Millisecond)]
  end.

(** The session after that turn. *)
Definition stepSession (s : Session) (i : nat) (c : CourseStatus) (r : result bool) : Session :=
  match r with
  | Ok true => mkSession (<[i := markFound c]> (courses s)) (remaining s - 1)
  | _ => s
  end.

(** The lookup says the section is open. *)
Definition opened (r : result bool) : bool :=
  match r with
  | Ok true => true
  | _ => false
  end.

(** What happens between two moments of a session: the entities are
    the same in number, a found entity stays found and is neither
    looked up nor notified again, and an entity is notified at most
    once, and only if it became found in between. *)
Definition progress (s : Session) (w : World) (s' : Session) (w' : World) : Prop :=
  length (courses s') = length (courses s) /\
  (forall i, foundAt s i = true -> foundAt s' i = true) /\
  exists evs, trace w' = trace w ++ evs /\
    forall i,
      (foundAt s i = true -> lookupsOf i evs = 0%nat) /\
      (notificationsOf i evs <=
         if foundAt s' i && negb (foundAt s i) then 1 else 0)%nat.

Definition quietEntry (e : Origin * Event) : Prop :=
  isPost (snd e) = false /\ isSend (snd e) = false.

Definition quietly {A} (c : M A) : Prop :=
  forall w, exists evs, trace (snd (c w)) = trace w ++ evs /\ Forall quietEntry evs.

(** The counter agrees with the entities. *)
Definition counted (s : Session) : Prop :=
  remaining s = Z.of_nat (length (pending (courses s))).

(** Entity [i] became found between two sessions. *)
Definition becameFound (s s' : Session) (i : nat) : bool :=
  negb (foundAt s i) && foundAt s' i.

(** The entities that the start-up loop tracks, when its first POST is
    the n-th of the run: the CRNs whose name resolves, in order, each
    pending. *)
Fixpoint tracked (env : Env) (cfg : Config) (n : nat) (crns : list string)
  : list CourseStatus :=
  match crns with
  | [] => []
  | crn :: rest =>
      match resolution env cfg crn n with
      | Ok name => mkCourseStatus crn name false :: tracked env cfg (S n) rest
      | Err _ => tracked env cfg (S n) rest
      end
  end.

(** A trace without lookups and notifications of the inner loop. *)
Definition beforePolling (evs : list (Origin * Event)) : Prop :=
  forall i, lookupsOf i evs = 0%nat /\ notificationsOf i evs = 0%nat.

(** The interval between two cycles. *)
Definition interval (cfg : Config) : Z := wrap64 (CheckInterval cfg * Second).

(** The sender object that [Run] binds to [emailSender]. *)
Definition senderOf (env : Env) (opts : RunOptions) : EmailSender :=
  match opts_EmailSender opts with
  | Some sender => sender
  | None => ResendSender (mkResendEmailSender (getenv env "RESEND_API_KEY"))
  end.

(** The session with which polling starts. *)
Definition firstSession (env : Env) (cfg : Config) : Session :=
  let cs := tracked env cfg 0 (CRNs cfg) in mkSession cs (Z.of_nat (length cs)).

(** The entities with their index. *)
Definition indexed (l : list CourseStatus) : list (nat * CourseStatus) := imap pair l.

(** The lookups that a cycle owes: one for each pending entity, in the
    order of the entities. *)
Definition owedLookups (cfg : Config) (attempt : Z) (l : list (nat * CourseStatus))
  : list (Origin * Event) :=
  map (fun ic => (Checking attempt (fst ic), lookupEvent cfg (snd ic)))
      (List.filter (fun ic => isPending (snd ic)) l).

(** Entity [i] is tracked and pending. *)
Definition pendingAt (s : Session) (i : nat) : bool :=
  match courses s !! i with
  | Some c => negb (Found c)
  | None => false
  end.

(** The notification that announces entity [i]. *)
Definition announce (cfg : Config) (attempt : Z) (s : Session) (i : nat)
  : list (Origin * Event) :=
  match courses s !! i with
  | Some c => [(Checking attempt i, notifyEvent cfg c)]
  | None => []
  end.

(** The k-th identifier of the configuration, resolved by the POST
    number [n + k]. *)
Definition resolveAt (env : Env) (cfg : Config) (n k : nat) (crn : string)
  : option CourseStatus :=
  match resolution env cfg crn (n + k) with
  | Ok name => Some (mkCourseStatus crn name false)
  | Err _ => None
  end.

(** What [sendEmail] returns when its call of the mail service is the
    n-th of the run. *)
Definition mailOutcome (env : Env) (n : nat) (to subject body : string) : option error :=
  fst (sendEmail env to subject body (mkWorld 0 n 0 Startup [])).

(** ** A timetable to run the program against *)

Module Demo.

(** The configuration file: two CRNs, a destination, one second between
    cycles, the defaults for the rest. *)
Definition configFile : Config := mkConfig ["111"; "222"] "me@vt.edu" 1 "" "" "".

Definition algebraPage : Document :=
  mkDocument "222 001 Algebra" [mkRow "222" " Algebra "].

Definition emptyPage : Document := mkDocument "" [].

(** The timetable knows section 222 only.  A search without
    [open_only] finds it; a search with [open_only] answers 500 when
    [openFrom] is [None], and otherwise finds the section from the
    [openFrom]-th POST on.  An empty URL is refused by the transport. *)
Definition timetable (openFrom : option nat) (n : nat) (targetUrl : string)
    (payload : Values) : HttpReply :=
  if bool_decide (targetUrl = "") then TransportError "unsupported protocol scheme"
  else
    let known := bool_decide (payload !! "crn" = Some ["222"]) in
    match payload !! "open_only" with
    | None => Response 200 (Some (if known then algebraPage else emptyPage))
    | Some _ =>
        match openFrom with
        | None => Response 500 None
        | Some k =>
            Response 200 (Some (if known && (k <=? n)%nat then algebraPage else emptyPage))
        end
    end.

(** The outside: the timetable, the API key of the environment, and a
    mail service that accepts or rejects every message. *)
Definition world (openFrom : option nat) (apiKey : string) (mailFails : bool) : Env :=
  mkEnv (fun _ => Parsed configFile)
        (fun name => if bool_decide (name = "RESEND_API_KEY") then apiKey else "")
        (timetable openFrom)
        (fun _ _ _ _ _ => if mailFails then Some "rejected" else None).

Definition options : RunOptions := mkRunOptions "config.json" None.

(** The configuration as [loadConfig] completes it. *)
Definition config : Config :=
  mkConfig ["111"; "222"] "me@vt.edu" 1 "202601" "0" DefaultTimetableURL.

Definition algebra (found : bool) : CourseStatus := mkCourseStatus "222" "Algebra" found.

(** An outside that answers every POST with the same reply, as the
    test servers of the repository do. *)
Definition serving (file : ConfigFile) (reply : HttpReply) : Env :=
  mkEnv (fun _ => file) (fun _ => "") (fun _ _ _ => reply) (fun _ _ _ _ _ => None).

(** A test that injects the mock. *)
Definition mockOptions : RunOptions :=
  mkRunOptions "config.json" (Some (MockSender (mkMockEmailSender [] false))).

End Demo.

(** ** More of the program *)

(** The rows of a timetable page that [getCourseName] takes for the
    course: those whose first cell contains the CRN. *)
Definition matchingRows (crn : string) (rows : list TableRow) : list TableRow :=
  List.filter (fun row => strings_Contains (td1 row) crn) rows.

(** What identifies an entity: its CRN and its name. *)
Definition identity (c : CourseStatus) : string * string := (CRN c, Name c).

(** The number of pending entities before entity [i]: in a cycle, the
    lookup of a pending entity [i] is the POST of that number. *)
Definition rank (l : list CourseStatus) (i : nat) : nat := length (pending (take i l)).

(** An entity after its turn of the inner loop, given what its lookup
    returns. *)
Definition afterLookup (c : CourseStatus) (r : result bool) : CourseStatus :=
  if Found c then c else if opened r then markFound c else c.

(** A computation all of whose events are of one kind. *)
Definition emitsOnly {A} (P : Origin * Event -> Prop) (c : M A) : Prop :=
  forall w, exists evs, trace (snd (c w)) = trace w ++ evs /\ Forall P evs.

(** The requests to the mail service in a trace. *)
Definition isResend (e : Event) : bool :=
  match e with EvResend _ _ _ _ => true | _ => false end.

Definition isSleep (e : Event) : bool :=
  match e with EvSleep _ => true | _ => false end.

(** A sequence of calls of [Send] on the mock: the results, and the
    mock afterwards. *)
Fixpoint mockSendAll (m : MockEmailSender) (msgs : list (string * string * string))
  : list (option error) * MockEmailSender :=
  match msgs with
  | [] => ([], m)
  | (to, subject, body) :: rest =>
      let (e, m') := MockEmailSender_Send m to subject body in
      let (es, m'') := mockSendAll m' rest in
      (e :: es, m'')
  end.

(** *** The single-section program of [main.go]

    The earlier program watches one section, whose CRN is a field of
    the configuration, and always asks the default timetable. *)
Module Legacy.

Record Config : Type := mkConfig {
  CRN : string;
  CheckInterval : Z;          (* a [time.Duration] *)
  Campus : string;
  Term : string
}.

Definition timetableUrl : string :=
  "https://selfservice.banner.vt.edu/ssb/HZSKVTSC.P_ProcRequest".

Definition buildPayload (c : Config) (openOnly : bool) : Values :=
  let rawMap : Values :=
    list_to_map
      [ ("CAMPUS", [Campus c]);
        ("TERMYEAR", [Term c]);
        ("CORE_CODE", ["AR%"]);
        ("subj_code", ["%"]);
        ("SCHDTYPE", ["%"]);
        ("CRSE_NUMBER", [""]);
        ("crn", [CRN c]);
        ("sess_code", ["%"]);
        ("BTN_PRESSED", ["FIND class sections"]);
        ("inst_name", [""]);
        ("disp_comments_in", [""]) ] in
  if openOnly then <["open_only" := ["on"]]> rawMap else rawMap.

(** [fetchDocument] of [main.go] is the function of the same name
    above, word for word. *)
Definition checkSectionOpen (env : Env) (cfg : Config) : M (result bool) :=
  let payload := buildPayload cfg true in
  let* r := fetchDocument env timetableUrl payload in
  match r with
  | Err err => ret (Err err)
  | Ok doc => ret (Ok (strings_Contains (tableText doc) (CRN cfg)))
  end.

End Legacy.

(** What a stretch of a session announces: a found entity stays found,
    and an entity has one notification exactly when it became found in
    between. *)
Definition announced (s : Session) (w : World) (s' : Session) (w' : World) : Prop :=
  (forall i, foundAt s i = true -> foundAt s' i = true) /\
  exists evs, trace w' = trace w ++ evs /\
    forall i, notificationsOf i evs = if becameFound s s' i then 1%nat else 0%nat.

(** The lookup was answered, whatever the answer. *)
Definition answered (r : result bool) : bool :=
  match r with
  | Ok _ => true
  | Err _ => false
  end.

(** The pause that a turn of the inner loop takes for entity [c] when
    its POST is the n-th of the run. *)
Definition pauseOf (env : Env) (cfg : Config) (n : nat) (c : CourseStatus) : Z :=
  if Found c then 0
  else if answered (availability env cfg (CRN c) n) then 500 * Millisecond else 0.

(** The number of turns of the spinner loop for an interval. *)
Definition ticks (iv : Z) : Z := Z.max 0 ((iv + 100 * Millisecond - 1) / (100 * Millisecond)).

(** ** The helpers, run *)

Section Helpers.

Variable env : Env.

Lemma fetchDocument_world targetUrl payload w :
  snd (fetchDocument env targetUrl payload w) =
  mkWorld (S (posts w)) (mails w) (now w) (pos w)
          (trace w ++ [(pos w, EvPost targetUrl payload)]).
Proof.
  unfold fetchDocument, bind, next_post, emit, ret; simpl.
  destruct (server env (posts w) targetUrl payload) as [cause|status body]; [reflexivity|].
  destruct (negb (status =? 200)); [reflexivity|].
  destruct body; reflexivity.
Qed.

Lemma fetchDocument_result targetUrl payload w :
  fst (fetchDocument env targetUrl payload w) =
  fst (fetchDocument env targetUrl payload (mkWorld (posts w) 0 0 Startup [])).
Proof.
  unfold fetchDocument, bind, next_post, emit, ret; simpl.
  destruct (server env (posts w) targetUrl payload) as [cause|status body]; [reflexivity|].
  destruct (negb (status =? 200)); [reflexivity|].
  destruct body; reflexivity.
Qed.

Lemma checkSectionOpen_run cfg crn w :
  checkSectionOpen env cfg crn w =
  (availability env cfg crn (posts w),
   mkWorld (S (posts w)) (mails w) (now w) (pos w)
           (trace w ++ [(pos w, EvPost (getBaseURL cfg) (buildPayload cfg crn true))])).
Proof.
  unfold availability, checkSectionOpen, bind.
  pose proof (fetchDocument_world (getBaseURL cfg) (buildPayload cfg crn true) w) as Hw.
  pose proof (fetchDocument_result (getBaseURL cfg) (buildPayload cfg crn true) w) as Hr.
  destruct (fetchDocument env (getBaseURL cfg) (buildPayload cfg crn true) w) as [r w'].
  destruct (fetchDocument env (getBaseURL cfg) (buildPayload cfg crn true)
              (mkWorld (posts w) 0 0 Startup [])) as [r0 w0].
  simpl in *. subst. destruct r0; reflexivity.
Qed.

Lemma getCourseName_run cfg crn w :
  getCourseName env cfg crn w =
  (resolution env cfg crn (posts w),
   mkWorld (S (posts w)) (mails w) (now w) (pos w)
           (trace w ++ [(pos w, EvPost (BaseURL cfg) (buildPayload cfg crn false))])).
Proof.
  unfold resolution, getCourseName, bind.
  pose proof (fetchDocument_world (BaseURL cfg) (buildPayload cfg crn false) w) as Hw.
  pose proof (fetchDocument_result (BaseURL cfg) (buildPayload cfg crn false) w) as Hr.
  destruct (fetchDocument env (BaseURL cfg) (buildPayload cfg crn false) w) as [r w'].
  destruct (fetchDocument env (BaseURL cfg) (buildPayload cfg crn false)
              (mkWorld (posts w) 0 0 Startup [])) as [r0 w0].
  simpl in *. subst. destruct r0 as [doc|e]; [|reflexivity].
  destruct (bool_decide _); reflexivity.
Qed.

Lemma sendEmail_world to subject body w :
  snd (sendEmail env to subject body w) =
  mkWorld (posts w)
          (if bool_decide (getenv env "RESEND_API_KEY" = "") then mails w else S (mails w))
          (now w) (pos w)
          (trace w ++ map (pair (pos w)) (mailEvents env to subject body)).
Proof.
  unfold sendEmail, mailEvents, bind, next_mail, emit, ret; simpl.
  destruct (bool_decide (getenv env "RESEND_API_KEY" = "")); simpl; [reflexivity|].
  rewrite <- app_assoc. reflexivity.
Qed.

End Helpers.

Section Step.

Variable env : Env.
Variable cfg : Config.
Variables attempt checkTime : Z.

Lemma checkCourse_skip s i w :
  foundAt s i = true -> checkCourse env cfg attempt checkTime s i w = (s, w).
Proof.
  unfold foundAt, checkCourse. destruct (courses s !! i) as [c|]; [|discriminate].
  intros ->. reflexivity.
Qed.

Lemma checkCourse_out s i w :
  courses s !! i = None -> checkCourse env cfg attempt checkTime s i w = (s, w).
Proof. unfold checkCourse. intros ->. reflexivity. Qed.

Lemma checkCourse_pending s i w c :
  courses s !! i = Some c -> Found c = false ->
  let r := availability env cfg (CRN c) (posts w) in
  let w' := snd (checkCourse env cfg attempt checkTime s i w) in
  fst (checkCourse env cfg attempt checkTime s i w) = stepSession s i c r /\
  trace w' = trace w ++
             map (pair (Checking attempt i)) (stepEvents env cfg attempt checkTime c r) /\
  posts w' = S (posts w).
Proof.
  intros Hc Hf r w'. subst r w'.
  unfold checkCourse. rewrite Hc, Hf.
  unfold time_Sleep, Printf, bind, at_pos, emit, ret. simpl.
  rewrite checkSectionOpen_run. simpl.
  unfold stepEvents, stepSession, lookupEvent.
  destruct (availability env cfg (CRN c) (posts w)) as [[|]|err]; simpl.
  - destruct (bool_decide (Email cfg <> "")); simpl.
    + match goal with |- context [sendEmail env ?a ?b ?c ?w0] =>
        pose proof (sendEmail_world env a b c w0) as Hs;
        destruct (sendEmail env a b c w0) as [e ws] end.
      simpl in Hs. subst ws. unfold mailEvents. simpl.
      repeat split.
      destruct (bool_decide (getenv env "RESEND_API_KEY" = "")); simpl;
        rewrite <- !app_assoc; reflexivity.
    + repeat split. rewrite <- !app_assoc. reflexivity.
  - repeat split. rewrite <- !app_assoc. reflexivity.
  - repeat split. rewrite <- !app_assoc. reflexivity.
Qed.

End Step.

(** ** Counting in traces *)

Lemma lookupsOf_app i tr tr' :
  lookupsOf i (tr ++ tr') = (lookupsOf i tr + lookupsOf i tr')%nat.
Proof. unfold lookupsOf. rewrite List.filter_app, length_app. reflexivity. Qed.

Lemma notificationsOf_app i tr tr' :
  notificationsOf i (tr ++ tr') = (notificationsOf i tr + notificationsOf i tr')%nat.
Proof. unfold notificationsOf. rewrite List.filter_app, length_app. reflexivity. Qed.

Lemma lookupsOf_at i o evs :
  lookupsOf i (map (pair o) evs) =
  if checking i o then length (List.filter isPost evs) else 0%nat.
Proof.
  unfold lookupsOf. induction evs as [|e evs IH]; simpl.
  - destruct (checking i o); reflexivity.
  - destruct (checking i o); simpl in *; [|exact IH].
    destruct (isPost e); simpl; rewrite IH; reflexivity.
Qed.

Lemma notificationsOf_at i o evs :
  notificationsOf i (map (pair o) evs) =
  if checking i o then length (List.filter isSend evs) else 0%nat.
Proof.
  unfold notificationsOf. induction evs as [|e evs IH]; simpl.
  - destruct (checking i o); reflexivity.
  - destruct (checking i o); simpl in *; [|exact IH].
    destruct (isSend e); simpl; rewrite IH; reflexivity.
Qed.

Lemma lookups_at o evs :
  lookups (map (pair o) evs) = map (pair o) (List.filter isPost evs).
Proof. unfold lookups. rewrite filter_map_swap. reflexivity. Qed.

Lemma notifications_at o evs :
  notifications (map (pair o) evs) = map (pair o) (List.filter isSend evs).
Proof. unfold notifications. rewrite filter_map_swap. reflexivity. Qed.

Lemma emitted_app w w' evs : trace w' = trace w ++ evs -> emitted w w' = evs.
Proof. unfold emitted. intros ->. apply drop_app_length. Qed.

Lemma checking_same a i : checking i (Checking a i) = true.
Proof. simpl. apply Nat.eqb_refl. Qed.

Lemma checking_other a i k : i <> k -> checking i (Checking a k) = false.
Proof. simpl. intros H. apply Nat.eqb_neq. exact H. Qed.

(** ** Loops *)

(** The invariant rule of [forRange]: what holds before the loop and is
    kept by every turn holds after the loop. *)
Lemma forRange_invariant {A S : Type} (body : S -> A -> M S)
      (I : nat -> S -> World -> Prop) (l : list A) (s : S) (w : World) :
  I 0%nat s w ->
  (forall k x s w, l !! k = Some x -> I k s w ->
                   I (Datatypes.S k) (fst (body s x w)) (snd (body s x w))) ->
  I (length l) (fst (forRange body s l w)) (snd (forRange body s l w)).
Proof.
  intros H0 Hstep.
  assert (G : forall l2 l1 s w, l = l1 ++ l2 -> I (length l1) s w ->
              I (length l) (fst (forRange body s l2 w)) (snd (forRange body s l2 w))).
  { induction l2 as [|x l2 IH]; intros l1 s1 w1 El HI.
    - simpl. rewrite El, app_nil_r. exact HI.
    - simpl. unfold bind.
      specialize (Hstep (length l1) x s1 w1).
      destruct (body s1 x w1) as [s2 w2] eqn:Eb. simpl in Hstep.
      apply (IH (l1 ++ [x])).
      + rewrite <- app_assoc. exact El.
      + rewrite length_app. simpl. rewrite Nat.add_1_r. apply Hstep; [|exact HI].
        rewrite El. rewrite lookup_app_r by lia.
        rewrite Nat.sub_diag. reflexivity. }
  apply (G l [] s w); [reflexivity|exact H0].
Qed.

(** *** Pending entities under an update *)

Lemma pending_markFound l i c :
  l !! i = Some c -> Found c = false ->
  length (pending l) = Datatypes.S (length (pending (<[i := markFound c]> l))).
Proof.
  revert i. induction l as [|d l IH]; intros [|i] Hl Hf; simpl in *; try discriminate.
  - injection Hl as ->. unfold isPending. rewrite Hf. reflexivity.
  - destruct (isPending d); simpl; rewrite (IH i Hl Hf); reflexivity.
Qed.

Lemma foundAt_insert s i c j r :
  courses s !! i = Some c ->
  foundAt (stepSession s i c r) j =
  match r with
  | Ok true => if decide (i = j) then true else foundAt s j
  | _ => foundAt s j
  end.
Proof.
  intros Hc. unfold stepSession, foundAt.
  destruct r as [[|]|e]; try reflexivity. simpl.
  destruct (decide (i = j)) as [->|Hne].
  - rewrite list_lookup_insert_eq; [reflexivity|]. eapply lookup_lt_Some; eauto.
  - rewrite list_lookup_insert_ne by exact Hne. reflexivity.
Qed.

Lemma stepSession_length s i c r :
  length (courses (stepSession s i c r)) = length (courses s).
Proof.
  unfold stepSession. destruct r as [[|]|e]; try reflexivity.
  simpl. apply length_insert.
Qed.

(** *** One turn of the inner loop *)

Lemma stepEvents_posts env cfg a t c r :
  List.filter isPost (stepEvents env cfg a t c r) = [lookupEvent cfg c].
Proof.
  unfold stepEvents, mailEvents, lookupEvent. simpl.
  destruct r as [[|]|e]; simpl; try reflexivity.
  destruct (bool_decide (Email cfg <> "")); simpl; [|reflexivity].
  destruct (bool_decide (getenv env "RESEND_API_KEY" = "")); reflexivity.
Qed.

Lemma stepEvents_sends env cfg a t c r :
  List.filter isSend (stepEvents env cfg a t c r) =
  if opened r && bool_decide (Email cfg <> "") then [notifyEvent cfg c] else [].
Proof.
  unfold stepEvents, mailEvents, lookupEvent, notifyEvent. simpl.
  destruct r as [[|]|e]; simpl; try reflexivity.
  destruct (bool_decide (Email cfg <> "")); simpl; [|reflexivity].
  destruct (bool_decide (getenv env "RESEND_API_KEY" = "")); reflexivity.
Qed.

Lemma progress_refl s w : progress s w s w.
Proof.
  split; [reflexivity|]. split; [auto|].
  exists []. split; [rewrite app_nil_r; reflexivity|].
  intros i. split; [reflexivity|]. unfold notificationsOf. simpl. lia.
Qed.

Lemma progress_trans s w s1 w1 s2 w2 :
  progress s w s1 w1 -> progress s1 w1 s2 w2 -> progress s w s2 w2.
Proof.
  intros (L1 & F1 & evs1 & T1 & C1) (L2 & F2 & evs2 & T2 & C2).
  split; [congruence|]. split; [auto|].
  exists (evs1 ++ evs2). split; [rewrite T2, T1, app_assoc; reflexivity|].
  intros i. destruct (C1 i) as [K1 N1], (C2 i) as [K2 N2].
  rewrite lookupsOf_app, notificationsOf_app. split.
  - intros Hf. rewrite (K1 Hf), (K2 (F1 i Hf)). reflexivity.
  - specialize (F1 i). specialize (F2 i).
    destruct (foundAt s i), (foundAt s1 i), (foundAt s2 i); simpl in *;
      try lia; try (specialize (F1 eq_refl); discriminate);
      try (specialize (F2 eq_refl); discriminate).
Qed.

(** A computation that leaves the session alone and neither looks up
    nor notifies makes (trivial) progress. *)
Lemma progress_quiet s w w' evs :
  trace w' = trace w ++ evs ->
  Forall (fun e => isPost (snd e) = false /\ isSend (snd e) = false) evs ->
  progress s w s w'.
Proof.
  intros T Q. split; [reflexivity|]. split; [auto|].
  exists evs. split; [exact T|].
  assert (Z : forall i, lookupsOf i evs = 0%nat /\ notificationsOf i evs = 0%nat).
  { intros i. unfold lookupsOf, notificationsOf. clear T.
    induction Q as [|e evs [P S] Q IH]; simpl; [split; reflexivity|].
    rewrite P, S, !andb_false_r. exact IH. }
  intros i. destruct (Z i) as [-> ->]. split; [reflexivity|lia].
Qed.

Lemma checkCourse_progress env cfg a t s i w :
  progress s w (fst (checkCourse env cfg a t s i w)) (snd (checkCourse env cfg a t s i w)).
Proof.
  destruct (courses s !! i) as [c|] eqn:Hc.
  2: { rewrite checkCourse_out by exact Hc. apply progress_refl. }
  destruct (Found c) eqn:Hf.
  { rewrite checkCourse_skip; [apply progress_refl|].
    unfold foundAt. rewrite Hc. exact Hf. }
  destruct (checkCourse_pending env cfg a t s i w c Hc Hf) as (Es & Et & _).
  rewrite Es. set (r := availability env cfg (CRN c) (posts w)) in *.
  split; [apply stepSession_length|]. split.
  - intros j Hj. rewrite foundAt_insert by exact Hc.
    destruct r as [[|]|e]; try exact Hj. destruct (decide (i = j)); [reflexivity|exact Hj].
  - eexists. split; [exact Et|]. intros j.
    rewrite lookupsOf_at, notificationsOf_at, stepEvents_posts, stepEvents_sends.
    rewrite foundAt_insert by exact Hc.
    assert (Hi : foundAt s i = false) by (unfold foundAt; rewrite Hc; exact Hf).
    destruct (decide (i = j)) as [<-|Hne].
    + rewrite checking_same, Hi. split; [discriminate|].
      destruct r as [[|]|e]; simpl; try lia.
      destruct (bool_decide (Email cfg <> "")); simpl; lia.
    + rewrite checking_other by congruence.
      split; [reflexivity|]. lia.
Qed.

(** *** Computations without lookups and notifications *)

Lemma quietly_ret {A} (a : A) : quietly (ret a).
Proof. intros w. exists []. simpl. rewrite app_nil_r. split; [reflexivity|constructor]. Qed.

Lemma quietly_bind {A B} (c : M A) (k : A -> M B) :
  quietly c -> (forall a, quietly (k a)) -> quietly (bind c k).
Proof.
  intros Hc Hk w. unfold bind.
  destruct (Hc w) as (evs1 & T1 & Q1). destruct (c w) as [a w1]. simpl in T1.
  destruct (Hk a w1) as (evs2 & T2 & Q2).
  exists (evs1 ++ evs2). split.
  - rewrite T2, T1, app_assoc. reflexivity.
  - apply Forall_app. split; assumption.
Qed.

Lemma quietly_Printf m : quietly (Printf m).
Proof.
  intros w. exists [(pos w, EvPrint m)]. split; [reflexivity|].
  repeat constructor.
Qed.

Lemma quietly_at_pos o : quietly (at_pos o).
Proof. intros w. exists []. simpl. rewrite app_nil_r. split; [reflexivity|constructor]. Qed.

Lemma quietly_Now : quietly time_Now.
Proof. intros w. exists []. simpl. rewrite app_nil_r. split; [reflexivity|constructor]. Qed.

Lemma quietly_Sleep d : quietly (time_Sleep d).
Proof.
  intros w. exists [(pos w, EvSleep d)]. split; [reflexivity|].
  repeat constructor.
Qed.

Lemma quietly_waitLoop fuel a t s u i : quietly (waitLoop fuel a t s u i).
Proof.
  revert i. induction fuel as [|fuel IH]; intros i; simpl.
  - apply quietly_ret.
  - apply quietly_bind; [apply quietly_Now|]. intros n.
    destruct (n <? u); [|apply quietly_ret].
    apply quietly_bind; [apply quietly_Now|]. intros n'.
    apply quietly_bind; [apply quietly_Printf|]. intros _.
    apply quietly_bind; [apply quietly_Sleep|]. intros _.
    apply IH.
Qed.

Lemma quietly_waitInterval iv a t s : quietly (waitInterval iv a t s).
Proof.
  unfold waitInterval.
  apply quietly_bind; [apply quietly_at_pos|]. intros _.
  apply quietly_bind; [apply quietly_Now|]. intros n.
  apply quietly_waitLoop.
Qed.

Lemma quietly_progress {A} (c : M A) s w : quietly c -> progress s w s (snd (c w)).
Proof.
  intros Q. destruct (Q w) as (evs & T & F).
  eapply progress_quiet; [exact T|exact F].
Qed.

(** *** The wait between two cycles *)

(** The fuel of the spinner loop is enough: the loop ends because the
    clock has reached [waitUntil]. *)
Lemma waitLoop_elapsed a t s u : forall fuel i w,
  u - now w <= Z.of_nat fuel * (100 * Millisecond) ->
  u <= now (snd (waitLoop fuel a t s u i w)).
Proof.
  induction fuel as [|fuel IH]; intros i w H.
  - simpl in *. lia.
  - cbn [waitLoop]. unfold bind at 1. unfold time_Now at 1.
    destruct (now w <? u) eqn:E.
    + unfold time_Sleep, Printf, bind, time_Now, emit. simpl.
      apply IH. simpl. unfold Millisecond in *. lia.
    + simpl. apply Z.ltb_ge in E. exact E.
Qed.

Lemma waitInterval_elapsed iv a t s w :
  now w + iv <= now (snd (waitInterval iv a t s w)).
Proof.
  unfold waitInterval. unfold bind at 1. unfold at_pos at 1.
  unfold bind at 1. unfold time_Now at 1.
  apply waitLoop_elapsed. cbn [now].
  replace (100 * Millisecond) with 100000000 by reflexivity.
  destruct (Z.lt_ge_cases iv 0) as [Hn|Hp]; [lia|].
  rewrite Nat2Z.inj_succ, Z2Nat.id by (apply Z.div_pos; lia).
  pose proof (Z.mul_succ_div_gt iv 100000000). lia.
Qed.

(** *** The cycle and the outer loop *)

Lemma pollCycle_progress env cfg a t s w :
  progress s w (fst (pollCycle env cfg a t s w)) (snd (pollCycle env cfg a t s w)).
Proof.
  unfold pollCycle.
  apply (forRange_invariant (checkCourse env cfg a t)
           (fun _ s' w' => progress s w s' w')).
  - apply progress_refl.
  - intros k x s1 w1 _ H1. eapply progress_trans; [exact H1|].
    apply checkCourse_progress.
Qed.

Lemma runLoop_progress env cfg iv fuel : forall a s w,
  progress s w (snd (fst (runLoop env fuel cfg iv a s w)))
               (snd (runLoop env fuel cfg iv a s w)).
Proof.
  induction fuel as [|fuel IH]; intros a s w; simpl.
  - apply progress_refl.
  - unfold bind, time_Now.
    pose proof (pollCycle_progress env cfg a (now w) s w) as Hc.
    destruct (pollCycle env cfg a (now w) s w) as [s1 w1]. simpl in Hc.
    destruct (remaining s1 =? 0).
    + simpl. eapply progress_trans; [exact Hc|].
      apply (quietly_progress (Printf MsgAllFound)). apply quietly_Printf.
    + pose proof (quietly_progress (waitInterval iv a (now w) s1) s1 w1
                    (quietly_waitInterval iv a (now w) s1)) as Hw.
      destruct (waitInterval iv a (now w) s1 w1) as [[] w2]. simpl in Hw.
      eapply progress_trans; [exact Hc|].
      eapply progress_trans; [exact Hw|]. apply IH.
Qed.

(** The loop ends in one way only: with [nil], when no entity remains. *)
Lemma runLoop_outcome env cfg iv fuel : forall a s w,
  let r := fst (runLoop env fuel cfg iv a s w) in
  (fst r = Returned None /\ remaining (snd r) = 0) \/
  (fst r = Polling /\ (fuel = 0%nat \/ remaining (snd r) <> 0)).
Proof.
  induction fuel as [|fuel IH]; intros a s w; simpl.
  - right. split; [reflexivity|left; reflexivity].
  - unfold bind, time_Now.
    destruct (pollCycle env cfg a (now w) s w) as [s1 w1].
    destruct (remaining s1 =? 0) eqn:E.
    + left. simpl. split; [reflexivity|]. apply Z.eqb_eq. exact E.
    + destruct (waitInterval iv a (now w) s1 w1) as [[] w2].
      specialize (IH (a + 1) s1 w2). simpl in IH.
      destruct IH as [IH|[IH1 [->|IH2]]]; [left; exact IH| |].
      * right. simpl. split; [reflexivity|]. right. apply Z.eqb_neq. exact E.
      * right. split; [exact IH1|right; exact IH2].
Qed.

(** *** The remaining counter *)

Lemma checkCourse_remaining env cfg a t s i w :
  let s' := fst (checkCourse env cfg a t s i w) in
  remaining s' = remaining s - (if becameFound s s' i then 1 else 0).
Proof.
  simpl. unfold becameFound.
  destruct (courses s !! i) as [c|] eqn:Hc.
  2: { rewrite checkCourse_out by exact Hc. simpl.
       unfold foundAt. rewrite Hc. simpl. lia. }
  destruct (Found c) eqn:Hf.
  { rewrite checkCourse_skip by (unfold foundAt; rewrite Hc; exact Hf). simpl.
    unfold foundAt. rewrite Hc, Hf. simpl. lia. }
  destruct (checkCourse_pending env cfg a t s i w c Hc Hf) as (Es & _ & _).
  rewrite Es, foundAt_insert by exact Hc.
  assert (Hi : foundAt s i = false) by (unfold foundAt; rewrite Hc; exact Hf).
  rewrite Hi. simpl.
  destruct (availability env cfg (CRN c) (posts w)) as [[|]|e]; simpl; rewrite ?Hi; try lia.
  destruct (decide (i = i)); [lia|congruence].
Qed.

Lemma checkCourse_counted env cfg a t s i w :
  counted s -> counted (fst (checkCourse env cfg a t s i w)).
Proof.
  unfold counted. intros Hs.
  destruct (courses s !! i) as [c|] eqn:Hc.
  2: { rewrite checkCourse_out by exact Hc. exact Hs. }
  destruct (Found c) eqn:Hf.
  { rewrite checkCourse_skip by (unfold foundAt; rewrite Hc; exact Hf). exact Hs. }
  destruct (checkCourse_pending env cfg a t s i w c Hc Hf) as (Es & _ & _).
  rewrite Es. unfold stepSession.
  destruct (availability env cfg (CRN c) (posts w)) as [[|]|e]; try exact Hs.
  simpl. rewrite Hs, (pending_markFound _ _ _ Hc Hf). lia.
Qed.

Lemma pollCycle_counted env cfg a t s w :
  counted s -> counted (fst (pollCycle env cfg a t s w)).
Proof.
  intros Hs. unfold pollCycle.
  apply (forRange_invariant (checkCourse env cfg a t) (fun _ s' _ => counted s')).
  - exact Hs.
  - intros k x s1 w1 _ H1. apply checkCourse_counted. exact H1.
Qed.

Lemma runLoop_counted env cfg iv fuel : forall a s w,
  counted s -> counted (snd (fst (runLoop env fuel cfg iv a s w))).
Proof.
  induction fuel as [|fuel IH]; intros a s w Hs; simpl; [exact Hs|].
  unfold bind, time_Now.
  pose proof (pollCycle_counted env cfg a (now w) s w Hs) as Hc.
  destruct (pollCycle env cfg a (now w) s w) as [s1 w1]. simpl in Hc.
  destruct (remaining s1 =? 0); [exact Hc|].
  destruct (waitInterval iv a (now w) s1 w1) as [[] w2].
  apply IH. exact Hc.
Qed.

(** *** Start-up *)

Lemma tracked_pending env cfg crns : forall n,
  pending (tracked env cfg n crns) = tracked env cfg n crns.
Proof.
  induction crns as [|crn rest IH]; intros n; simpl; [reflexivity|].
  destruct (resolution env cfg crn n); simpl; rewrite ?IH; reflexivity.
Qed.

Lemma resolveCourse_run env cfg acc crn w :
  resolveCourse env cfg acc crn w =
  (match resolution env cfg crn (posts w) with
   | Ok name => acc ++ [mkCourseStatus crn name false]
   | Err _ => acc
   end,
   mkWorld (S (posts w)) (mails w) (now w) (pos w)
     (trace w ++
      map (pair (pos w))
        [EvPost (BaseURL cfg) (buildPayload cfg crn false);
         EvPrint (match resolution env cfg crn (posts w) with
                  | Ok name => MsgResolved crn name
                  | Err _ => MsgSkipping crn
                  end)])).
Proof.
  unfold resolveCourse, bind. rewrite getCourseName_run.
  destruct (resolution env cfg crn (posts w)) as [name|e];
    unfold Printf, emit, ret; simpl; rewrite <- app_assoc; reflexivity.
Qed.

Lemma resolve_loop env cfg crns : forall acc w,
  pos w = Resolving ->
  let r := forRange (resolveCourse env cfg) acc crns w in
  fst r = acc ++ tracked env cfg (posts w) crns /\
  pos (snd r) = Resolving /\
  exists evs, trace (snd r) = trace w ++ map (pair Resolving) evs /\
              List.filter isSend evs = [] /\
              List.filter isPost evs = map (nameSearch cfg) crns.
Proof.
  induction crns as [|crn rest IH]; intros acc w Hp; simpl.
  - rewrite app_nil_r. repeat split; try assumption.
    exists []. simpl. rewrite app_nil_r. repeat split; reflexivity.
  - unfold bind. rewrite resolveCourse_run, Hp.
    match goal with |- context [forRange _ ?acc' rest ?w'] =>
      specialize (IH acc' w' eq_refl);
      destruct (forRange (resolveCourse env cfg) acc' rest w') as [r1 w1] end.
    simpl in IH. destruct IH as (E1 & E2 & evs & E3 & E4 & E5). simpl.
    split; [|split; [exact E2|]].
    + rewrite E1. destruct (resolution env cfg crn (posts w)); [|reflexivity].
      rewrite <- app_assoc. reflexivity.
    + eexists (EvPost (BaseURL cfg) (buildPayload cfg crn false) :: EvPrint _ :: evs).
      split; [rewrite E3, <- !app_assoc; reflexivity|].
      split; [exact E4|]. simpl. rewrite E5. reflexivity.
Qed.

(** *** The shape of a run *)

Lemma beforePolling_at o evs :
  (forall i, checking i o = false) -> beforePolling (map (pair o) evs).
Proof.
  intros H i. rewrite lookupsOf_at, notificationsOf_at, H. split; reflexivity.
Qed.

Lemma beforePolling_app evs evs' :
  beforePolling evs -> beforePolling evs' -> beforePolling (evs ++ evs').
Proof.
  intros H H' i. rewrite lookupsOf_app, notificationsOf_app.
  destruct (H i) as [-> ->], (H' i) as [-> ->]. split; reflexivity.
Qed.

Lemma Run_load_error env fuel opts w cfg e :
  loadConfig env (ConfigPath opts) = (cfg, Some e) ->
  Run env fuel opts w =
  (mkRunResult (Returned (Some (ErrLoadConfig e))) emptySession (opts_EmailSender opts), w).
Proof. unfold Run. intros ->. reflexivity. Qed.

Lemma Run_startup env opts cfg :
  loadConfig env (ConfigPath opts) = (cfg, None) ->
  exists w0,
    beforePolling (trace w0) /\
    forall fuel,
      Run env fuel opts initialWorld =
      if (length (tracked env cfg 0 (CRNs cfg)) =? 0)%nat
      then (mkRunResult (Returned (Some ErrNoValidCRNs))
              (mkSession (tracked env cfg 0 (CRNs cfg)) 0) (Some (senderOf env opts)), w0)
      else
        let r := runLoop env fuel cfg (interval cfg) 1 (firstSession env cfg)
                   (snd (Printf MsgSeparator w0)) in
        (mkRunResult (fst (fst r)) (snd (fst r)) (Some (senderOf env opts)), snd r).
Proof.
  intros Hload. unfold Run. rewrite Hload.
  unfold bind at 1. unfold bind at 1. unfold bind at 1. unfold bind at 1.
  unfold resolveCourses, bind at 1.
  unfold Printf, emit, at_pos, initialWorld. simpl.
  match goal with |- context [forRange _ [] (CRNs cfg) ?w'] =>
    destruct (resolve_loop env cfg (CRNs cfg) [] w' eq_refl) as (E1 & E2 & evs & E3 & E4 & _);
    destruct (forRange (resolveCourse env cfg) [] (CRNs cfg) w') as [cs w0] eqn:Ew end.
  simpl in E1, E2, E3. subst cs.
  exists w0. split.
  - rewrite E3.
    apply (beforePolling_app (map (pair Startup) [_; _; _]) (map (pair Resolving) evs));
      apply beforePolling_at; reflexivity.
  - intros fuel.
    destruct (length (tracked env cfg 0 (CRNs cfg)) =? 0)%nat; [reflexivity|].
    unfold firstSession, interval, bind, ret, Printf, emit. simpl.
    destruct (runLoop _ _ _ _ _ _ _) as [[o s] w1]. reflexivity.
Qed.

(** *** The lookups of a cycle *)

Lemma owedLookups_snoc cfg a l i c :
  owedLookups cfg a (l ++ [(i, c)]) =
  owedLookups cfg a l ++ (if Found c then [] else [(Checking a i, lookupEvent cfg c)]).
Proof.
  unfold owedLookups. rewrite List.filter_app, map_app. simpl.
  unfold isPending. destruct (Found c); reflexivity.
Qed.

Lemma indexed_take_S l k c :
  l !! k = Some c -> take (S k) (indexed l) = take k (indexed l) ++ [(k, c)].
Proof.
  intros H. apply take_S_r. unfold indexed. rewrite list_lookup_imap, H. reflexivity.
Qed.

Lemma lookups_app tr tr' : lookups (tr ++ tr') = lookups tr ++ lookups tr'.
Proof. apply List.filter_app. Qed.

Lemma notifications_app tr tr' :
  notifications (tr ++ tr') = notifications tr ++ notifications tr'.
Proof. apply List.filter_app. Qed.

Lemma pollCycle_lookups env cfg a t s w :
  let w' := snd (pollCycle env cfg a t s w) in
  exists evs, trace w' = trace w ++ evs /\
              lookups evs = owedLookups cfg a (indexed (courses s)).
Proof.
  simpl. unfold pollCycle.
  set (l0 := courses s). set (n := length l0).
  assert (G : (fun k s' w' =>
             length (courses s') = n /\
             (forall j, (k <= j)%nat -> courses s' !! j = l0 !! j) /\
             exists evs, trace w' = trace w ++ evs /\
                         lookups evs = owedLookups cfg a (take k (indexed l0)))
            (length (seq 0 n))
            (fst (forRange (checkCourse env cfg a t) s (seq 0 n) w))
            (snd (forRange (checkCourse env cfg a t) s (seq 0 n) w))).
  { apply forRange_invariant.
    - split; [reflexivity|]. split; [reflexivity|].
      exists []. rewrite app_nil_r. split; reflexivity.
    - intros k x s1 w1 Hx (L1 & U1 & evs & T1 & K1).
      apply lookup_seq in Hx. destruct Hx as [-> Hk]. simpl in *.
      destruct (l0 !! k) as [c|] eqn:Hc.
      2: { apply lookup_ge_None in Hc. fold n in Hc. lia. }
      assert (Hc1 : courses s1 !! k = Some c) by (rewrite U1 by lia; exact Hc).
      rewrite (indexed_take_S _ _ _ Hc), owedLookups_snoc.
      destruct (Found c) eqn:Hf.
      + rewrite checkCourse_skip by (unfold foundAt; rewrite Hc1; exact Hf). simpl.
        split; [exact L1|]. split; [intros j Hj; apply U1; lia|].
        exists evs. rewrite app_nil_r. split; assumption.
      + destruct (checkCourse_pending env cfg a t s1 k w1 c Hc1 Hf) as (Es & Et & _).
        rewrite Es, Et. split; [rewrite stepSession_length; exact L1|]. split.
        * intros j Hj. rewrite <- U1 by lia. unfold stepSession.
          destruct (availability env cfg (CRN c) (posts w1)) as [[|]|e]; try reflexivity.
          simpl. apply list_lookup_insert_ne. lia.
        * eexists. split; [rewrite T1, <- app_assoc; reflexivity|].
          rewrite lookups_app, K1, lookups_at, stepEvents_posts. reflexivity. }
  simpl in G. destruct G as (_ & _ & evs & T & K).
  exists evs. split; [exact T|].
  rewrite K, length_seq. unfold n, indexed. rewrite <- (length_imap pair l0).
  rewrite firstn_all. reflexivity.
Qed.

(** *** A cycle in which no lookup reports an open section *)

Lemma pending_rank l k c :
  l !! k = Some c -> Found c = false ->
  pending l !! length (pending (take k l)) = Some c.
Proof.
  intros H Hf.
  assert (E : pending l = pending (take k l) ++ c :: pending (drop (S k) l)).
  { rewrite <- (take_drop_middle l k c H) at 1.
    unfold pending. rewrite List.filter_app. simpl.
    unfold isPending at 2. rewrite Hf. reflexivity. }
  rewrite E, lookup_app_r by lia. rewrite Nat.sub_diag. reflexivity.
Qed.

Lemma pending_take_S l k c :
  l !! k = Some c ->
  pending (take (S k) l) = pending (take k l) ++ (if Found c then [] else [c]).
Proof.
  intros H. rewrite (take_S_r _ _ _ H). unfold pending.
  rewrite List.filter_app. simpl. unfold isPending. destruct (Found c); reflexivity.
Qed.

(** The lookup of the p-th pending entity is the p-th POST of the
    cycle; if none of them reports an open section, the cycle leaves the
    session as it is and notifies nobody. *)
Lemma pollCycle_unopened env cfg a t s w :
  (forall p c, pending (courses s) !! p = Some c ->
               opened (availability env cfg (CRN c) (posts w + p)) = false) ->
  fst (pollCycle env cfg a t s w) = s /\
  exists evs, trace (snd (pollCycle env cfg a t s w)) = trace w ++ evs /\
              notifications evs = [].
Proof.
  intros Hno. unfold pollCycle.
  set (l0 := courses s). set (n := length l0).
  assert (G : (fun k s' w' =>
             s' = s /\
             posts w' = (posts w + length (pending (take k l0)))%nat /\
             exists evs, trace w' = trace w ++ evs /\ notifications evs = [])
            (length (seq 0 n))
            (fst (forRange (checkCourse env cfg a t) s (seq 0 n) w))
            (snd (forRange (checkCourse env cfg a t) s (seq 0 n) w))).
  { apply forRange_invariant.
    - split; [reflexivity|]. split; [simpl; lia|].
      exists []. rewrite app_nil_r. split; reflexivity.
    - intros k x s1 w1 Hx (-> & P1 & evs & T1 & N1).
      apply lookup_seq in Hx. destruct Hx as [-> Hk]. simpl in *.
      destruct (l0 !! k) as [c|] eqn:Hc.
      2: { apply lookup_ge_None in Hc. fold n in Hc. lia. }
      rewrite (pending_take_S _ _ _ Hc).
      destruct (Found c) eqn:Hf.
      + rewrite checkCourse_skip by (unfold foundAt; fold l0; rewrite Hc; exact Hf).
        simpl. rewrite app_nil_r. split; [reflexivity|]. split; [exact P1|].
        exists evs. split; assumption.
      + destruct (checkCourse_pending env cfg a t s k w1 c Hc Hf) as (Es & Et & Ep).
        pose proof (Hno _ _ (pending_rank _ _ _ Hc Hf)) as Hr.
        rewrite <- P1 in Hr.
        rewrite Es, Et, Ep. split; [|split].
        * unfold stepSession.
          destruct (availability env cfg (CRN c) (posts w1)) as [[|]|e];
            [discriminate|reflexivity|reflexivity].
        * rewrite P1, length_app. simpl. lia.
        * eexists. split; [rewrite T1, <- app_assoc; reflexivity|].
          rewrite notifications_app, N1, notifications_at, stepEvents_sends, Hr.
          reflexivity. }
  simpl in G. destruct G as (E & _ & evs & T & N).
  split; [exact E|]. exists evs. split; assumption.
Qed.

(** *** More fuel *)

Lemma runLoop_more env cfg iv n k : forall a s w,
  progress (snd (fst (runLoop env n cfg iv a s w))) (snd (runLoop env n cfg iv a s w))
           (snd (fst (runLoop env (n + k) cfg iv a s w)))
           (snd (runLoop env (n + k) cfg iv a s w)).
Proof.
  induction n as [|n IH]; intros a s w.
  - apply runLoop_progress.
  - simpl. unfold bind, time_Now.
    destruct (pollCycle env cfg a (now w) s w) as [s1 w1].
    destruct (remaining s1 =? 0); [apply progress_refl|].
    destruct (waitInterval iv a (now w) s1 w1) as [[] w2].
    apply IH.
Qed.

(** *** Lookups, entity by entity *)

Lemma lookupsOf_lookups i evs :
  lookupsOf i evs = length (List.filter (fun e => checking i (fst e)) (lookups evs)).
Proof.
  unfold lookupsOf, lookups, isLookup.
  induction evs as [|[o e] evs IH]; simpl; [reflexivity|].
  destruct (isPost e); simpl.
  - rewrite andb_true_r. destruct (checking i o); simpl; rewrite IH; reflexivity.
  - rewrite andb_false_r. exact IH.
Qed.

Lemma owedLookups_count cfg a l i : forall k,
  length (List.filter (fun e => checking i (fst e)) (owedLookups cfg a (take k (indexed l)))) =
  if decide (i < k)%nat
  then match l !! i with
       | Some c => if Found c then 0%nat else 1%nat
       | None => 0%nat
       end
  else 0%nat.
Proof.
  induction k as [|k IH].
  - simpl. destruct (decide (i < 0)%nat); [lia|reflexivity].
  - destruct (l !! k) as [c|] eqn:Hc.
    + rewrite (indexed_take_S _ _ _ Hc), owedLookups_snoc, List.filter_app, length_app, IH.
      destruct (decide (i < k)%nat), (decide (i < S k)%nat); try lia.
      * destruct (Found c); simpl; [lia|].
        destruct (Nat.eqb_spec i k); [lia|]. simpl. lia.
      * assert (i = k) as -> by lia. rewrite Hc.
        destruct (Found c); simpl; [reflexivity|]. rewrite Nat.eqb_refl. reflexivity.
      * destruct (Found c); simpl; [reflexivity|].
        destruct (Nat.eqb_spec i k); [lia|]. reflexivity.
    + assert (Hlen : (length (indexed l) <= k)%nat).
      { unfold indexed. rewrite length_imap. apply lookup_ge_None. exact Hc. }
      rewrite (take_ge (indexed l) (S k)) by lia.
      rewrite (take_ge (indexed l) k) in IH by lia. rewrite IH.
      destruct (decide (i < k)%nat), (decide (i < S k)%nat); try lia; try reflexivity.
      assert (i = k) as -> by lia. rewrite Hc. reflexivity.
Qed.

Lemma pollCycle_lookupsOf env cfg a t s w i :
  lookupsOf i (emitted w (snd (pollCycle env cfg a t s w))) =
  if pendingAt s i then 1%nat else 0%nat.
Proof.
  destruct (pollCycle_lookups env cfg a t s w) as (evs & T & K).
  rewrite (emitted_app _ _ _ T), lookupsOf_lookups, K.
  rewrite <- (firstn_all (indexed (courses s))).
  rewrite owedLookups_count. unfold indexed. rewrite length_imap. unfold pendingAt.
  destruct (courses s !! i) as [c|] eqn:Hc.
  - apply lookup_lt_Some in Hc. destruct (decide _); [|lia].
    destruct (Found c); reflexivity.
  - destruct (decide _); reflexivity.
Qed.

(** *** Sections that never open *)

Lemma runLoop_never_open env cfg iv s :
  (forall c n, c ∈ courses s -> opened (availability env cfg (CRN c) n) = false) ->
  remaining s <> 0 ->
  forall fuel a w, fst (runLoop env fuel cfg iv a s w) = (Polling, s).
Proof.
  intros Hno Hrem. induction fuel as [|fuel IH]; intros a w; simpl; [reflexivity|].
  unfold bind, time_Now.
  destruct (pollCycle_unopened env cfg a (now w) s w) as (E & _).
  { intros p c Hp. apply Hno. apply list_elem_of_lookup_2 in Hp.
    unfold pending in Hp. apply list_elem_of_In, List.filter_In in Hp.
    apply list_elem_of_In. tauto. }
  destruct (pollCycle env cfg a (now w) s w) as [s1 w1]. simpl in E. subst s1.
  destruct (remaining s =? 0) eqn:Ez; [apply Z.eqb_eq in Ez; contradiction|].
  destruct (waitInterval iv a (now w) s w1) as [[] w2]. apply IH.
Qed.

(** *** The notification of a turn *)

Lemma emitted_same w : emitted w w = [].
Proof. unfold emitted. apply drop_all. Qed.

Lemma checkCourse_becameFound env cfg a t s i w c :
  courses s !! i = Some c -> Found c = false ->
  becameFound s (fst (checkCourse env cfg a t s i w)) i =
  opened (availability env cfg (CRN c) (posts w)).
Proof.
  intros Hc Hf.
  destruct (checkCourse_pending env cfg a t s i w c Hc Hf) as (Es & _ & _).
  rewrite Es. unfold becameFound. rewrite foundAt_insert by exact Hc.
  assert (Hi : foundAt s i = false) by (unfold foundAt; rewrite Hc; exact Hf).
  rewrite Hi. simpl.
  destruct (availability env cfg (CRN c) (posts w)) as [[|]|e]; simpl;
    rewrite ?Hi; try reflexivity.
  destruct (decide (i = i)); [reflexivity|congruence].
Qed.

Lemma checkCourse_notifications env cfg a t s i w :
  let s' := fst (checkCourse env cfg a t s i w) in
  let w' := snd (checkCourse env cfg a t s i w) in
  notifications (emitted w w') =
  if becameFound s s' i && bool_decide (Email cfg <> "") then announce cfg a s i else [].
Proof.
  simpl. destruct (courses s !! i) as [c|] eqn:Hc.
  2: { rewrite checkCourse_out by exact Hc. simpl. rewrite emitted_same.
       unfold announce. rewrite Hc. destruct (_ && _); reflexivity. }
  destruct (Found c) eqn:Hf.
  { rewrite checkCourse_skip by (unfold foundAt; rewrite Hc; exact Hf). simpl.
    rewrite emitted_same. unfold becameFound, foundAt. rewrite Hc, Hf. reflexivity. }
  rewrite (checkCourse_becameFound env cfg a t s i w c Hc Hf).
  destruct (checkCourse_pending env cfg a t s i w c Hc Hf) as (_ & Et & _).
  rewrite (emitted_app _ _ _ Et), notifications_at, stepEvents_sends.
  unfold announce. rewrite Hc. destruct (_ && _); reflexivity.
Qed.

(** ** The tests of the repository, on the model *)

Example TestLoadConfig_AppliesDefaults :
  loadConfig (Demo.serving (Parsed (mkConfig ["12345"] "" 0 "" "" "")) (Response 200 None))
    "config.json"
  = (mkConfig ["12345"] "" 30 "202601" "0" DefaultTimetableURL, None).
Proof. reflexivity. Qed.

Example TestLoadConfig_ErrorNoCRNs :
  snd (loadConfig (Demo.serving (Parsed (mkConfig [] "test@example.com" 0 "" "" ""))
                     (Response 200 None)) "config.json")
  = Some ErrNoCRNsSpecified.
Proof. reflexivity. Qed.

Example TestBuildPayload_IncludesCRN :
  buildPayload (mkConfig [] "" 0 "202601" "0" "") "12345" false !! "crn" = Some ["12345"].
Proof. reflexivity. Qed.

Example TestBuildPayload_OpenOnlyFalse :
  buildPayload (mkConfig [] "" 0 "202601" "0" "") "12345" false !! "open_only" = None.
Proof. reflexivity. Qed.

Example TestBuildPayload_OpenOnlyTrue :
  buildPayload (mkConfig [] "" 0 "202601" "0" "") "12345" true !! "open_only" = Some ["on"].
Proof. reflexivity. Qed.

Example TestCheckSectionOpen_SeatAvailable :
  fst (checkSectionOpen
         (Demo.serving Unreadable (Response 200 (Some (mkDocument "12345" [mkRow "12345" ""]))))
         (mkConfig [] "" 0 "202601" "0" "http://127.0.0.1") "12345" initialWorld)
  = Ok true.
Proof. reflexivity. Qed.

Example TestCheckSectionOpen_NoSeatAvailable :
  fst (checkSectionOpen (Demo.serving Unreadable (Response 200 (Some (mkDocument "" []))))
         (mkConfig [] "" 0 "202601" "0" "http://127.0.0.1") "12345" initialWorld)
  = Ok false.
Proof. reflexivity. Qed.

Example TestCheckSectionOpen_ServerError :
  fst (checkSectionOpen (Demo.serving Unreadable (Response 500 None))
         (mkConfig [] "" 0 "202601" "0" "http://127.0.0.1") "12345" initialWorld)
  = Err (ErrUnexpectedStatus 500).
Proof. reflexivity. Qed.

Example TestGetCourseName_Found :
  fst (getCourseName
         (Demo.serving Unreadable
            (Response 200 (Some (mkDocument "12345001Intro to Testing"
                                   [mkRow "12345" "Intro to Testing"]))))
         (mkConfig [] "" 0 "202601" "0" "http://127.0.0.1") "12345" initialWorld)
  = Ok "Intro to Testing".
Proof. reflexivity. Qed.

Example TestGetCourseName_NotFound :
  fst (getCourseName (Demo.serving Unreadable (Response 200 (Some (mkDocument "" []))))
         (mkConfig [] "" 0 "202601" "0" "http://127.0.0.1") "99999" initialWorld)
  = Err (ErrCourseNotFound "99999").
Proof. reflexivity. Qed.

Example TestResendEmailSender_NoAPIKey :
  fst (ResendEmailSender_Send (Demo.serving Unreadable (Response 200 None))
         (mkResendEmailSender "") "to@example.com" "Subject" "Body" initialWorld)
  = Some ErrApiKeyNotSet.
Proof. reflexivity. Qed.

Example TestRun_InvalidConfigPath :
  outcome (fst (Run (Demo.serving Unreadable (Response 200 None)) 1
                  (mkRunOptions "/nonexistent/config.json" None) initialWorld))
  = Returned (Some (ErrLoadConfig ErrReadConfig)).
Proof. reflexivity. Qed.

Example strings_TrimSpace_cell : strings_TrimSpace "  Intro to Testing  " = "Intro to Testing".
Proof. reflexivity. Qed.

(** White space beyond ASCII is trimmed as well, on both sides and
    however it is mixed; a byte that only looks like a part of it is
    kept. *)
Example strings_TrimSpace_unicode :
  strings_TrimSpace (nbsp +:+ " " +:+ bytes [226; 128; 131]%nat +:+ "Intro to"
                     +:+ nbsp +:+ "Testing" +:+ bytes [227; 128; 128]%nat +:+ nbsp +:+ " ")
  = "Intro to" +:+ nbsp +:+ "Testing" /\
  strings_TrimSpace (nbsp +:+ bytes [13; 194; 133; 225; 154; 128; 226; 129; 159]%nat) = "" /\
  strings_TrimSpace (bytes [160; 32; 194]%nat) = bytes [160; 32; 194]%nat /\
  strings_TrimSpace (bytes [226; 128; 139]%nat) = bytes [226; 128; 139]%nat.
Proof. vm_compute. repeat split; reflexivity. Qed.

(** A title cell that holds only a no-break space is blank: the course
    is not found. *)
Example getCourseName_blank_title :
  fst (getCourseName
         (Demo.serving (Parsed Demo.configFile)
            (Response 200 (Some (mkDocument "222" [mkRow "222" nbsp]))))
         Demo.config "222" initialWorld)
  = Err (ErrCourseNotFound "222").
Proof. vm_compute. reflexivity. Qed.

Example truncateEmail_long :
  truncateEmail "a.very.long.address.of.a.student@vt.edu" 35
  = "a.very.long.address.of.a.student...".
Proof. reflexivity. Qed.

(** *** The entities that start-up tracks *)

Lemma tracked_imap env cfg crns : forall n,
  tracked env cfg n crns = omap id (imap (resolveAt env cfg n) crns).
Proof.
  induction crns as [|crn rest IH]; intros n; [reflexivity|].
  rewrite imap_cons. simpl. unfold resolveAt at 1. rewrite Nat.add_0_r.
  rewrite (imap_ext _ (resolveAt env cfg (S n)) rest).
  2: { intros k x _. unfold resolveAt. simpl. rewrite Nat.add_succ_r. reflexivity. }
  rewrite <- IH. destruct (resolution env cfg crn n); reflexivity.
Qed.

Lemma tracked_nil env cfg crns : forall n,
  tracked env cfg n crns = [] <->
  (forall k crn, crns !! k = Some crn -> exists e, resolution env cfg crn (n + k) = Err e).
Proof.
  induction crns as [|crn rest IH]; intros n; simpl.
  - split; [intros _ k crn H; discriminate|reflexivity].
  - split.
    + intros H [|k] c Hc; simpl in Hc.
      * injection Hc as <-. rewrite Nat.add_0_r.
        destruct (resolution env cfg crn n) as [name|e]; [discriminate|eauto].
      * rewrite Nat.add_succ_r. apply (proj1 (IH (S n))); [|exact Hc].
        destruct (resolution env cfg crn n); [discriminate|exact H].
    + intros H. destruct (H 0%nat crn eq_refl) as [e He].
      rewrite Nat.add_0_r in He. rewrite He. apply IH.
      intros k c Hc. specialize (H (S k) c Hc). rewrite Nat.add_succ_r in H. exact H.
Qed.

Lemma resolveCourses_tracked env cfg w :
  fst (resolveCourses env cfg w) = tracked env cfg (posts w) (CRNs cfg) /\
  lookups (emitted w (snd (resolveCourses env cfg w))) =
  map (fun crn => (Resolving, nameSearch cfg crn)) (CRNs cfg).
Proof.
  unfold resolveCourses, bind, at_pos.
  match goal with |- context [forRange _ [] _ ?w'] =>
    destruct (resolve_loop env cfg (CRNs cfg) [] w' eq_refl)
      as (E & _ & evs & T & _ & K) end.
  split; [exact E|].
  simpl in T. rewrite (emitted_app _ _ _ T), lookups_at, K, map_map. reflexivity.
Qed.

(** *** The ways a run ends *)

Lemma pending_none l i :
  length (pending l) = 0%nat ->
  match l !! i with Some c => negb (Found c) | None => false end = false.
Proof.
  revert i. induction l as [|c l IH]; intros i H; [rewrite lookup_nil; reflexivity|].
  unfold pending in H. simpl in H. unfold isPending at 1 in H.
  destruct (Found c) eqn:Hf; simpl in H; [|discriminate].
  destruct i as [|i]; simpl; [rewrite Hf; reflexivity|]. apply IH. exact H.
Qed.

(** *** The outcome of the mail *)

Lemma sendEmail_result env to subject body w :
  fst (sendEmail env to subject body w) = mailOutcome env (mails w) to subject body.
Proof.
  unfold mailOutcome, sendEmail, bind, emit, next_mail, ret. simpl.
  destruct (bool_decide (getenv env "RESEND_API_KEY" = "")); reflexivity.
Qed.

Lemma printed_at o evs :
  printed (map (pair o) evs) =
  omap (fun e => match e with EvPrint m => Some m | _ => None end) evs.
Proof.
  unfold printed. induction evs as [|e evs IH]; [reflexivity|].
  destruct e; simpl in *; try exact IH. f_equal. exact IH.
Qed.

Section MailService.

Variable rc : string -> ConfigFile.
Variable ge : string -> string.
Variable sv : nat -> string -> Values -> HttpReply.
Variables rs rs' : nat -> string -> string -> string -> string -> option string.

Let env1 := mkEnv rc ge sv rs.
Let env2 := mkEnv rc ge sv rs'.

Lemma sendEmail_any_service to subject body w :
  snd (sendEmail env1 to subject body w) = snd (sendEmail env2 to subject body w).
Proof. rewrite !sendEmail_world. reflexivity. Qed.

Lemma checkSectionOpen_any_service : checkSectionOpen env1 = checkSectionOpen env2.
Proof. reflexivity. Qed.

Lemma resolveCourses_any_service : resolveCourses env1 = resolveCourses env2.
Proof. reflexivity. Qed.

Lemma checkCourse_any_service cfg a t s i w :
  checkCourse env1 cfg a t s i w = checkCourse env2 cfg a t s i w.
Proof.
  unfold checkCourse. destruct (courses s !! i) as [c|]; [|reflexivity].
  destruct (Found c); [reflexivity|].
  rewrite checkSectionOpen_any_service.
  unfold time_Sleep, Printf, bind, at_pos, emit, ret. simpl.
  destruct (checkSectionOpen env2 cfg (CRN c) _) as [[[|]|e] w1]; try reflexivity.
  destruct (bool_decide (Email cfg <> "")); [|reflexivity].
  match goal with |- context [sendEmail env1 ?x ?y ?z ?w0] =>
    pose proof (sendEmail_any_service x y z w0) as H;
    destruct (sendEmail env1 x y z w0) as [e1 w2];
    destruct (sendEmail env2 x y z w0) as [e2 w3] end.
  simpl in H. subst w3. reflexivity.
Qed.

Lemma forRange_ext {A S : Type} (f g : S -> A -> M S) l :
  (forall s x w, f s x w = g s x w) ->
  forall s w, forRange f s l w = forRange g s l w.
Proof.
  intros H. induction l as [|x l IH]; intros s w; simpl; [reflexivity|].
  unfold bind. rewrite H. destruct (g s x w) as [s1 w1]. apply IH.
Qed.

Lemma runLoop_any_service cfg iv fuel : forall a s w,
  runLoop env1 fuel cfg iv a s w = runLoop env2 fuel cfg iv a s w.
Proof.
  induction fuel as [|fuel IH]; intros a s w; simpl; [reflexivity|].
  unfold bind, time_Now, pollCycle.
  rewrite (forRange_ext _ _ _ (checkCourse_any_service cfg a (now w))).
  destruct (forRange _ _ _ _) as [s1 w1].
  destruct (remaining s1 =? 0); [reflexivity|].
  destruct (waitInterval iv a (now w) s1 w1) as [[] w2]. apply IH.
Qed.

Lemma Run_any_service fuel opts w : Run env1 fuel opts w = Run env2 fuel opts w.
Proof.
  unfold Run. change (loadConfig env1) with (loadConfig env2).
  destruct (loadConfig env2 (ConfigPath opts)) as [cfg [e|]]; [reflexivity|].
  rewrite resolveCourses_any_service. unfold bind.
  change (getenv env1) with (getenv env2).
  destruct (Printf MsgBanner w) as [[] w1].
  destruct (Printf _ w1) as [[] w2].
  destruct (Printf MsgFetching w2) as [[] w3].
  destruct (resolveCourses env2 cfg w3) as [cs w4].
  destruct (length cs =? 0)%nat; [reflexivity|].
  destruct (Printf MsgSeparator w4) as [[] w5].
  rewrite runLoop_any_service. reflexivity.
Qed.

End MailService.

(** *** The injected sender *)

(** [Run] binds the injected sender to [emailSender] and never calls
    it: but for that field of the result, the run is the same whatever
    sender is injected. *)
Lemma Run_any_sender env fuel path sender sender' w :
  let r := Run env fuel (mkRunOptions path sender) w in
  let r' := Run env fuel (mkRunOptions path sender') w in
  outcome (fst r) = outcome (fst r') /\ session (fst r) = session (fst r') /\
  snd r = snd r'.
Proof.
  simpl. unfold Run. simpl.
  destruct (loadConfig env path) as [cfg [e|]]; [repeat split|].
  unfold bind.
  destruct (Printf MsgBanner w) as [[] w1].
  destruct (Printf _ w1) as [[] w2].
  destruct (Printf MsgFetching w2) as [[] w3].
  destruct (resolveCourses env cfg w3) as [cs w4].
  destruct (length cs =? 0)%nat; [repeat split|].
  destruct (Printf MsgSeparator w4) as [[] w5].
  destruct (runLoop _ _ _ _ _ _ _) as [[o s] w6]. repeat split.
Qed.

(** *** The base URL *)

(** A configuration that [loadConfig] accepts has a base URL. *)
Lemma loadConfig_BaseURL env path cfg :
  loadConfig env path = (cfg, None) -> BaseURL cfg <> "".
Proof.
  unfold loadConfig. destruct (readConfig env path) as [| |c]; try discriminate.
  cbv zeta.
  match goal with
  | |- context [bool_decide (BaseURL ?c3 = "")] => set (c' := c3)
  end.
  destruct (bool_decide (BaseURL c' = "")) eqn:Eb;
    destruct (length (CRNs _) =? 0)%nat; try discriminate;
    intros H; injection H as <-.
  - simpl. discriminate.
  - apply bool_decide_eq_false in Eb. exact Eb.
Qed.

(** ** The demonstration timetable, run *)

Example demo_loadConfig :
  loadConfig (Demo.world (Some 3%nat) "" false) "config.json" = (Demo.config, None).
Proof. reflexivity. Qed.

Example demo_tracked :
  tracked (Demo.world (Some 3%nat) "" false) Demo.config 0 (CRNs Demo.config)
  = [Demo.algebra false].
Proof. vm_compute. reflexivity. Qed.

(** The section opens at the fourth POST: two name searches, a first
    cycle that finds nothing, a second cycle that finds the section. *)
Example demo_run_1 :
  let r := fst (Run (Demo.world (Some 3%nat) "" false) 1 Demo.options initialWorld) in
  outcome r = Polling /\ session r = mkSession [Demo.algebra false] 1.
Proof. vm_compute. split; reflexivity. Qed.

Example demo_run_2 :
  let r := Run (Demo.world (Some 3%nat) "" false) 2 Demo.options initialWorld in
  outcome (fst r) = Returned None /\
  session (fst r) = mkSession [Demo.algebra true] 0 /\
  notifications (trace (snd r)) =
    [(Checking 2 0, EvSendEmail "me@vt.edu" "VT Course Section Open!"
                      "OPEN SEAT: Algebra (CRN: 222)")].
Proof. vm_compute. repeat split; reflexivity. Qed.

(** ** The properties of the polling engine *)

(** C1.  For every entity, over a whole session however long it runs: a
    notification is attempted at most once, and only for an entity that
    has become found; an entity that is found stays found, and from then
    on it is neither looked up nor notified again.  In every turn of the
    inner loop, a found entity is skipped (the turn has no effect), and
    the only notification a turn can make is the one for its own entity,
    in the turn in which that entity becomes found. *)
Theorem notified_at_most_once env opts fuel more i :
  let r := Run env fuel opts initialWorld in
  let r' := Run env (fuel + more) opts initialWorld in
  (notificationsOf i (trace (snd r)) <= if foundAt (session (fst r)) i then 1 else 0)%nat /\
  (foundAt (session (fst r)) i = true ->
     foundAt (session (fst r')) i = true /\
     lookupsOf i (trace (snd r')) = lookupsOf i (trace (snd r)) /\
     notificationsOf i (trace (snd r')) = notificationsOf i (trace (snd r))) /\
  (forall cfg a t s w,
     let s' := fst (checkCourse env cfg a t s i w) in
     let w' := snd (checkCourse env cfg a t s i w) in
     (foundAt s i = true -> s' = s /\ w' = w) /\
     notifications (emitted w w') =
       if becameFound s s' i && bool_decide (Email cfg <> "")
       then announce cfg a s i else []).
Proof.
  simpl. split; [|split].
  - destruct (loadConfig env (ConfigPath opts)) as [cfg [e|]] eqn:Hload.
    { rewrite (Run_load_error _ _ _ _ _ _ Hload). unfold notificationsOf. simpl. lia. }
    destruct (Run_startup env opts cfg Hload) as (w0 & B0 & HR).
    rewrite HR. destruct (length _ =? 0)%nat; simpl.
    { destruct (B0 i) as [_ ->]. lia. }
    match goal with |- context [runLoop env fuel cfg ?iv ?a ?s ?w] =>
      destruct (runLoop_progress env cfg iv fuel a s w) as (_ & _ & evs1 & T1 & C1) end.
    rewrite T1. destruct (C1 i) as [_ N1]. simpl.
    rewrite !notificationsOf_app. destruct (B0 i) as [_ ->].
    unfold notificationsOf at 1. simpl. rewrite andb_false_r. simpl.
    destruct (foundAt _ i); [|simpl in N1; lia].
    destruct (negb _); simpl in N1; lia.
  - destruct (loadConfig env (ConfigPath opts)) as [cfg [e|]] eqn:Hload.
    { rewrite !(Run_load_error _ _ _ _ _ _ Hload). simpl. discriminate. }
    destruct (Run_startup env opts cfg Hload) as (w0 & B0 & HR).
    rewrite !HR. destruct (length _ =? 0)%nat; simpl; [tauto|].
    match goal with |- context [runLoop env fuel cfg ?iv ?a ?s ?w] =>
      destruct (runLoop_more env cfg iv fuel more a s w) as (_ & F1 & evs1 & T1 & C1) end.
    intros Hf. split; [apply F1; exact Hf|].
    rewrite T1, lookupsOf_app, notificationsOf_app.
    destruct (C1 i) as [K1 N1]. rewrite (K1 Hf). rewrite Hf in N1.
    rewrite andb_false_r in N1. split; lia.
  - intros cfg a t s w. split.
    + intros Hf. rewrite checkCourse_skip by exact Hf. split; reflexivity.
    + apply checkCourse_notifications.
Qed.

(** An entity that is found at the second cycle, and a session that is
    given more fuel. *)
Lemma notified_at_most_once_witness :
  foundAt (session (fst (Run (Demo.world (Some 3%nat) "" false) 2 Demo.options initialWorld)))
    0 = true /\
  foundAt (session (fst (Run (Demo.world (Some 3%nat) "" false) (2 + 3) Demo.options
                           initialWorld))) 0 = true.
Proof.
  split; [vm_compute; reflexivity|].
  apply (notified_at_most_once (Demo.world (Some 3%nat) "" false) Demo.options 2 3 0).
  vm_compute. reflexivity.
Defined.

(** C2.  A lookup that fails leaves the session as it is and notifies
    nobody, and the loop goes on to the next entity: whatever the
    lookups of a cycle return, the cycle looks up every entity that is
    pending when it starts, once.  A cycle in which every lookup fails
    changes no status (nor the counter) and attempts no notification. *)
Theorem lookup_failure_is_isolated env cfg a t s w :
  (forall i c e w1,
     courses s !! i = Some c -> Found c = false ->
     availability env cfg (CRN c) (posts w1) = Err e ->
     fst (checkCourse env cfg a t s i w1) = s /\
     notifications (emitted w1 (snd (checkCourse env cfg a t s i w1))) = []) /\
  (forall i, pendingAt s i = true ->
     lookupsOf i (emitted w (snd (pollCycle env cfg a t s w))) = 1%nat) /\
  ((forall p c, pending (courses s) !! p = Some c ->
                exists e, availability env cfg (CRN c) (posts w + p) = Err e) ->
   fst (pollCycle env cfg a t s w) = s /\
   notifications (emitted w (snd (pollCycle env cfg a t s w))) = []).
Proof.
  split; [|split].
  - intros i c e w1 Hc Hf He.
    destruct (checkCourse_pending env cfg a t s i w1 c Hc Hf) as (Es & Et & _).
    rewrite He in Es, Et. split; [exact Es|].
    rewrite (emitted_app _ _ _ Et), notifications_at, stepEvents_sends. reflexivity.
  - intros i Hi. rewrite pollCycle_lookupsOf, Hi. reflexivity.
  - intros Hfail.
    destruct (pollCycle_unopened env cfg a t s w) as (E & evs & T & N).
    { intros p c Hp. destruct (Hfail p c Hp) as [e ->]. reflexivity. }
    split; [exact E|]. rewrite (emitted_app _ _ _ T). exact N.
Qed.

(** The timetable answers 500 to every availability search: the cycle
    looks the pending entity up, and nothing changes. *)
Lemma lookup_failure_is_isolated_witness :
  let env := Demo.world None "key" false in
  let s := mkSession [Demo.algebra false] 1 in
  fst (pollCycle env Demo.config 1 0 s initialWorld) = s /\
  notifications (emitted initialWorld (snd (pollCycle env Demo.config 1 0 s initialWorld))) = [] /\
  fst (checkCourse env Demo.config 1 0 s 0 initialWorld) = s /\
  lookupsOf 0 (emitted initialWorld (snd (pollCycle env Demo.config 1 0 s initialWorld))) = 1%nat.
Proof.
  simpl.
  pose proof (lookup_failure_is_isolated (Demo.world None "key" false) Demo.config 1 0
                (mkSession [Demo.algebra false] 1) initialWorld) as (Hstep & Hall & Hcycle).
  split; [|split; [|split]].
  - apply Hcycle. intros [|p] c Hp; [|discriminate].
    injection Hp as <-. exists (ErrUnexpectedStatus 500). reflexivity.
  - apply Hcycle. intros [|p] c Hp; [|discriminate].
    injection Hp as <-. exists (ErrUnexpectedStatus 500). reflexivity.
  - apply (Hstep 0%nat (Demo.algebra false) (ErrUnexpectedStatus 500) initialWorld);
      reflexivity.
  - apply Hall. reflexivity.
Defined.

(** C3 (as the program has it).  [Run] takes a configuration path and an
    email sender, and nothing that could cancel it; it installs no
    signal handler.  A run has returned with [nil], with the error of
    the configuration or with the no-valid-CRNs error, or it is still
    polling: there is no cancelled outcome.  It returns with [nil] only
    when no entity is pending, so while an entity is pending the session
    ends only if the process is ended from outside; and at every moment
    an entity that is still pending has not been notified. *)
Theorem run_ends_only_by_itself env opts fuel :
  let r := Run env fuel opts initialWorld in
  (outcome (fst r) = Polling \/
   outcome (fst r) = Returned None \/
   outcome (fst r) = Returned (Some ErrNoValidCRNs) \/
   exists e, outcome (fst r) = Returned (Some (ErrLoadConfig e))) /\
  (forall i, pendingAt (session (fst r)) i = true ->
             outcome (fst r) <> Returned None /\
             notificationsOf i (trace (snd r)) = 0%nat).
Proof.
  simpl.
  destruct (loadConfig env (ConfigPath opts)) as [cfg [e|]] eqn:Hload.
  { rewrite (Run_load_error _ _ _ _ _ _ Hload). simpl. split; [eauto 6|].
    intros i Hi. unfold pendingAt in Hi. simpl in Hi. discriminate. }
  destruct (Run_startup env opts cfg Hload) as (w0 & B0 & HR).
  rewrite HR. destruct (length _ =? 0)%nat eqn:El; simpl.
  { split; [auto|]. intros i Hi. split; [discriminate|]. apply B0. }
  match goal with |- context [runLoop env fuel cfg ?iv ?a ?s ?w] =>
    pose proof (runLoop_outcome env cfg iv fuel a s w) as Ho;
    pose proof (runLoop_counted env cfg iv fuel a s w) as Hc;
    destruct (runLoop_progress env cfg iv fuel a s w) as (_ & _ & evs1 & T1 & C1);
    destruct (runLoop env fuel cfg iv a s w) as [[o s1] w1] end.
  cbn [fst snd] in *. split.
  - destruct Ho as [[-> _]|[-> _]]; auto.
  - intros i Hi. split.
    + intros ->. destruct Ho as [[_ Hz]|[Hd _]]; [|discriminate].
      assert (Hc1 : counted s1).
      { apply Hc. unfold counted, firstSession. simpl.
        rewrite tracked_pending. reflexivity. }
      unfold counted in Hc1. rewrite Hz in Hc1.
      unfold pendingAt in Hi. rewrite pending_none in Hi by lia. discriminate.
    + rewrite T1. simpl. rewrite !notificationsOf_app. destruct (B0 i) as [_ ->].
      unfold notificationsOf at 1. simpl. rewrite andb_false_r. simpl.
      destruct (C1 i) as [_ N1].
      assert (Hf : foundAt s1 i = false).
      { unfold pendingAt in Hi. unfold foundAt. destruct (courses s1 !! i); [|reflexivity].
        destruct (Found c); [discriminate|reflexivity]. }
      rewrite Hf in N1. simpl in N1. lia.
Qed.

Lemma run_ends_only_by_itself_witness :
  notificationsOf 0
    (trace (snd (Run (Demo.world (Some 3%nat) "" false) 1 Demo.options initialWorld)))
  = 0%nat.
Proof.
  apply (proj2 (run_ends_only_by_itself (Demo.world (Some 3%nat) "" false)
                  Demo.options 1) 0%nat).
  vm_compute. reflexivity.
Defined.

(** The timetable never shows the section as open: however many cycles
    the run is given, it has not returned, with a cancelled outcome or
    any other. *)
Lemma no_cancelled_outcome :
  ~ exists fuel err,
      outcome (fst (Run (Demo.world None "" false) fuel Demo.options initialWorld))
      = Returned err.
Proof.
  intros (fuel & err & H).
  destruct (Run_startup (Demo.world None "" false) Demo.options Demo.config eq_refl)
    as (w0 & _ & HR).
  rewrite HR in H.
  change (length (tracked (Demo.world None "" false) Demo.config 0 (CRNs Demo.config)) =? 0)%nat
    with false in H.
  cbv zeta in H. cbn [fst outcome] in H.
  rewrite (runLoop_never_open (Demo.world None "" false) Demo.config
             (interval Demo.config) (firstSession (Demo.world None "" false) Demo.config))
    in H.
  - discriminate.
  - intros c n Hc.
    change (courses (firstSession (Demo.world None "" false) Demo.config))
      with [Demo.algebra false] in Hc.
    apply list_elem_of_singleton in Hc. subst c. reflexivity.
  - vm_compute. discriminate.
Qed.

(** C4.  Once polling has started, the run has returned with success
    exactly when the counter is zero at the check that follows a
    completed cycle, and it is still polling exactly when the counter is
    not zero there; the loop has no other exit.  After a cycle that
    leaves entities pending the loop waits and runs the next cycle,
    whatever the lookups returned. *)
Theorem success_iff_none_remaining env opts fuel cfg :
  loadConfig env (ConfigPath opts) = (cfg, None) ->
  tracked env cfg 0 (CRNs cfg) <> [] ->
  let r := fst (Run env (S fuel) opts initialWorld) in
  (outcome r = Returned None <-> remaining (session r) = 0) /\
  (outcome r = Polling <-> remaining (session r) <> 0) /\
  (forall iv a s w,
     let c := pollCycle env cfg a (now w) s w in
     runLoop env (S fuel) cfg iv a s w =
     if remaining (fst c) =? 0
     then (Returned None, fst c, snd (Printf MsgAllFound (snd c)))
     else runLoop env fuel cfg iv (a + 1) (fst c)
            (snd (waitInterval iv a (now w) (fst c) (snd c)))).
Proof.
  intros Hload Hne. simpl.
  destruct (Run_startup env opts cfg Hload) as (w0 & _ & HR).
  rewrite HR. destruct (length _ =? 0)%nat eqn:El.
  { apply Nat.eqb_eq in El. destruct (tracked env cfg 0 (CRNs cfg)); [congruence|discriminate]. }
  cbv zeta. cbn [fst snd outcome session].
  match goal with |- context [runLoop env (S fuel) cfg ?iv ?a ?s ?w] =>
    pose proof (runLoop_outcome env cfg iv (S fuel) a s w) as Ho;
    destruct (runLoop env (S fuel) cfg iv a s w) as [[o s1] w1] end.
  cbn [fst snd] in *. split; [|split].
  - destruct Ho as [[-> Hz]|[-> [Hz|Hz]]]; try discriminate.
    + tauto.
    + split; [discriminate|contradiction].
  - destruct Ho as [[-> Hz]|[-> [Hz|Hz]]]; try discriminate.
    + split; [discriminate|contradiction].
    + tauto.
  - intros iv a s w. simpl. unfold bind, time_Now.
    destruct (pollCycle env cfg a (now w) s w) as [s2 w2]. simpl.
    destruct (remaining s2 =? 0); [reflexivity|].
    destruct (waitInterval iv a (now w) s2 w2) as [[] w3]. reflexivity.
Qed.

Lemma success_iff_none_remaining_witness :
  outcome (fst (Run (Demo.world (Some 3%nat) "" false) 2 Demo.options initialWorld))
  = Returned None.
Proof.
  apply (success_iff_none_remaining (Demo.world (Some 3%nat) "" false) Demo.options 1
           Demo.config).
  - reflexivity.
  - vm_compute. discriminate.
  - vm_compute. reflexivity.
Defined.

(** C5.  However long the session has run, the remaining counter is the
    number of tracked entities that are not found.  It starts at the
    number of resolved entities, all of them pending; a turn of the
    inner loop lowers it by one exactly when the entity of the turn
    becomes found, and keeps it in step with the entities; nothing else
    in the loop touches the session. *)
Theorem remaining_counts_pending env opts fuel :
  let r := fst (Run env fuel opts initialWorld) in
  let r0 := fst (Run env 0 opts initialWorld) in
  counted (session r) /\
  (remaining (session r0) = Z.of_nat (length (courses (session r0))) /\
   pending (courses (session r0)) = courses (session r0)) /\
  (forall cfg a t s i w,
     let s' := fst (checkCourse env cfg a t s i w) in
     remaining s' = remaining s - (if becameFound s s' i then 1 else 0) /\
     (counted s -> counted s')).
Proof.
  simpl. split; [|split].
  - destruct (loadConfig env (ConfigPath opts)) as [cfg [e|]] eqn:Hload.
    { rewrite (Run_load_error _ _ _ _ _ _ Hload). reflexivity. }
    destruct (Run_startup env opts cfg Hload) as (w0 & _ & HR).
    rewrite HR. destruct (length _ =? 0)%nat eqn:El; simpl.
    { apply Nat.eqb_eq in El. unfold counted. simpl.
      rewrite tracked_pending, El. reflexivity. }
    apply runLoop_counted. unfold counted, firstSession. simpl.
    rewrite tracked_pending. reflexivity.
  - destruct (loadConfig env (ConfigPath opts)) as [cfg [e|]] eqn:Hload.
    { rewrite (Run_load_error _ _ _ _ _ _ Hload). split; reflexivity. }
    destruct (Run_startup env opts cfg Hload) as (w0 & _ & HR).
    rewrite HR. destruct (length _ =? 0)%nat eqn:El; simpl.
    { apply Nat.eqb_eq in El. rewrite tracked_pending, El. split; reflexivity. }
    rewrite tracked_pending. split; reflexivity.
  - intros cfg a t s i w. split.
    + apply checkCourse_remaining.
    + apply checkCourse_counted.
Qed.

Lemma remaining_counts_pending_witness :
  let s := mkSession [Demo.algebra false] 1 in
  counted (fst (checkCourse (Demo.world (Some 0%nat) "" false) Demo.config 1 0 s 0
                  initialWorld)).
Proof.
  simpl.
  apply (remaining_counts_pending (Demo.world (Some 0%nat) "" false) Demo.options 0).
  reflexivity.
Defined.

(** What holds of the claim on the turn of a failed send: the entity is
    found and stays found, the turn makes that one attempt and no
    other, and every later turn skips the entity, so the send is not
    tried again. *)
Lemma failed_send_keeps_found env cfg a t s i w c e :
  courses s !! i = Some c -> Found c = false ->
  availability env cfg (CRN c) (posts w) = Ok true ->
  Email cfg <> "" ->
  mailOutcome env (mails w) (Email cfg) notifySubject (notifyBody c) = Some e ->
  let s' := fst (checkCourse env cfg a t s i w) in
  let w' := snd (checkCourse env cfg a t s i w) in
  foundAt s' i = true /\
  notifications (emitted w w') = [(Checking a i, notifyEvent cfg c)] /\
  (forall a' t' w'', checkCourse env cfg a' t' s' i w'' = (s', w'')).
Proof.
  intros Hc Hf Hopen Hmail _. simpl.
  destruct (checkCourse_pending env cfg a t s i w c Hc Hf) as (Es & Et & _).
  rewrite Hopen in Es, Et.
  assert (Hfound : foundAt (fst (checkCourse env cfg a t s i w)) i = true).
  { rewrite Es, foundAt_insert by exact Hc. destruct (decide (i = i)); congruence. }
  split; [exact Hfound|]. rewrite (emitted_app _ _ _ Et). split.
  - rewrite notifications_at, stepEvents_sends. simpl.
    rewrite bool_decide_eq_true_2 by exact Hmail. reflexivity.
  - intros a' t' w''. apply checkCourse_skip. exact Hfound.
Qed.

(** C6 (the program falls short of it).  The section is open at the
    first cycle, a destination is configured and the mail service
    rejects the message, so [sendEmail] returns an error.  [Run] drops
    it: the run prints that the notification was sent, no line reports
    the failure, and the whole run is the run in which the service
    accepts the message.  The entity is found, and the send was tried
    once.  Where a lookup fails instead, the same loop does report the
    error, on a line of its own. *)
Theorem failed_notification_not_reported :
  mailOutcome (Demo.world (Some 2%nat) "key" true) 0 "me@vt.edu" notifySubject
    (notifyBody (Demo.algebra false)) = Some (ErrResend "rejected") /\
  mailOutcome (Demo.world (Some 2%nat) "key" false) 0 "me@vt.edu" notifySubject
    (notifyBody (Demo.algebra false)) = None /\
  printed (trace (snd (Run (Demo.world (Some 2%nat) "key" true) 1 Demo.options initialWorld)))
  = [MsgBanner; MsgSummary 2 (Some "me@vt.edu") 1 "202601"; MsgFetching;
     MsgSkipping "111"; MsgResolved "222" "Algebra"; MsgSeparator;
     MsgChecking 1 1 "222"; MsgSeatAvailable "Algebra" "222";
     MsgNotificationSent "me@vt.edu"; MsgAllFound] /\
  Run (Demo.world (Some 2%nat) "key" true) 1 Demo.options initialWorld
  = Run (Demo.world (Some 2%nat) "key" false) 1 Demo.options initialWorld /\
  session (fst (Run (Demo.world (Some 2%nat) "key" true) 1 Demo.options initialWorld))
  = mkSession [Demo.algebra true] 0 /\
  notifications
    (trace (snd (Run (Demo.world (Some 2%nat) "key" true) 1 Demo.options initialWorld)))
  = [(Checking 1 0, EvSendEmail "me@vt.edu" notifySubject (notifyBody (Demo.algebra false)))] /\
  printed (emitted initialWorld
             (snd (checkCourse (Demo.world None "key" true) Demo.config 1 0
                     (mkSession [Demo.algebra false] 1) 0 initialWorld)))
  = [MsgChecking 1 1 "222"; MsgErrorChecking 0 "222" (ErrUnexpectedStatus 500)].
Proof. vm_compute. repeat split; reflexivity. Qed.

(** C7.  Start-up asks for the name of every configured identifier, in
    order, one POST each.  The tracked entities are the identifiers whose
    name resolves, in that order, each pending; the others are left out
    and the run goes on.  [Run] returns the no-valid-CRNs error exactly
    when no identifier resolves; otherwise polling starts with the
    tracked entities. *)
Theorem initialization_tracks_resolved env opts fuel cfg :
  loadConfig env (ConfigPath opts) = (cfg, None) ->
  let r := fst (Run env fuel opts initialWorld) in
  let r0 := fst (Run env 0 opts initialWorld) in
  (forall w,
     lookups (emitted w (snd (resolveCourses env cfg w))) =
       map (fun crn => (Resolving, nameSearch cfg crn)) (CRNs cfg) /\
     fst (resolveCourses env cfg w) =
       omap id (imap (resolveAt env cfg (posts w)) (CRNs cfg))) /\
  (outcome r = Returned (Some ErrNoValidCRNs) <->
   forall k crn, CRNs cfg !! k = Some crn -> exists e, resolution env cfg crn k = Err e) /\
  (outcome r <> Returned (Some ErrNoValidCRNs) ->
   outcome r0 = Polling /\
   courses (session r0) = omap id (imap (resolveAt env cfg 0) (CRNs cfg))).
Proof.
  intros Hload. simpl.
  destruct (Run_startup env opts cfg Hload) as (w0 & _ & HR).
  rewrite !HR. split; [|split].
  - intros w. destruct (resolveCourses_tracked env cfg w) as [E K].
    split; [exact K|]. rewrite E. apply tracked_imap.
  - rewrite <- (tracked_nil env cfg (CRNs cfg) 0).
    destruct (length _ =? 0)%nat eqn:El; simpl.
    + apply Nat.eqb_eq in El. split; [intros _|reflexivity].
      destruct (tracked env cfg 0 (CRNs cfg)); [reflexivity|discriminate].
    + apply Nat.eqb_neq in El.
      match goal with |- context [runLoop env fuel cfg ?iv ?a ?s ?w] =>
        pose proof (runLoop_outcome env cfg iv fuel a s w) as Ho;
        destruct (runLoop env fuel cfg iv a s w) as [[o s1] w1] end.
      cbn [fst snd] in *. split.
      * destruct Ho as [[-> _]|[-> _]]; discriminate.
      * intros E. rewrite E in El. contradiction.
  - destruct (length _ =? 0)%nat eqn:El; simpl; [congruence|].
    intros _. split; [reflexivity|]. apply tracked_imap.
Qed.

(** The example of the specification: of the identifiers 111 and 222
    only the second resolves, and only it is tracked. *)
Lemma initialization_tracks_resolved_witness :
  let r0 := fst (Run (Demo.world (Some 3%nat) "" false) 0 Demo.options initialWorld) in
  outcome r0 = Polling /\ courses (session r0) = [Demo.algebra false].
Proof.
  simpl.
  destruct (initialization_tracks_resolved (Demo.world (Some 3%nat) "" false)
              Demo.options 0 Demo.config eq_refl) as (_ & _ & H).
  destruct H as [H1 H2]; [vm_compute; discriminate|].
  split; [exact H1|]. rewrite H2. vm_compute. reflexivity.
Defined.

(** C8 (the program falls short of it).  A test injects the mock, the
    section is open at the first cycle and a destination is configured.
    The run succeeds and announces the section, by the package-level
    [sendEmail]; the mock is as it was injected, with nothing in [Sent],
    where a call of its [Send] would have recorded the message. *)
Theorem injected_sender_receives_nothing :
  outcome (fst (Run (Demo.world (Some 2%nat) "" false) 1 Demo.mockOptions initialWorld))
  = Returned None /\
  session (fst (Run (Demo.world (Some 2%nat) "" false) 1 Demo.mockOptions initialWorld))
  = mkSession [Demo.algebra true] 0 /\
  notifications
    (trace (snd (Run (Demo.world (Some 2%nat) "" false) 1 Demo.mockOptions initialWorld)))
  = [(Checking 1 0, EvSendEmail "me@vt.edu" notifySubject (notifyBody (Demo.algebra false)))] /\
  emailSender (fst (Run (Demo.world (Some 2%nat) "" false) 1 Demo.mockOptions initialWorld))
  = Some (MockSender (mkMockEmailSender [] false)) /\
  snd (MockEmailSender_Send (mkMockEmailSender [] false) "me@vt.edu" notifySubject
         (notifyBody (Demo.algebra false)))
  = mkMockEmailSender
      [("me@vt.edu", notifySubject, notifyBody (Demo.algebra false))] false.
Proof. vm_compute. repeat split; reflexivity. Qed.

(** C9.  Within one poll cycle the availability lookups are exactly one
    for each entity that is pending when the cycle starts and none for a
    found entity, and they are made in the order of the entities. *)
Theorem cycle_lookups_in_order env cfg a t s w :
  let w' := snd (pollCycle env cfg a t s w) in
  lookups (emitted w w') = owedLookups cfg a (indexed (courses s)) /\
  forall i, lookupsOf i (emitted w w') = if pendingAt s i then 1%nat else 0%nat.
Proof.
  simpl. split.
  - destruct (pollCycle_lookups env cfg a t s w) as (evs & T & K).
    rewrite (emitted_app _ _ _ T). exact K.
  - intros i. apply pollCycle_lookupsOf.
Qed.

Example demo_cycle_lookups :
  let s := mkSession [mkCourseStatus "111" "Logic" false; Demo.algebra true;
                      mkCourseStatus "333" "Sets" false] 2 in
  let w' := snd (pollCycle (Demo.world None "" false) Demo.config 7 0 s initialWorld) in
  lookups (emitted initialWorld w') =
  [(Checking 7 0, EvPost DefaultTimetableURL (buildPayload Demo.config "111" true));
   (Checking 7 2, EvPost DefaultTimetableURL (buildPayload Demo.config "333" true))].
Proof. vm_compute. reflexivity. Qed.

(** C10.  For a configuration whose base URL is empty, the name search
    of [getCourseName] is posted to the empty URL, and returns an error
    whenever the transport refuses the empty URL (as Go's does: it has
    no scheme); the availability search of [checkSectionOpen] is posted
    to the default timetable URL, which [getBaseURL] puts in place of
    the empty one.  The two URLs differ. *)
Theorem base_url_defaults_disagree env cfg crn w :
  BaseURL cfg = "" ->
  emitted w (snd (getCourseName env cfg crn w))
    = [(pos w, EvPost "" (buildPayload cfg crn false))] /\
  emitted w (snd (checkSectionOpen env cfg crn w))
    = [(pos w, EvPost DefaultTimetableURL (buildPayload cfg crn true))] /\
  getBaseURL cfg = DefaultTimetableURL /\
  BaseURL cfg <> getBaseURL cfg /\
  ((forall n payload, exists cause, server env n "" payload = TransportError cause) ->
   exists e, fst (getCourseName env cfg crn w) = Err e).
Proof.
  intros Hb.
  assert (Hg : getBaseURL cfg = DefaultTimetableURL).
  { unfold getBaseURL. rewrite Hb. reflexivity. }
  split; [|split; [|split; [|split]]].
  - rewrite getCourseName_run, Hb. simpl. apply emitted_app. reflexivity.
  - rewrite checkSectionOpen_run, Hg. simpl. apply emitted_app. reflexivity.
  - exact Hg.
  - rewrite Hg, Hb. discriminate.
  - intros Hrefuse. unfold getCourseName, fetchDocument, bind, next_post, emit, ret.
    simpl. rewrite Hb.
    destruct (Hrefuse (posts w) (buildPayload cfg crn false)) as [cause ->].
    eexists. reflexivity.
Qed.

(** The configuration as it is in the file, with no base URL: the name
    search fails, the availability search finds the open section. *)
Lemma base_url_defaults_disagree_witness :
  (exists e, fst (getCourseName (Demo.world (Some 0%nat) "" false) Demo.configFile "222"
                    initialWorld) = Err e) /\
  fst (checkSectionOpen (Demo.world (Some 0%nat) "" false) Demo.configFile "222"
         initialWorld) = Ok true.
Proof.
  split; [|reflexivity].
  apply (base_url_defaults_disagree (Demo.world (Some 0%nat) "" false) Demo.configFile
           "222" initialWorld eq_refl).
  intros n payload. exists "unsupported protocol scheme". reflexivity.
Defined.

(** ** Further properties of the program *)

(** *** White space *)

Lemma isSpace_byte a : isSpace a = true -> (nat_of_ascii a <= 32)%nat.
Proof.
  unfold isSpace. cbv zeta.
  rewrite orb_true_iff, andb_true_iff, !Nat.leb_le, Nat.eqb_eq. lia.
Qed.

Lemma isSpace_high a : (128 <= nat_of_ascii a)%nat -> isSpace a = false.
Proof.
  intros H. destruct (isSpace a) eqn:E; [|reflexivity].
  apply isSpace_byte in E. lia.
Qed.

Lemma isSpace2_bytes a b :
  isSpace2 a b = true ->
  nat_of_ascii a = 194%nat /\ (128 <= nat_of_ascii b <= 191)%nat.
Proof.
  unfold isSpace2. cbv zeta.
  rewrite andb_true_iff, orb_true_iff, !Nat.eqb_eq. lia.
Qed.

Lemma isSpace3_bytes a b c :
  isSpace3 a b c = true ->
  (225 <= nat_of_ascii a <= 227)%nat /\
  (128 <= nat_of_ascii b <= 191)%nat /\ (128 <= nat_of_ascii c <= 191)%nat.
Proof.
  unfold isSpace3. cbv zeta.
  rewrite !orb_true_iff, !andb_true_iff, !orb_true_iff, !andb_true_iff,
    !Nat.eqb_eq, !Nat.leb_le. lia.
Qed.

Lemma isSpace2_lead a b : nat_of_ascii a <> 194%nat -> isSpace2 a b = false.
Proof.
  intros H. destruct (isSpace2 a b) eqn:E; [|reflexivity].
  apply isSpace2_bytes in E. lia.
Qed.

(** [TrimSpace] takes white space off, rune by rune, on either side. *)
Lemma trimLeft_space r s : isSpaceRune r = true -> trimLeft (r +:+ s) = trimLeft s.
Proof.
  destruct r as [|a [|b [|c [|d r]]]]; try discriminate; cbn [isSpaceRune]; intros H.
  - change (String a "" +:+ s) with (String a s).
    cbn [trimLeft]. rewrite H. reflexivity.
  - destruct (isSpace2_bytes _ _ H) as [Ha _].
    change (String a (String b "") +:+ s) with (String a (String b s)).
    cbn [trimLeft]. rewrite isSpace_high by lia. rewrite H. reflexivity.
  - destruct (isSpace3_bytes _ _ _ H) as (Ha & _ & _).
    change (String a (String b (String c "")) +:+ s) with (String a (String b (String c s))).
    cbn [trimLeft]. rewrite isSpace_high by lia.
    rewrite isSpace2_lead by lia. rewrite H. reflexivity.
Qed.

Lemma trimRight_space r s : isSpaceRune r = true -> trimRight (s +:+ r) = trimRight s.
Proof.
  intros H.
  assert (Hr : trimRight r = EmptyString).
  { destruct r as [|a [|b [|c [|d r]]]]; try discriminate; cbn [isSpaceRune] in H.
    - cbn [trimRight isSpaceRune]. rewrite H. reflexivity.
    - destruct (isSpace2_bytes _ _ H) as [Ha Hb].
      cbn [trimRight isSpaceRune]. rewrite (isSpace_high b) by lia. rewrite H. reflexivity.
    - destruct (isSpace3_bytes _ _ _ H) as (Ha & Hb & Hc).
      cbn [trimRight isSpaceRune]. rewrite (isSpace_high c) by lia.
      rewrite (isSpace2_lead b c) by lia. rewrite H. reflexivity. }
  induction s as [|x s IH]; [exact Hr|].
  change (String x s +:+ r) with (String x (s +:+ r)).
  cbn [trimRight]. rewrite IH. reflexivity.
Qed.

(** *** Strings *)

Lemma string_length_append (s t : string) :
  String.length (s +:+ t) = (String.length s + String.length t)%nat.
Proof. induction s as [|a s IH]; simpl; [reflexivity|]. rewrite IH. reflexivity. Qed.

Lemma substring_split (s : string) : forall n,
  (n <= String.length s)%nat ->
  String.length (String.substring 0 n s) = n /\
  exists rest, s = String.substring 0 n s +:+ rest.
Proof.
  induction s as [|a s IH]; intros [|n] H; simpl in *.
  - split; [reflexivity|]. exists "". reflexivity.
  - lia.
  - split; [reflexivity|]. exists (String a s). reflexivity.
  - destruct (IH n) as [L [rest E]]; [lia|]. split; [rewrite L; reflexivity|].
    exists rest. change (String a s = String a (String.substring 0 n s +:+ rest)).
    f_equal. exact E.
Qed.

Lemma prefix_append (p s : string) :
  String.prefix p s = true <-> exists rest, s = p +:+ rest.
Proof.
  revert s. induction p as [|a p IH]; intros s.
  - split; [intros _; exists s; reflexivity|]. intros _. destruct s; reflexivity.
  - destruct s as [|b s]; simpl.
    + split; [discriminate|intros [rest E]; discriminate].
    + destruct (Ascii.ascii_dec a b) as [->|Hne].
      * rewrite IH. split; intros [rest E]; exists rest; [rewrite E; reflexivity|].
        injection E as E. exact E.
      * split; [discriminate|]. intros [rest E]. injection E as E1 E2. congruence.
Qed.

Lemma strings_Contains_unfold (s sub : string) :
  strings_Contains s sub =
  if String.prefix sub s then true
  else match s with
       | EmptyString => false
       | String _ s' => strings_Contains s' sub
       end.
Proof. destruct s; reflexivity. Qed.

(** [strings.Contains] finds the substring wherever it is. *)
Lemma strings_Contains_spec (s sub : string) :
  strings_Contains s sub = true <-> exists pre post, s = pre +:+ sub +:+ post.
Proof.
  induction s as [|a s IH]; rewrite strings_Contains_unfold.
  - destruct (String.prefix sub "") eqn:E.
    + split; [intros _|reflexivity]. apply prefix_append in E. destruct E as [rest E].
      exists "", rest. exact E.
    + split; [discriminate|]. intros (pre & post & E1).
      destruct pre; [|discriminate]. simpl in E1.
      assert (String.prefix sub "" = true) by (apply prefix_append; eauto). congruence.
  - destruct (String.prefix sub (String a s)) eqn:E.
    + split; [intros _|reflexivity]. apply prefix_append in E. destruct E as [rest E].
      exists "", rest. exact E.
    + rewrite IH. split.
      * intros (pre & post & ->). exists (String a pre), post. reflexivity.
      * intros (pre & post & E1). destruct pre as [|b pre].
        { simpl in E1. assert (String.prefix sub (String a s) = true)
            by (apply prefix_append; eauto). congruence. }
        simpl in E1. injection E1 as _ E1. eauto.
Qed.

Lemma strings_Contains_empty (s : string) : strings_Contains s "" = true.
Proof. apply strings_Contains_spec. exists "", s. reflexivity. Qed.

(** *** truncateEmail *)

(** X1.  For a limit of at least three bytes, [truncateEmail] returns at
    most [maxLen] bytes: an address that fits is returned as it is, and a
    longer one is cut to its first [maxLen - 3] bytes followed by three
    dots, [maxLen] bytes in all. *)
Theorem truncateEmail_fits (email : string) (maxLen : nat) :
  (3 <= maxLen)%nat ->
  (String.length (truncateEmail email maxLen) <= maxLen)%nat /\
  ((String.length email <= maxLen)%nat -> truncateEmail email maxLen = email) /\
  ((maxLen < String.length email)%nat ->
     String.length (truncateEmail email maxLen) = maxLen /\
     exists kept rest,
       email = kept +:+ rest /\ String.length kept = (maxLen - 3)%nat /\
       truncateEmail email maxLen = kept +:+ "...").
Proof.
  intros H3. unfold truncateEmail.
  destruct (String.length email <=? maxLen)%nat eqn:E.
  - apply Nat.leb_le in E. split; [exact E|]. split; [reflexivity|lia].
  - apply Nat.leb_gt in E.
    destruct (substring_split email (maxLen - 3)) as [L [rest Er]]; [lia|].
    assert (Hlen : String.length (String.substring 0 (maxLen - 3) email +:+ "...") = maxLen).
    { rewrite string_length_append, L. simpl. lia. }
    split; [lia|]. split; [lia|]. intros _. split; [exact Hlen|].
    exists (String.substring 0 (maxLen - 3) email), rest. repeat split; assumption.
Qed.

Lemma truncateEmail_fits_witness :
  (String.length (truncateEmail "a.very.long.address.of.a.student@vt.edu" 35) <= 35)%nat.
Proof. apply (truncateEmail_fits "a.very.long.address.of.a.student@vt.edu" 35). lia. Defined.

(** *** buildPayload *)

(** X2.  The form that [buildPayload] builds carries the CRN, the campus
    and the term it is given, and [open_only=on] exactly when asked for:
    the open-only form is the plain form with that one field more, and
    nothing else differs. *)
Theorem buildPayload_fields (c : Config) (crn : string) (openOnly : bool) :
  buildPayload c crn openOnly !! "crn" = Some [crn] /\
  buildPayload c crn openOnly !! "CAMPUS" = Some [Campus c] /\
  buildPayload c crn openOnly !! "TERMYEAR" = Some [Term c] /\
  buildPayload c crn openOnly !! "open_only" = (if openOnly then Some ["on"] else None) /\
  buildPayload c crn true = <["open_only" := ["on"]]> (buildPayload c crn false) /\
  delete "open_only" (buildPayload c crn openOnly) = buildPayload c crn false /\
  size (buildPayload c crn openOnly) = (if openOnly then 12 else 11)%nat.
Proof.
  unfold buildPayload. destruct openOnly; repeat split; reflexivity.
Qed.

(** *** fetchDocument, checkSectionOpen, getCourseName *)

Lemma fetchDocument_fst env targetUrl payload w :
  fst (fetchDocument env targetUrl payload w) =
  match server env (posts w) targetUrl payload with
  | TransportError cause => Err (ErrRequestFailed cause)
  | Response status body =>
      if status =? 200
      then match body with
           | Some doc => Ok doc
           | None => Err ErrParseHTML
           end
      else Err (ErrUnexpectedStatus status)
  end.
Proof.
  unfold fetchDocument, bind, next_post, emit, ret. simpl.
  destruct (server env (posts w) targetUrl payload) as [cause|status body]; [reflexivity|].
  destruct (status =? 200); simpl; [|reflexivity]. destruct body; reflexivity.
Qed.

Lemma checkSectionOpen_fst env cfg crn w :
  fst (checkSectionOpen env cfg crn w) =
  match fst (fetchDocument env (getBaseURL cfg) (buildPayload cfg crn true) w) with
  | Ok doc => Ok (strings_Contains (tableText doc) crn)
  | Err e => Err e
  end.
Proof.
  unfold checkSectionOpen, bind.
  destruct (fetchDocument env (getBaseURL cfg) (buildPayload cfg crn true) w)
    as [[doc|e] w1]; reflexivity.
Qed.

Lemma scanRow_last crn rows : forall init,
  foldl (scanRow crn) init rows =
  match last (matchingRows crn rows) with
  | Some row => strings_TrimSpace (td3 row)
  | None => init
  end.
Proof.
  induction rows as [|row rows IH] using rev_ind; intros init; [reflexivity|].
  rewrite foldl_snoc, IH. unfold matchingRows. rewrite List.filter_app. simpl.
  unfold scanRow at 1. destruct (strings_Contains (td1 row) crn).
  - rewrite last_snoc. reflexivity.
  - rewrite app_nil_r. reflexivity.
Qed.

Lemma getCourseName_fst env cfg crn w :
  fst (getCourseName env cfg crn w) =
  match fst (fetchDocument env (BaseURL cfg) (buildPayload cfg crn false) w) with
  | Err e => Err e
  | Ok doc =>
      match last (matchingRows crn (tableRows doc)) with
      | Some row =>
          if bool_decide (strings_TrimSpace (td3 row) = "")
          then Err (ErrCourseNotFound crn)
          else Ok (strings_TrimSpace (td3 row))
      | None => Err (ErrCourseNotFound crn)
      end
  end.
Proof.
  unfold getCourseName, bind.
  destruct (fetchDocument env (BaseURL cfg) (buildPayload cfg crn false) w)
    as [[doc|e] w1]; [|reflexivity].
  simpl. rewrite scanRow_last.
  destruct (last (matchingRows crn (tableRows doc))) as [row|]; [|reflexivity].
  destruct (bool_decide (strings_TrimSpace (td3 row) = "")); reflexivity.
Qed.

Lemma getBaseURL_nonempty cfg : getBaseURL cfg <> "".
Proof.
  unfold getBaseURL. destruct (bool_decide (BaseURL cfg <> "")) eqn:E.
  - apply bool_decide_eq_true in E. exact E.
  - discriminate.
Qed.

Lemma matchingRows_empty rows : matchingRows "" rows = rows.
Proof.
  unfold matchingRows. induction rows as [|x l IH]; [reflexivity|].
  simpl. rewrite strings_Contains_empty. f_equal. exact IH.
Qed.

(** X3.  [fetchDocument] makes one POST, to the URL and with the form
    it is given.  It returns a document exactly when the reply has
    status 200 and a body that parses; a transport failure is reported
    as a failed request with its cause, and a status other than 200 as
    an unexpected status whatever the body is. *)
Theorem fetchDocument_reply env targetUrl payload w :
  let r := fetchDocument env targetUrl payload w in
  let reply := server env (posts w) targetUrl payload in
  emitted w (snd r) = [(pos w, EvPost targetUrl payload)] /\
  posts (snd r) = S (posts w) /\
  (forall doc, fst r = Ok doc <-> reply = Response 200 (Some doc)) /\
  (forall cause, reply = TransportError cause -> fst r = Err (ErrRequestFailed cause)) /\
  (forall status body, reply = Response status body -> status <> 200 ->
                       fst r = Err (ErrUnexpectedStatus status)) /\
  (reply = Response 200 None -> fst r = Err ErrParseHTML).
Proof.
  simpl. rewrite fetchDocument_world, fetchDocument_fst. simpl.
  split; [apply emitted_app; reflexivity|]. split; [reflexivity|].
  destruct (server env (posts w) targetUrl payload) as [cause|status body].
  - split; [|split; [|split]].
    + intros doc. split; discriminate.
    + intros c E. injection E as <-. reflexivity.
    + intros s b E. discriminate.
    + discriminate.
  - destruct (Z.eqb_spec status 200) as [->|Hne]; simpl.
    + destruct body as [doc|]; (split; [|split; [|split]]).
      * intros d. split; intros E; injection E as <-; reflexivity.
      * discriminate.
      * intros s b E Hs. injection E as <- _. contradiction.
      * discriminate.
      * intros d. split; discriminate.
      * discriminate.
      * intros s b E Hs. injection E as <- _. contradiction.
      * reflexivity.
    + split; [|split; [|split]].
      * intros d. split; [discriminate|]. intros E. injection E as E _. contradiction.
      * discriminate.
      * intros s b E _. injection E as <- _. reflexivity.
      * intros E. injection E as E _. contradiction.
Qed.

Lemma fetchDocument_reply_witness :
  fst (fetchDocument (Demo.serving Unreadable (Response 404 (Some Demo.algebraPage)))
         "http://127.0.0.1" (buildPayload Demo.config "222" true) initialWorld)
  = Err (ErrUnexpectedStatus 404).
Proof.
  apply (fetchDocument_reply (Demo.serving Unreadable (Response 404 (Some Demo.algebraPage)))
           "http://127.0.0.1" (buildPayload Demo.config "222" true) initialWorld)
    with (body := Some Demo.algebraPage); [reflexivity|discriminate].
Defined.

(** X4.  [checkSectionOpen] makes one POST, the open-only search for
    the CRN, to a URL that is never empty.  It reports the section open
    exactly when the reply is a page (status 200, parsed) whose table
    text has the CRN somewhere in it, and it fails exactly when
    [fetchDocument] fails, with the same error. *)
Theorem checkSectionOpen_open env cfg crn w :
  let r := checkSectionOpen env cfg crn w in
  let target := getBaseURL cfg in
  let form := buildPayload cfg crn true in
  emitted w (snd r) = [(pos w, EvPost target form)] /\
  target <> "" /\
  (fst r = Ok true <->
   exists doc pre post,
     server env (posts w) target form = Response 200 (Some doc) /\
     tableText doc = pre +:+ crn +:+ post) /\
  (forall e, fst r = Err e <-> fst (fetchDocument env target form w) = Err e).
Proof.
  simpl. split; [|split; [apply getBaseURL_nonempty|split]].
  - rewrite checkSectionOpen_run. apply emitted_app. reflexivity.
  - rewrite checkSectionOpen_fst, fetchDocument_fst.
    destruct (server env (posts w) (getBaseURL cfg) (buildPayload cfg crn true))
      as [cause|status body].
    { split; [discriminate|]. intros (d & pre & post & E & _). discriminate. }
    destruct (Z.eqb_spec status 200) as [->|Hne].
    2: { split; [discriminate|]. intros (d & pre & post & E & _).
         injection E as E _. contradiction. }
    destruct body as [doc|].
    2: { split; [discriminate|]. intros (d & pre & post & E & _). discriminate. }
    split.
    + intros E. injection E as E. apply strings_Contains_spec in E.
      destruct E as (pre & post & E). exists doc, pre, post. split; [reflexivity|exact E].
    + intros (d & pre & post & E & Ht). injection E as <-.
      f_equal. apply strings_Contains_spec. eauto.
  - intros e. rewrite checkSectionOpen_fst.
    destruct (fst (fetchDocument env (getBaseURL cfg) (buildPayload cfg crn true) w));
      split; intros E; congruence.
Qed.

Lemma checkSectionOpen_open_witness :
  fst (checkSectionOpen (Demo.serving (Parsed Demo.configFile)
                           (Response 200 (Some Demo.algebraPage)))
         Demo.config "222" initialWorld) = Ok true.
Proof.
  apply (checkSectionOpen_open
           (Demo.serving (Parsed Demo.configFile) (Response 200 (Some Demo.algebraPage)))
           Demo.config "222" initialWorld).
  exists Demo.algebraPage, "", " 001 Algebra". split; reflexivity.
Defined.

(** X5.  [getCourseName] returns a name exactly when the reply is a
    page that has a row for the CRN and the last such row has a title
    that is not blank: the name is that title, trimmed (a later row
    overrides an earlier one, also with a blank title).  On a page
    without such a title it returns the course-not-found error. *)
Theorem getCourseName_last_row env cfg crn w :
  let r := fst (getCourseName env cfg crn w) in
  let reply := server env (posts w) (BaseURL cfg) (buildPayload cfg crn false) in
  (forall name,
     r = Ok name <->
     exists doc row,
       reply = Response 200 (Some doc) /\
       last (matchingRows crn (tableRows doc)) = Some row /\
       strings_TrimSpace (td3 row) = name /\ name <> "") /\
  (forall doc,
     reply = Response 200 (Some doc) ->
     match last (matchingRows crn (tableRows doc)) with
     | Some row => strings_TrimSpace (td3 row) = ""
     | None => True
     end ->
     r = Err (ErrCourseNotFound crn)).
Proof.
  simpl. rewrite getCourseName_fst, fetchDocument_fst.
  destruct (server env (posts w) (BaseURL cfg) (buildPayload cfg crn false))
    as [cause|status body].
  { split; [intros name; split; [discriminate|]|discriminate].
    intros (d & row & E & _). discriminate. }
  destruct (Z.eqb_spec status 200) as [->|Hne].
  2: { split; [intros name; split; [discriminate|]|].
       - intros (d & row & E & _). injection E as E _. contradiction.
       - intros d E. injection E as E _. contradiction. }
  destruct body as [doc|].
  2: { split; [intros name; split; [discriminate|]|discriminate].
       intros (d & row & E & _). discriminate. }
  split.
  - intros name. destruct (last (matchingRows crn (tableRows doc))) as [row|] eqn:El.
    + destruct (bool_decide (strings_TrimSpace (td3 row) = "")) eqn:Eb.
      * apply bool_decide_eq_true in Eb. split; [discriminate|].
        intros (d & row' & Hd & Hl & Hn & Hne). injection Hd as <-.
        rewrite El in Hl. injection Hl as <-. congruence.
      * apply bool_decide_eq_false in Eb. split.
        -- intros E. injection E as <-. exists doc, row. repeat split; assumption.
        -- intros (d & row' & Hd & Hl & Hn & Hne). injection Hd as <-.
           rewrite El in Hl. injection Hl as <-. rewrite Hn. reflexivity.
    + split; [discriminate|].
      intros (d & row' & Hd & Hl & _). injection Hd as <-.
      rewrite El in Hl. discriminate.
  - intros d Hd Hl. injection Hd as <-.
    destruct (last (matchingRows crn (tableRows doc))) as [row|]; [|reflexivity].
    rewrite Hl. reflexivity.
Qed.

(** A page with two rows for the section: the second one names it. *)
Lemma getCourseName_last_row_witness :
  fst (getCourseName
         (Demo.serving Unreadable
            (Response 200 (Some (mkDocument "" [mkRow "222" "Algebra"; mkRow "222" ""]))))
         Demo.config "222" initialWorld)
  = Err (ErrCourseNotFound "222").
Proof.
  apply (proj2 (getCourseName_last_row
                  (Demo.serving Unreadable
                     (Response 200
                        (Some (mkDocument "" [mkRow "222" "Algebra"; mkRow "222" ""]))))
                  Demo.config "222" initialWorld)
           (mkDocument "" [mkRow "222" "Algebra"; mkRow "222" ""]));
    reflexivity.
Defined.

(** X6.  An empty CRN matches everything: on any page
    [checkSectionOpen] reports the section open, and [getCourseName]
    takes the title of the last row of the table, whatever its first
    cell is. *)
Theorem empty_CRN_matches_all env cfg w doc :
  (server env (posts w) (getBaseURL cfg) (buildPayload cfg "" true)
   = Response 200 (Some doc) ->
   fst (checkSectionOpen env cfg "" w) = Ok true) /\
  (server env (posts w) (BaseURL cfg) (buildPayload cfg "" false)
   = Response 200 (Some doc) ->
   forall row, last (tableRows doc) = Some row -> strings_TrimSpace (td3 row) <> "" ->
   fst (getCourseName env cfg "" w) = Ok (strings_TrimSpace (td3 row))).
Proof.
  split.
  - intros Hr. rewrite checkSectionOpen_fst, fetchDocument_fst, Hr. simpl.
    rewrite strings_Contains_empty. reflexivity.
  - intros Hr row Hl Hne. rewrite getCourseName_fst, fetchDocument_fst, Hr. simpl.
    rewrite matchingRows_empty, Hl.
    rewrite bool_decide_eq_false_2 by exact Hne. reflexivity.
Qed.

Lemma empty_CRN_matches_all_witness :
  fst (checkSectionOpen (Demo.serving Unreadable (Response 200 (Some Demo.emptyPage)))
         Demo.config "" initialWorld) = Ok true.
Proof.
  apply (empty_CRN_matches_all (Demo.serving Unreadable (Response 200 (Some Demo.emptyPage)))
           Demo.config initialWorld Demo.emptyPage).
  reflexivity.
Defined.

(** *** loadConfig *)

(** X7.  A configuration that [loadConfig] accepts comes from a file
    that parses and names at least one CRN.  Its CRNs and its email are
    those of the file; a check interval of 0 has become 30, an empty
    campus "0", an empty term "202601" and an empty base URL the default
    timetable URL, and every other value is kept.  So no accepted
    configuration has a zero interval or an empty campus, term or base
    URL, [getBaseURL] is its base URL, and loading it again from a file
    gives it back unchanged. *)
Theorem loadConfig_defaults env path cfg :
  loadConfig env path = (cfg, None) ->
  exists file,
    readConfig env path = Parsed file /\
    CRNs cfg = CRNs file /\ CRNs cfg <> [] /\ Email cfg = Email file /\
    CheckInterval cfg = (if CheckInterval file =? 0 then 30 else CheckInterval file) /\
    Campus cfg = (if bool_decide (Campus file = "") then "0" else Campus file) /\
    Term cfg = (if bool_decide (Term file = "") then "202601" else Term file) /\
    BaseURL cfg = (if bool_decide (BaseURL file = "") then DefaultTimetableURL
                   else BaseURL file) /\
    CheckInterval cfg <> 0 /\ Campus cfg <> "" /\ Term cfg <> "" /\ BaseURL cfg <> "" /\
    getBaseURL cfg = BaseURL cfg /\
    (forall env' path', readConfig env' path' = Parsed cfg ->
                        loadConfig env' path' = (cfg, None)).
Proof.
  unfold loadConfig. destruct (readConfig env path) as [| |file]; try discriminate.
  intros H. exists file. split; [reflexivity|].
  destruct file as [crns email ci term campus url]. cbv zeta in H. simpl in *.
  destruct (Z.eqb_spec ci 0) as [->|Hci]; simpl in H;
    (destruct (bool_decide (campus = "")) eqn:Eca; simpl in H;
     [|apply bool_decide_eq_false in Eca]);
    (destruct (bool_decide (term = "")) eqn:Ete; simpl in H;
     [|apply bool_decide_eq_false in Ete]);
    (destruct (bool_decide (url = "")) eqn:Eur; simpl in H;
     [|apply bool_decide_eq_false in Eur]);
    (destruct crns as [|crn crns]; simpl in H; [discriminate|]);
    injection H as <-; simpl;
    (split; [reflexivity|]); (split; [discriminate|]);
    (split; [reflexivity|]); (split; [reflexivity|]);
    (split; [reflexivity|]); (split; [reflexivity|]);
    (split; [reflexivity|]);
    (split; [first [discriminate|assumption]|]);
    (split; [first [discriminate|assumption]|]);
    (split; [first [discriminate|assumption]|]);
    (split; [first [discriminate|assumption]|]);
    (split;
     [unfold getBaseURL; simpl;
      first [reflexivity | rewrite bool_decide_eq_true_2 by assumption; reflexivity]
     |intros env' path' ->; cbv zeta; simpl;
      rewrite ?(proj2 (Z.eqb_neq ci 0)) by assumption; simpl;
      repeat (match goal with
              | |- context [bool_decide (?x = "")] =>
                  is_var x; rewrite (bool_decide_eq_false_2 (x = "")) by assumption; simpl
              end);
      reflexivity]).
Qed.

Lemma loadConfig_defaults_witness :
  exists file,
    readConfig (Demo.world None "" false) "config.json" = Parsed file /\
    CRNs Demo.config = CRNs file.
Proof.
  destruct (loadConfig_defaults (Demo.world None "" false) "config.json" Demo.config
              eq_refl) as (file & Hr & Hc & _).
  exists file. split; assumption.
Defined.

(** X8.  [loadConfig] fails in three ways, and in no other: the file
    cannot be read, it does not parse, or it names no CRN (whatever else
    it holds).  When it fails it returns the zero configuration. *)
Theorem loadConfig_errors env path :
  let r := loadConfig env path in
  (snd r = Some ErrReadConfig <-> readConfig env path = Unreadable) /\
  (snd r = Some ErrParseConfig <-> readConfig env path = Malformed) /\
  (snd r = Some ErrNoCRNsSpecified <->
   exists file, readConfig env path = Parsed file /\ CRNs file = []) /\
  (snd r = None <-> exists file, readConfig env path = Parsed file /\ CRNs file <> []) /\
  (forall e, snd r = Some e ->
     fst r = zeroConfig /\
     (e = ErrReadConfig \/ e = ErrParseConfig \/ e = ErrNoCRNsSpecified)).
Proof.
  simpl. unfold loadConfig. destruct (readConfig env path) as [| |file]; simpl.
  - split; [tauto|]. split; [split; discriminate|].
    split; [split; [discriminate|intros [f [E _]]; discriminate]|].
    split; [split; [discriminate|intros [f [E _]]; discriminate]|].
    intros err E. injection E as <-. auto.
  - split; [split; discriminate|]. split; [tauto|].
    split; [split; [discriminate|intros [f [E _]]; discriminate]|].
    split; [split; [discriminate|intros [f [E _]]; discriminate]|].
    intros err E. injection E as <-. auto.
  - assert (Hc : forall c : Config,
               CRNs (if bool_decide (BaseURL c = "")
                     then mkConfig (CRNs c) (Email c) (CheckInterval c) (Term c) (Campus c)
                            DefaultTimetableURL
                     else c) = CRNs c)
      by (intros c; destruct (bool_decide _); reflexivity).
    assert (Ht : forall c : Config,
               CRNs (if bool_decide (Term c = "")
                     then mkConfig (CRNs c) (Email c) (CheckInterval c) "202601" (Campus c)
                            (BaseURL c)
                     else c) = CRNs c)
      by (intros c; destruct (bool_decide _); reflexivity).
    assert (Hp : forall c : Config,
               CRNs (if bool_decide (Campus c = "")
                     then mkConfig (CRNs c) (Email c) (CheckInterval c) (Term c) "0" (BaseURL c)
                     else c) = CRNs c)
      by (intros c; destruct (bool_decide _); reflexivity).
    assert (Hi : CRNs (if CheckInterval file =? 0
                       then mkConfig (CRNs file) (Email file) 30 (Term file) (Campus file)
                              (BaseURL file)
                       else file) = CRNs file)
      by (destruct (_ =? _); reflexivity).
    rewrite Hc, Ht, Hp, Hi.
    destruct (CRNs file) as [|crn crns] eqn:Ec; simpl.
    + split; [split; discriminate|]. split; [split; discriminate|].
      split; [split; [intros _; exists file; split; [reflexivity|exact Ec]|reflexivity]|].
      split; [split; [discriminate|]|].
      * intros [f [E Hne]]. injection E as <-. congruence.
      * intros err E. injection E as <-. auto.
    + split; [split; discriminate|]. split; [split; discriminate|].
      split; [split; [discriminate|]|].
      * intros [f [E Hn]]. injection E as <-. congruence.
      * split; [|discriminate].
        split; [intros _|reflexivity]. exists file. split; [reflexivity|].
        rewrite Ec. discriminate.
Qed.

Lemma loadConfig_errors_witness :
  fst (loadConfig (Demo.serving Malformed (Response 200 None)) "config.json") = zeroConfig /\
  (ErrParseConfig = ErrReadConfig \/ ErrParseConfig = ErrParseConfig \/
   ErrParseConfig = ErrNoCRNsSpecified).
Proof.
  apply (loadConfig_errors (Demo.serving Malformed (Response 200 None)) "config.json").
  reflexivity.
Defined.

(** *** The senders *)

(** X9.  [ResendEmailSender.Send] without an API key returns the
    key-not-set error and does not contact the mail service.  With a key
    it makes one request to the service, with that key and the message,
    and returns what the service answers. *)
Theorem ResendEmailSender_Send_calls env r to subject body w :
  let res := ResendEmailSender_Send env r to subject body w in
  (APIKey r = "" -> res = (Some ErrApiKeyNotSet, w)) /\
  (APIKey r <> "" ->
   fst res = ErrResend <$> resend env (mails w) (APIKey r) to subject body /\
   emitted w (snd res) = [(pos w, EvResend (APIKey r) to subject body)] /\
   mails (snd res) = S (mails w)).
Proof.
  simpl. unfold ResendEmailSender_Send. split; intros H.
  - rewrite bool_decide_eq_true_2 by exact H. reflexivity.
  - rewrite bool_decide_eq_false_2 by exact H.
    unfold bind, next_mail, emit, ret. simpl.
    split; [reflexivity|]. split; [apply emitted_app; reflexivity|reflexivity].
Qed.

Lemma ResendEmailSender_Send_calls_witness :
  fst (ResendEmailSender_Send (Demo.world None "" true) (mkResendEmailSender "key")
         "me@vt.edu" "s" "b" initialWorld) = Some (ErrResend "rejected").
Proof.
  apply (ResendEmailSender_Send_calls (Demo.world None "" true) (mkResendEmailSender "key")
           "me@vt.edu" "s" "b" initialWorld).
  discriminate.
Defined.

(** X10.  The package-level [sendEmail] behaves as the default sender
    that [Run] builds from the environment: it returns the same result
    as [ResendEmailSender.Send] with the key of [RESEND_API_KEY] and
    makes the same requests to the mail service, none when the key is
    not set. *)
Theorem sendEmail_as_default_sender env to subject body w :
  let key := getenv env "RESEND_API_KEY" in
  let direct := sendEmail env to subject body w in
  let viaSender := ResendEmailSender_Send env (mkResendEmailSender key) to subject body w in
  fst direct = fst viaSender /\
  List.filter (fun e => isResend (snd e)) (emitted w (snd direct)) = emitted w (snd viaSender) /\
  mails (snd direct) = mails (snd viaSender) /\
  (key = "" ->
   fst direct = Some ErrApiKeyNotSet /\ mails (snd direct) = mails w /\
   List.filter (fun e => isResend (snd e)) (emitted w (snd direct)) = []).
Proof.
  simpl. rewrite sendEmail_world, sendEmail_result.
  unfold mailOutcome, sendEmail, ResendEmailSender_Send, mailEvents. simpl.
  destruct (bool_decide (getenv env "RESEND_API_KEY" = "")) eqn:E.
  - simpl. rewrite emitted_same.
    erewrite emitted_app by reflexivity. simpl. repeat split; reflexivity.
  - apply bool_decide_eq_false in E.
    unfold bind, next_mail, emit, ret. simpl.
    erewrite emitted_app by reflexivity.
    erewrite (emitted_app w) by reflexivity. simpl.
    repeat split; try reflexivity; contradiction.
Qed.

Lemma sendEmail_as_default_sender_witness :
  fst (sendEmail (Demo.world None "" false) "me@vt.edu" "s" "b" initialWorld)
  = Some ErrApiKeyNotSet.
Proof.
  apply (sendEmail_as_default_sender (Demo.world None "" false) "me@vt.edu" "s" "b"
           initialWorld).
  reflexivity.
Defined.

(** X11.  The mock records what it is sent: after a sequence of calls
    of [Send], a mock that does not fail has, after what it held, the
    messages of the calls in their order, and has answered [nil] to each;
    a mock set to fail has answered each call with its error and holds
    what it held. *)
Theorem mock_records_in_order m msgs :
  let r := mockSendAll m msgs in
  length (fst r) = length msgs /\
  ShouldError (snd r) = ShouldError m /\
  (ShouldError m = false ->
   Sent (snd r) = Sent m ++ msgs /\ Forall (fun e => e = None) (fst r)) /\
  (ShouldError m = true ->
   snd r = m /\ Forall (fun e => e = Some ErrMock) (fst r)).
Proof.
  simpl. revert m. induction msgs as [|[[to subject] body] msgs IH]; intros m.
  - simpl. rewrite app_nil_r. repeat split; constructor.
  - simpl. unfold MockEmailSender_Send.
    destruct (ShouldError m) eqn:Em.
    + specialize (IH m). destruct (mockSendAll m msgs) as [es m'']. simpl in *.
      destruct IH as (L & S & _ & Ht). rewrite Em in Ht.
      destruct (Ht eq_refl) as [-> F].
      repeat split; try discriminate; try assumption; [lia|constructor; auto].
    + specialize (IH (mkMockEmailSender (Sent m ++ [(to, subject, body)]) false)).
      destruct (mockSendAll _ msgs) as [es m'']. simpl in *.
      destruct IH as (L & S & Hf & _). destruct (Hf eq_refl) as [-> F].
      repeat split; try discriminate; try assumption; [lia| |constructor; auto].
      rewrite <- app_assoc. reflexivity.
Qed.

Lemma mock_records_in_order_witness :
  Sent (snd (mockSendAll (mkMockEmailSender [] false)
               [("a", "s1", "b1"); ("a", "s2", "b2")]))
  = [("a", "s1", "b1"); ("a", "s2", "b2")].
Proof.
  apply (mock_records_in_order (mkMockEmailSender [] false)
           [("a", "s1", "b1"); ("a", "s2", "b2")]).
  reflexivity.
Defined.

(** *** The single-section program *)



(** *** What a run can emit *)

Lemma emitsOnly_ret {A} P (a : A) : emitsOnly P (ret a).
Proof. intros w. exists []. simpl. rewrite app_nil_r. split; [reflexivity|constructor]. Qed.

Lemma emitsOnly_bind {A B} P (c : M A) (k : A -> M B) :
  emitsOnly P c -> (forall a, emitsOnly P (k a)) -> emitsOnly P (bind c k).
Proof.
  intros Hc Hk w. unfold bind.
  destruct (Hc w) as (evs1 & T1 & Q1). destruct (c w) as [a w1]. simpl in T1.
  destruct (Hk a w1) as (evs2 & T2 & Q2).
  exists (evs1 ++ evs2). split.
  - rewrite T2, T1, app_assoc. reflexivity.
  - apply Forall_app. split; assumption.
Qed.

Lemma emitsOnly_emit P e : (forall o, P (o, e)) -> emitsOnly P (emit e).
Proof.
  intros H w. exists [(pos w, e)]. split; [reflexivity|]. repeat constructor. apply H.
Qed.

Lemma emitsOnly_silent {A} P (c : M A) :
  (forall w, trace (snd (c w)) = trace w) -> emitsOnly P c.
Proof.
  intros H w. exists []. rewrite app_nil_r. split; [apply H|constructor].
Qed.

Section Emissions.

Variable P : Origin * Event -> Prop.
Hypothesis P_print : forall o m, P (o, EvPrint m).
Hypothesis P_tick : forall o, P (o, EvSleep (100 * Millisecond)).

Lemma emitsOnly_Printf m : emitsOnly P (Printf m).
Proof. apply emitsOnly_emit. intros o. apply P_print. Qed.

Lemma emitsOnly_tick : emitsOnly P (time_Sleep (100 * Millisecond)).
Proof.
  unfold time_Sleep. apply emitsOnly_bind; [apply emitsOnly_emit, P_tick|].
  intros _. apply emitsOnly_silent. reflexivity.
Qed.

Lemma emitsOnly_waitLoop fuel a t s u i : emitsOnly P (waitLoop fuel a t s u i).
Proof.
  revert i. induction fuel as [|fuel IH]; intros i; simpl.
  - apply emitsOnly_ret.
  - apply emitsOnly_bind; [apply emitsOnly_silent; reflexivity|]. intros n.
    destruct (n <? u); [|apply emitsOnly_ret].
    apply emitsOnly_bind; [apply emitsOnly_silent; reflexivity|]. intros n'.
    apply emitsOnly_bind; [apply emitsOnly_Printf|]. intros _.
    apply emitsOnly_bind; [apply emitsOnly_tick|]. intros _.
    apply IH.
Qed.

Lemma emitsOnly_waitInterval iv a t s : emitsOnly P (waitInterval iv a t s).
Proof.
  unfold waitInterval.
  apply emitsOnly_bind; [apply emitsOnly_silent; reflexivity|]. intros _.
  apply emitsOnly_bind; [apply emitsOnly_silent; reflexivity|]. intros n.
  apply emitsOnly_waitLoop.
Qed.

Variable env : Env.
Variable cfg : Config.

(** What is known of every tracked entity, whether found or not. *)
Variable Q : CourseStatus -> Prop.
Hypothesis Q_found : forall c, Q c -> Q (markFound c).
Hypothesis P_turn : forall a t i c r,
  Q c -> Forall P (map (pair (Checking a i)) (stepEvents env cfg a t c r)).

Lemma checkCourse_emits a t s i w :
  Forall Q (courses s) ->
  Forall Q (courses (fst (checkCourse env cfg a t s i w))) /\
  exists evs, trace (snd (checkCourse env cfg a t s i w)) = trace w ++ evs /\ Forall P evs.
Proof.
  intros HQ. destruct (courses s !! i) as [c|] eqn:Hc.
  2: { rewrite checkCourse_out by exact Hc. split; [exact HQ|].
       exists []. rewrite app_nil_r. split; [reflexivity|constructor]. }
  destruct (Found c) eqn:Hf.
  { rewrite checkCourse_skip by (unfold foundAt; rewrite Hc; exact Hf).
    split; [exact HQ|]. exists []. rewrite app_nil_r. split; [reflexivity|constructor]. }
  destruct (checkCourse_pending env cfg a t s i w c Hc Hf) as (Es & Et & _).
  assert (Qc : Q c) by (eapply Forall_lookup_1; eauto).
  rewrite Es. split.
  - unfold stepSession. destruct (availability env cfg (CRN c) (posts w)) as [[|]|e];
      try exact HQ. simpl. apply Forall_insert; [exact HQ|]. apply Q_found. exact Qc.
  - eexists. split; [exact Et|]. apply P_turn. exact Qc.
Qed.

Lemma pollCycle_emits a t s w :
  Forall Q (courses s) ->
  Forall Q (courses (fst (pollCycle env cfg a t s w))) /\
  exists evs, trace (snd (pollCycle env cfg a t s w)) = trace w ++ evs /\ Forall P evs.
Proof.
  intros HQ. unfold pollCycle.
  apply (forRange_invariant (checkCourse env cfg a t)
           (fun _ s' w' => Forall Q (courses s') /\
                           exists evs, trace w' = trace w ++ evs /\ Forall P evs)).
  - split; [exact HQ|]. exists []. rewrite app_nil_r. split; [reflexivity|constructor].
  - intros k x s1 w1 _ (HQ1 & evs1 & T1 & F1).
    destruct (checkCourse_emits a t s1 x w1 HQ1) as (HQ2 & evs2 & T2 & F2).
    split; [exact HQ2|]. exists (evs1 ++ evs2). split.
    + rewrite T2, T1, app_assoc. reflexivity.
    + apply Forall_app. split; assumption.
Qed.

Lemma runLoop_emits iv fuel : forall a s w,
  Forall Q (courses s) ->
  Forall Q (courses (snd (fst (runLoop env fuel cfg iv a s w)))) /\
  exists evs, trace (snd (runLoop env fuel cfg iv a s w)) = trace w ++ evs /\ Forall P evs.
Proof.
  induction fuel as [|fuel IH]; intros a s w HQ; simpl.
  - split; [exact HQ|]. exists []. rewrite app_nil_r. split; [reflexivity|constructor].
  - unfold bind, time_Now.
    destruct (pollCycle_emits a (now w) s w HQ) as (HQ1 & evs1 & T1 & F1).
    destruct (pollCycle env cfg a (now w) s w) as [s1 w1]. simpl in HQ1, T1.
    destruct (remaining s1 =? 0).
    + unfold Printf, emit, ret. simpl.
      split; [exact HQ1|]. exists (evs1 ++ [(pos w1, EvPrint MsgAllFound)]). split.
      * rewrite T1, app_assoc. reflexivity.
      * apply Forall_app. split; [exact F1|]. repeat constructor. apply P_print.
    + destruct (emitsOnly_waitInterval iv a (now w) s1 w1) as (evs2 & T2 & F2).
      destruct (waitInterval iv a (now w) s1 w1) as [[] w2]. simpl in T2.
      destruct (IH (a + 1) s1 w2 HQ1) as (HQ3 & evs3 & T3 & F3).
      split; [exact HQ3|]. exists (evs1 ++ evs2 ++ evs3). split.
      * rewrite T3, T2, T1, <- !app_assoc. reflexivity.
      * repeat (apply Forall_app; split); assumption.
Qed.

End Emissions.

Lemma resolve_loop_entries env cfg (R : Origin * Event -> Prop) crns :
  (forall m, R (Resolving, EvPrint m)) ->
  (forall crn, crn ∈ crns -> R (Resolving, nameSearch cfg crn)) ->
  forall acc w, pos w = Resolving ->
  exists evs,
    trace (snd (forRange (resolveCourse env cfg) acc crns w)) = trace w ++ evs /\
    Forall R evs.
Proof.
  intros Hprint. induction crns as [|crn rest IH]; intros Hsearch acc w Hp; simpl.
  - exists []. rewrite app_nil_r. split; [reflexivity|constructor].
  - unfold bind. rewrite resolveCourse_run, Hp.
    match goal with |- context [forRange _ ?acc' rest ?w'] =>
      destruct (IH (fun c Hc => Hsearch c (list_elem_of_further _ _ _ Hc)) acc' w' eq_refl)
        as (evs & T & F) end.
    eexists (_ :: _ :: evs). split.
    + rewrite T. simpl. rewrite <- app_assoc. reflexivity.
    + constructor; [apply Hsearch; left|]. constructor; [apply Hprint|exact F].
Qed.

(** A run, cut at the start of polling: what start-up has emitted, and
    what the loop emits after it. *)
Lemma Run_startup_entries env opts cfg (R : Origin * Event -> Prop) :
  loadConfig env (ConfigPath opts) = (cfg, None) ->
  (forall o m, R (o, EvPrint m)) ->
  (forall crn, crn ∈ CRNs cfg -> R (Resolving, nameSearch cfg crn)) ->
  exists w0,
    Forall R (trace w0) /\
    forall fuel,
      Run env fuel opts initialWorld =
      if (length (tracked env cfg 0 (CRNs cfg)) =? 0)%nat
      then (mkRunResult (Returned (Some ErrNoValidCRNs))
              (mkSession (tracked env cfg 0 (CRNs cfg)) 0) (Some (senderOf env opts)), w0)
      else
        let r := runLoop env fuel cfg (interval cfg) 1 (firstSession env cfg)
                   (snd (Printf MsgSeparator w0)) in
        (mkRunResult (fst (fst r)) (snd (fst r)) (Some (senderOf env opts)), snd r).
Proof.
  intros Hload Hprint Hsearch. unfold Run. rewrite Hload.
  unfold bind at 1. unfold bind at 1. unfold bind at 1. unfold bind at 1.
  unfold resolveCourses, bind at 1.
  unfold Printf, emit, at_pos, initialWorld. simpl.
  match goal with |- context [forRange _ [] (CRNs cfg) ?w'] =>
    destruct (resolve_loop_entries env cfg R (CRNs cfg) (Hprint Resolving) Hsearch [] w' eq_refl)
      as (evs & T & F);
    destruct (resolve_loop env cfg (CRNs cfg) [] w' eq_refl) as (E1 & _);
    destruct (forRange (resolveCourse env cfg) [] (CRNs cfg) w') as [cs w0] end.
  simpl in T, E1. subst cs. exists w0. split.
  - rewrite T. repeat (constructor; [apply Hprint|]). exact F.
  - intros fuel.
    destruct (length (tracked env cfg 0 (CRNs cfg)) =? 0)%nat; [reflexivity|].
    unfold firstSession, interval, bind, ret, Printf, emit. simpl.
    destruct (runLoop _ _ _ _ _ _ _) as [[o s] w1]. reflexivity.
Qed.

Lemma Run_entries env opts cfg fuel (P : Origin * Event -> Prop) (Q : CourseStatus -> Prop) :
  loadConfig env (ConfigPath opts) = (cfg, None) ->
  (forall o m, P (o, EvPrint m)) ->
  (forall o, P (o, EvSleep (100 * Millisecond))) ->
  (forall crn, crn ∈ CRNs cfg -> P (Resolving, nameSearch cfg crn)) ->
  (forall c, Q c -> Q (markFound c)) ->
  (forall a t i c r,
     Q c -> Forall P (map (pair (Checking a i)) (stepEvents env cfg a t c r))) ->
  Forall Q (tracked env cfg 0 (CRNs cfg)) ->
  Forall P (trace (snd (Run env fuel opts initialWorld))) /\
  Forall Q (courses (session (fst (Run env fuel opts initialWorld)))).
Proof.
  intros Hload Hprint Htick Hsearch HQf Hturn HQ.
  destruct (Run_startup_entries env opts cfg P Hload Hprint Hsearch) as (w0 & F0 & HR).
  rewrite HR. destruct (length (tracked env cfg 0 (CRNs cfg)) =? 0)%nat; simpl.
  { split; [exact F0|exact HQ]. }
  match goal with |- context [runLoop env fuel cfg ?iv ?a ?s ?w] =>
    destruct (runLoop_emits P Hprint Htick env cfg Q HQf Hturn iv fuel a s w HQ)
      as (HQ1 & evs1 & T1 & F1) end.
  split; [|exact HQ1].
  rewrite T1. simpl. repeat (apply Forall_app; split); try assumption.
  repeat constructor. apply Hprint.
Qed.

Lemma stepEvents_all (R : Event -> Prop) env cfg a t c r :
  (forall m, R (EvPrint m)) ->
  R (lookupEvent cfg c) ->
  R (EvSleep (500 * Millisecond)) ->
  (Email cfg <> "" -> opened r = true ->
   R (notifyEvent cfg c) /\
   (getenv env "RESEND_API_KEY" <> "" ->
    R (EvResend (getenv env "RESEND_API_KEY") (Email cfg) notifySubject (notifyBody c)))) ->
  Forall R (stepEvents env cfg a t c r).
Proof.
  intros Hprint Hlook Hsleep Hmail. unfold stepEvents.
  constructor; [apply Hprint|]. constructor; [exact Hlook|].
  destruct r as [[|]|e]; [|repeat constructor; assumption|repeat constructor; apply Hprint].
  constructor; [apply Hprint|]. apply Forall_app. split; [|repeat constructor; assumption].
  destruct (bool_decide (Email cfg <> "")) eqn:Ee; [|constructor].
  apply bool_decide_eq_true in Ee. destruct (Hmail Ee eq_refl) as [Hn Hr].
  apply Forall_app. split; [|repeat constructor; apply Hprint].
  unfold mailEvents. constructor; [exact Hn|].
  destruct (bool_decide (getenv env "RESEND_API_KEY" = "")) eqn:Ek; [constructor|].
  apply bool_decide_eq_false in Ek. repeat constructor. apply Hr. exact Ek.
Qed.

Lemma getBaseURL_loaded env path cfg :
  loadConfig env path = (cfg, None) -> getBaseURL cfg = BaseURL cfg.
Proof.
  intros H. apply loadConfig_BaseURL in H. unfold getBaseURL.
  rewrite bool_decide_eq_true_2 by exact H. reflexivity.
Qed.

Lemma tracked_from env cfg crns : forall n,
  Forall (fun c => CRN c ∈ crns /\ Name c <> "" /\ Found c = false) (tracked env cfg n crns).
Proof.
  induction crns as [|crn rest IH]; intros n; simpl; [constructor|].
  assert (Hrest : Forall (fun c => CRN c ∈ crn :: rest /\ Name c <> "" /\ Found c = false)
                    (tracked env cfg (S n) rest)).
  { eapply Forall_impl; [apply IH|]. intros c (H1 & H2 & H3).
    split; [right; exact H1|]. split; assumption. }
  destruct (resolution env cfg crn n) as [name|e] eqn:Er; [|exact Hrest].
  constructor; [|exact Hrest]. simpl. split; [left|]. split; [|reflexivity].
  unfold resolution in Er. rewrite getCourseName_fst in Er.
  destruct (fst (fetchDocument _ _ _ _)) as [doc|e]; [|discriminate].
  destruct (last _) as [row|]; [|discriminate].
  destruct (bool_decide (strings_TrimSpace (td3 row) = "")) eqn:Eb; [discriminate|].
  apply bool_decide_eq_false in Eb. injection Er as <-. exact Eb.
Qed.

(** *** The requests and the messages of a run *)

(** X13.  Once the configuration is loaded, every POST of the run, each
    name search and each availability search, goes to the one base URL
    of the configuration, which is not empty. *)
Theorem run_posts_to_base_url env opts fuel cfg :
  loadConfig env (ConfigPath opts) = (cfg, None) ->
  Forall (fun e => forall url form, snd e = EvPost url form ->
                                    url = BaseURL cfg /\ url <> "")
         (trace (snd (Run env fuel opts initialWorld))).
Proof.
  intros Hload.
  pose proof (loadConfig_BaseURL _ _ _ Hload) as Hne.
  pose proof (getBaseURL_loaded _ _ _ Hload) as Hg.
  apply (Run_entries env opts cfg fuel _ (fun _ => True) Hload).
  - intros o m url form E. discriminate.
  - intros o url form E. discriminate.
  - intros crn _ url form E. injection E as <- _. split; [reflexivity|exact Hne].
  - auto.
  - intros a t i c r _. apply Forall_fmap.
    apply (stepEvents_all (fun e => forall url form, e = EvPost url form ->
                                      url = BaseURL cfg /\ url <> "")).
    + intros m url form E. discriminate.
    + intros url form E. injection E as <- _. split; [exact Hg|]. rewrite Hg. exact Hne.
    + intros url form E. discriminate.
    + intros _ _. split; [intros url form E; discriminate|].
      intros _ url form E. discriminate.
  - apply Forall_true. auto.
Qed.

Lemma run_posts_to_base_url_witness :
  Forall (fun e => forall url form, snd e = EvPost url form ->
                                    url = BaseURL Demo.config /\ url <> "")
         (trace (snd (Run (Demo.world (Some 3%nat) "" false) 2 Demo.options initialWorld))).
Proof.
  apply (run_posts_to_base_url (Demo.world (Some 3%nat) "" false) Demo.options 2 Demo.config).
  reflexivity.
Defined.

(** X14.  When the configuration has no email, the run never calls
    [sendEmail] and never contacts the mail service, however many
    sections it finds. *)
Theorem no_email_no_notification env opts fuel cfg :
  loadConfig env (ConfigPath opts) = (cfg, None) ->
  Email cfg = "" ->
  Forall (fun e => isSend (snd e) = false /\ isResend (snd e) = false)
         (trace (snd (Run env fuel opts initialWorld))).
Proof.
  intros Hload Hemail.
  apply (Run_entries env opts cfg fuel _ (fun _ => True) Hload).
  - intros o m. split; reflexivity.
  - intros o. split; reflexivity.
  - intros crn _. split; reflexivity.
  - auto.
  - intros a t i c r _. apply Forall_fmap.
    apply (stepEvents_all (fun e => isSend e = false /\ isResend e = false)).
    + intros m. split; reflexivity.
    + split; reflexivity.
    + split; reflexivity.
    + intros Hne. contradiction.
  - apply Forall_true. auto.
Qed.

Lemma no_email_no_notification_witness :
  Forall (fun e => isSend (snd e) = false /\ isResend (snd e) = false)
         (trace (snd (Run (Demo.serving
                             (Parsed (mkConfig ["222"] "" 1 "" "" ""))
                             (Response 200 (Some Demo.algebraPage)))
                          1 Demo.options initialWorld))).
Proof.
  apply (no_email_no_notification
           (Demo.serving (Parsed (mkConfig ["222"] "" 1 "" "" ""))
              (Response 200 (Some Demo.algebraPage)))
           Demo.options 1
           (mkConfig ["222"] "" 1 "202601" "0" DefaultTimetableURL));
    reflexivity.
Defined.

(** X15.  Every call of [sendEmail] in a run is addressed to the email
    of the configuration, has the fixed subject, and has the body that
    names a tracked entity, with its name and CRN; it is made in a turn
    of the inner loop.  Every request to the mail service carries such a
    message, with the API key of the environment, which is not empty. *)
Theorem notifications_name_tracked_entities env opts fuel cfg :
  loadConfig env (ConfigPath opts) = (cfg, None) ->
  Forall (fun e =>
            (forall to subject body,
               snd e = EvSendEmail to subject body ->
               to = Email cfg /\ to <> "" /\ subject = notifySubject /\
               (exists c, c ∈ tracked env cfg 0 (CRNs cfg) /\ body = notifyBody c) /\
               exists a i, fst e = Checking a i) /\
            (forall key to subject body,
               snd e = EvResend key to subject body ->
               key = getenv env "RESEND_API_KEY" /\ key <> "" /\
               to = Email cfg /\ subject = notifySubject /\
               exists c, c ∈ tracked env cfg 0 (CRNs cfg) /\ body = notifyBody c))
         (trace (snd (Run env fuel opts initialWorld))).
Proof.
  intros Hload.
  apply (Run_entries env opts cfg fuel _
           (fun c => exists c0, c0 ∈ tracked env cfg 0 (CRNs cfg) /\ identity c = identity c0)
           Hload).
  - intros o m. split; intros; discriminate.
  - intros o. split; intros; discriminate.
  - intros crn _. split; intros; discriminate.
  - intros c (c0 & Hin & Hid). exists c0. split; [exact Hin|exact Hid].
  - intros a t i c r (c0 & Hin & Hid). apply Forall_fmap.
    assert (Hbody : notifyBody c = notifyBody c0).
    { unfold identity in Hid. injection Hid as H1 H2. unfold notifyBody.
      rewrite H1, H2. reflexivity. }
    apply (stepEvents_all
             (fun e =>
                (forall to subject body,
                   e = EvSendEmail to subject body ->
                   to = Email cfg /\ to <> "" /\ subject = notifySubject /\
                   (exists c, c ∈ tracked env cfg 0 (CRNs cfg) /\ body = notifyBody c) /\
                   exists a' i', Checking a i = Checking a' i') /\
                (forall key to subject body,
                   e = EvResend key to subject body ->
                   key = getenv env "RESEND_API_KEY" /\ key <> "" /\
                   to = Email cfg /\ subject = notifySubject /\
                   exists c, c ∈ tracked env cfg 0 (CRNs cfg) /\ body = notifyBody c))).
    + intros m. split; intros; discriminate.
    + split; intros; discriminate.
    + split; intros; discriminate.
    + intros Hne _. split.
      * split; [|intros; discriminate].
        intros to subject body E. injection E as <- <- <-.
        repeat split; try assumption; eauto.
      * intros Hk. split; [intros; discriminate|].
        intros key to subject body E. injection E as <- <- <- <-.
        repeat split; try assumption; eauto.
  - apply Forall_forall. intros c Hc. exists c. split; [exact Hc|reflexivity].
Qed.

Lemma notifications_name_tracked_entities_witness :
  Forall (fun e =>
            (forall to subject body,
               snd e = EvSendEmail to subject body ->
               to = Email Demo.config /\ to <> "" /\ subject = notifySubject /\
               (exists c, c ∈ tracked (Demo.world (Some 3%nat) "k" false) Demo.config 0
                                (CRNs Demo.config) /\ body = notifyBody c) /\
               exists a i, fst e = Checking a i) /\
            (forall key to subject body,
               snd e = EvResend key to subject body ->
               key = getenv (Demo.world (Some 3%nat) "k" false) "RESEND_API_KEY" /\
               key <> "" /\
               to = Email Demo.config /\ subject = notifySubject /\
               exists c, c ∈ tracked (Demo.world (Some 3%nat) "k" false) Demo.config 0
                               (CRNs Demo.config) /\ body = notifyBody c))
         (trace (snd (Run (Demo.world (Some 3%nat) "k" false) 2 Demo.options initialWorld))).
Proof.
  apply (notifications_name_tracked_entities (Demo.world (Some 3%nat) "k" false)
           Demo.options 2 Demo.config).
  reflexivity.
Defined.

(** *** Errors come before polling *)

(** X16.  [Run] returns an error only before it polls: the error is that
    of the configuration or that no CRN is valid, the run has not slept
    and has notified nobody, its only POSTs are the name searches of
    start-up, and the result is the same whatever the number of cycles
    it was allowed.  When the configuration does not load, nothing at
    all has happened. *)
Theorem errors_come_before_polling env opts fuel err :
  outcome (fst (Run env fuel opts initialWorld)) = Returned (Some err) ->
  (forall fuel', Run env fuel' opts initialWorld = Run env fuel opts initialWorld) /\
  (err = ErrNoValidCRNs \/ exists cause, err = ErrLoadConfig cause) /\
  Forall (fun e => isSleep (snd e) = false /\ isSend (snd e) = false /\
                   isResend (snd e) = false /\
                   (forall url form, snd e = EvPost url form -> fst e = Resolving))
         (trace (snd (Run env fuel opts initialWorld))) /\
  (forall cause, err = ErrLoadConfig cause -> snd (Run env fuel opts initialWorld) = initialWorld).
Proof.
  destruct (loadConfig env (ConfigPath opts)) as [cfg [e|]] eqn:Hload.
  { intros H. rewrite (Run_load_error _ _ _ _ _ _ Hload) in H. simpl in H.
    injection H as <-. split; [|split; [|split]].
    - intros fuel'. rewrite !(Run_load_error _ _ _ _ _ _ Hload). reflexivity.
    - right. eauto.
    - rewrite (Run_load_error _ _ _ _ _ _ Hload). constructor.
    - intros cause _. rewrite (Run_load_error _ _ _ _ _ _ Hload). reflexivity. }
  destruct (Run_startup_entries env opts cfg
              (fun e => isSleep (snd e) = false /\ isSend (snd e) = false /\
                        isResend (snd e) = false /\
                        (forall url form, snd e = EvPost url form -> fst e = Resolving))
              Hload) as (w0 & F0 & HR).
  { intros o m. repeat split. intros url form E. discriminate. }
  { intros crn _. repeat split. }
  intros H. rewrite (HR fuel) in H.
  destruct (length (tracked env cfg 0 (CRNs cfg)) =? 0)%nat eqn:El.
  - injection H as <-.
    assert (HRun : forall f, Run env f opts initialWorld =
                     (mkRunResult (Returned (Some ErrNoValidCRNs))
                        (mkSession (tracked env cfg 0 (CRNs cfg)) 0)
                        (Some (senderOf env opts)), w0)).
    { intros f. rewrite (HR f). try rewrite El. reflexivity. }
    split; [|split; [|split]].
    + intros fuel'. rewrite !HRun. reflexivity.
    + left. reflexivity.
    + rewrite HRun. exact F0.
    + intros cause E. discriminate.
  - exfalso. cbv zeta in H. unfold outcome in H.
    match type of H with context [runLoop env fuel cfg ?iv ?a ?s ?w] =>
      pose proof (runLoop_outcome env cfg iv fuel a s w) as Ho end.
    cbv beta in H. destruct Ho as [Ho|Ho]; destruct Ho as [Ho _];
      rewrite Ho in H; discriminate.
Qed.

Lemma errors_come_before_polling_witness :
  Run (Demo.serving (Parsed Demo.configFile) (Response 500 None)) 7 Demo.options initialWorld
  = Run (Demo.serving (Parsed Demo.configFile) (Response 500 None)) 1 Demo.options initialWorld.
Proof.
  exact (proj1 (errors_come_before_polling
                  (Demo.serving (Parsed Demo.configFile) (Response 500 None))
                  Demo.options 1 ErrNoValidCRNs eq_refl) 7%nat).
Defined.

(** *** The entities of a cycle *)

Lemma rank_S l k c :
  l !! k = Some c -> rank l (S k) = (rank l k + if Found c then 0 else 1)%nat.
Proof.
  intros H. unfold rank. rewrite (pending_take_S _ _ _ H), length_app.
  destruct (Found c); reflexivity.
Qed.

Lemma rank_all l : rank l (length l) = length (pending l).
Proof. unfold rank. rewrite firstn_all. reflexivity. Qed.

Lemma pollCycle_courses env cfg a t s w :
  courses (fst (pollCycle env cfg a t s w)) =
    imap (fun i c => afterLookup c (availability env cfg (CRN c) (posts w + rank (courses s) i)))
         (courses s) /\
  posts (snd (pollCycle env cfg a t s w)) = (posts w + length (pending (courses s)))%nat.
Proof.
  unfold pollCycle.
  set (l0 := courses s). set (n := length l0).
  set (F := fun i c => afterLookup c (availability env cfg (CRN c) (posts w + rank l0 i))).
  assert (G : (fun k s' w' =>
             length (courses s') = n /\
             (forall j, courses s' !! j =
                        if decide (j < k)%nat then F j <$> l0 !! j else l0 !! j) /\
             posts w' = (posts w + rank l0 k)%nat)
            (length (seq 0 n))
            (fst (forRange (checkCourse env cfg a t) s (seq 0 n) w))
            (snd (forRange (checkCourse env cfg a t) s (seq 0 n) w))).
  { apply forRange_invariant.
    - split; [reflexivity|]. split; [|unfold rank; simpl; lia].
      intros j. destruct (decide (j < 0)%nat); [lia|reflexivity].
    - intros k x s1 w1 Hx (L1 & U1 & P1).
      apply lookup_seq in Hx. destruct Hx as [-> Hk]. simpl in *.
      destruct (l0 !! k) as [c|] eqn:Hc.
      2: { apply lookup_ge_None in Hc. fold n in Hc. lia. }
      assert (Hc1 : courses s1 !! k = Some c).
      { rewrite U1. destruct (decide (k < k)%nat); [lia|exact Hc]. }
      rewrite (rank_S _ _ _ Hc).
      destruct (Found c) eqn:Hf.
      + rewrite checkCourse_skip by (unfold foundAt; rewrite Hc1; exact Hf). simpl.
        split; [exact L1|]. split; [|lia].
        intros j. rewrite U1.
        destruct (decide (j < k)%nat), (decide (j < S k)%nat); try lia; try reflexivity.
        assert (j = k) as -> by lia. rewrite Hc. simpl. unfold F, afterLookup.
        rewrite Hf. reflexivity.
      + destruct (checkCourse_pending env cfg a t s1 k w1 c Hc1 Hf) as (Es & _ & Ep).
        rewrite Es, Ep, stepSession_length. split; [exact L1|]. split; [|lia].
        intros j. rewrite P1. unfold stepSession.
        destruct (decide (j = k)) as [->|Hne].
        * destruct (decide (k < S k)%nat); [|lia]. rewrite Hc. simpl.
          unfold F, afterLookup. rewrite Hf.
          destruct (availability env cfg (CRN c) (posts w + rank l0 k)) as [[|]|e]; simpl.
          -- apply list_lookup_insert_eq. rewrite L1. exact Hk.
          -- exact Hc1.
          -- exact Hc1.
        * assert (Hj : courses s1 !! j =
                       if decide (j < S k)%nat then F j <$> l0 !! j else l0 !! j).
          { rewrite U1. destruct (decide (j < k)%nat), (decide (j < S k)%nat);
              try lia; reflexivity. }
          destruct (availability env cfg (CRN c) (posts w + rank l0 k)) as [[|]|e];
            simpl; try exact Hj.
          rewrite list_lookup_insert_ne by congruence. exact Hj. }
  simpl in G. rewrite length_seq in G. destruct G as (L & U & P). split.
  - apply list_eq. intros j. rewrite U, list_lookup_imap. fold l0.
    destruct (decide (j < n)%nat) as [|Hge]; [reflexivity|].
    rewrite (proj2 (lookup_ge_None l0 j)) by (fold n; lia). reflexivity.
  - rewrite P. unfold n. rewrite rank_all. reflexivity.
Qed.

Lemma identity_afterLookup c r : identity (afterLookup c r) = identity c.
Proof. unfold afterLookup. destruct (Found c), (opened r); reflexivity. Qed.

Lemma pollCycle_identity env cfg a t s w :
  map identity (courses (fst (pollCycle env cfg a t s w))) = map identity (courses s).
Proof.
  rewrite (proj1 (pollCycle_courses env cfg a t s w)).
  apply list_eq. intros j. rewrite !list_lookup_fmap, list_lookup_imap.
  destruct (courses s !! j) as [c|]; simpl; [|reflexivity].
  rewrite identity_afterLookup. reflexivity.
Qed.

Lemma runLoop_identity env cfg iv fuel : forall a s w,
  map identity (courses (snd (fst (runLoop env fuel cfg iv a s w)))) = map identity (courses s).
Proof.
  induction fuel as [|fuel IH]; intros a s w; simpl; [reflexivity|].
  unfold bind, time_Now.
  pose proof (pollCycle_identity env cfg a (now w) s w) as Hc.
  destruct (pollCycle env cfg a (now w) s w) as [s1 w1]. simpl in Hc.
  destruct (remaining s1 =? 0); [exact Hc|].
  destruct (waitInterval iv a (now w) s1 w1) as [[] w2].
  rewrite IH. exact Hc.
Qed.

Lemma tracked_sublist env cfg crns : forall n,
  map CRN (tracked env cfg n crns) `sublist_of` crns.
Proof.
  induction crns as [|crn rest IH]; intros n; simpl; [constructor|].
  destruct (resolution env cfg crn n); simpl.
  - apply sublist_skip, IH.
  - apply sublist_cons, IH.
Qed.

(** X17.  A poll cycle, entity by entity: an entity is found after the
    cycle exactly when it was found before or the cycle's lookup for it
    said open, and nothing else of it changes.  The lookup of an entity
    is the POST that follows those of the pending entities before it, so
    the cycle makes as many POSTs as it has pending entities. *)
Theorem cycle_marks_what_opened env cfg a t s w :
  courses (fst (pollCycle env cfg a t s w)) =
    imap (fun i c => afterLookup c (availability env cfg (CRN c) (posts w + rank (courses s) i)))
         (courses s) /\
  posts (snd (pollCycle env cfg a t s w)) = (posts w + length (pending (courses s)))%nat /\
  forall i, foundAt (fst (pollCycle env cfg a t s w)) i =
            match courses s !! i with
            | Some c => Found c || opened (availability env cfg (CRN c)
                                             (posts w + rank (courses s) i))
            | None => false
            end.
Proof.
  destruct (pollCycle_courses env cfg a t s w) as [Hc Hp].
  split; [exact Hc|]. split; [exact Hp|].
  intros i. unfold foundAt. rewrite Hc, list_lookup_imap.
  destruct (courses s !! i) as [c|]; simpl; [|reflexivity].
  unfold afterLookup. destruct (Found c) eqn:Hf; simpl; [exact Hf|].
  destruct (opened _); simpl; [reflexivity|exact Hf].
Qed.

(** X18.  The entities of a run never change their identity: at every
    moment of a session they are the entities that start-up tracked,
    with the same CRN and the same name, in the same order; their CRNs
    are configured CRNs, in the order of the configuration, and no name
    is empty.  Only the found flag of an entity changes. *)
Theorem entities_keep_their_identity env opts fuel cfg :
  loadConfig env (ConfigPath opts) = (cfg, None) ->
  let cs := courses (session (fst (Run env fuel opts initialWorld))) in
  map identity cs = map identity (tracked env cfg 0 (CRNs cfg)) /\
  map CRN cs `sublist_of` CRNs cfg /\
  Forall (fun c => Name c <> "") cs.
Proof.
  intros Hload cs.
  assert (Hid : map identity cs = map identity (tracked env cfg 0 (CRNs cfg))).
  { subst cs. destruct (Run_startup env opts cfg Hload) as (w0 & _ & HR).
    rewrite HR. destruct (length _ =? 0)%nat; simpl; [reflexivity|].
    rewrite runLoop_identity. reflexivity. }
  split; [exact Hid|]. split.
  - replace (map CRN cs) with (map fst (map identity cs))
      by (rewrite map_map; reflexivity).
    rewrite Hid, map_map. apply (tracked_sublist env cfg (CRNs cfg) 0).
  - assert (Hn : map Name cs = map Name (tracked env cfg 0 (CRNs cfg))).
    { replace (map Name cs) with (map snd (map identity cs)) by (rewrite map_map; reflexivity).
      rewrite Hid, map_map. reflexivity. }
    apply Forall_forall. intros c Hc.
    assert (Hin : Name c ∈ map Name (tracked env cfg 0 (CRNs cfg))).
    { rewrite <- Hn. apply list_elem_of_fmap. exists c. split; [reflexivity|exact Hc]. }
    apply list_elem_of_fmap in Hin. destruct Hin as (c0 & E & Hc0).
    pose proof (tracked_from env cfg (CRNs cfg) 0) as Ht.
    rewrite Forall_forall in Ht. destruct (Ht c0 Hc0) as (_ & Hne & _).
    rewrite E. exact Hne.
Qed.

Lemma entities_keep_their_identity_witness :
  map identity (courses (session (fst (Run (Demo.world (Some 3%nat) "" false) 2
                                         Demo.options initialWorld))))
  = map identity (tracked (Demo.world (Some 3%nat) "" false) Demo.config 0 (CRNs Demo.config)).
Proof.
  exact (proj1 (entities_keep_their_identity (Demo.world (Some 3%nat) "" false)
                  Demo.options 2 Demo.config eq_refl)).
Defined.

(** *** Notifications, exactly *)

Lemma becameFound_same s i : becameFound s s i = false.
Proof. unfold becameFound. destruct (foundAt s i); reflexivity. Qed.

Lemma announced_refl s w : announced s w s w.
Proof.
  split; [auto|]. exists []. split; [rewrite app_nil_r; reflexivity|].
  intros i. rewrite becameFound_same. reflexivity.
Qed.

Lemma announced_trans s w s1 w1 s2 w2 :
  announced s w s1 w1 -> announced s1 w1 s2 w2 -> announced s w s2 w2.
Proof.
  intros (F1 & evs1 & T1 & C1) (F2 & evs2 & T2 & C2).
  split; [auto|].
  exists (evs1 ++ evs2). split; [rewrite T2, T1, app_assoc; reflexivity|].
  intros i. rewrite notificationsOf_app, C1, C2. unfold becameFound.
  specialize (F1 i). specialize (F2 i).
  destruct (foundAt s i), (foundAt s1 i), (foundAt s2 i); simpl in *;
    try reflexivity; try (specialize (F1 eq_refl); discriminate);
    try (specialize (F2 eq_refl); discriminate).
Qed.

Lemma announced_quietly {A} (c : M A) s w : quietly c -> announced s w s (snd (c w)).
Proof.
  intros Q. destruct (Q w) as (evs & T & F).
  split; [auto|]. exists evs. split; [exact T|].
  intros i. rewrite becameFound_same. unfold notificationsOf. clear T.
  induction F as [|e evs [P S] F IH]; simpl; [reflexivity|].
  rewrite S, andb_false_r. exact IH.
Qed.

Lemma checkCourse_announced env cfg a t s i w :
  Email cfg <> "" ->
  announced s w (fst (checkCourse env cfg a t s i w)) (snd (checkCourse env cfg a t s i w)).
Proof.
  intros Hemail.
  destruct (courses s !! i) as [c|] eqn:Hc.
  2: { rewrite checkCourse_out by exact Hc. apply announced_refl. }
  destruct (Found c) eqn:Hf.
  { rewrite checkCourse_skip; [apply announced_refl|].
    unfold foundAt. rewrite Hc. exact Hf. }
  destruct (checkCourse_pending env cfg a t s i w c Hc Hf) as (Es & Et & _).
  rewrite Es. set (r := availability env cfg (CRN c) (posts w)) in *.
  split.
  - intros j Hj. rewrite foundAt_insert by exact Hc.
    destruct r as [[|]|e]; try exact Hj. destruct (decide (i = j)); [reflexivity|exact Hj].
  - eexists. split; [exact Et|]. intros j.
    rewrite notificationsOf_at, stepEvents_sends.
    unfold becameFound. rewrite foundAt_insert by exact Hc.
    rewrite (bool_decide_eq_true_2 _ Hemail), andb_true_r.
    assert (Hi : foundAt s i = false) by (unfold foundAt; rewrite Hc; exact Hf).
    destruct (decide (i = j)) as [<-|Hne].
    + rewrite checking_same, Hi. destruct r as [[|]|e]; simpl; rewrite ?Hi; reflexivity.
    + rewrite checking_other by congruence.
      destruct r as [[|]|e]; simpl; destruct (foundAt s j); reflexivity.
Qed.

Lemma pollCycle_announced env cfg a t s w :
  Email cfg <> "" ->
  announced s w (fst (pollCycle env cfg a t s w)) (snd (pollCycle env cfg a t s w)).
Proof.
  intros Hemail. unfold pollCycle.
  apply (forRange_invariant (checkCourse env cfg a t)
           (fun _ s' w' => announced s w s' w')).
  - apply announced_refl.
  - intros k x s1 w1 _ H1. eapply announced_trans; [exact H1|].
    apply checkCourse_announced. exact Hemail.
Qed.

Lemma runLoop_announced env cfg iv fuel :
  Email cfg <> "" ->
  forall a s w,
  announced s w (snd (fst (runLoop env fuel cfg iv a s w)))
                (snd (runLoop env fuel cfg iv a s w)).
Proof.
  intros Hemail. induction fuel as [|fuel IH]; intros a s w; simpl.
  - apply announced_refl.
  - unfold bind, time_Now.
    pose proof (pollCycle_announced env cfg a (now w) s w Hemail) as Hc.
    destruct (pollCycle env cfg a (now w) s w) as [s1 w1]. simpl in Hc.
    destruct (remaining s1 =? 0).
    + simpl. eapply announced_trans; [exact Hc|].
      apply (announced_quietly (Printf MsgAllFound)). apply quietly_Printf.
    + pose proof (announced_quietly (waitInterval iv a (now w) s1) s1 w1
                    (quietly_waitInterval iv a (now w) s1)) as Hw.
      destruct (waitInterval iv a (now w) s1 w1) as [[] w2]. simpl in Hw.
      eapply announced_trans; [exact Hc|].
      eapply announced_trans; [exact Hw|]. apply IH.
Qed.

Lemma tracked_unfound env cfg n crns r i :
  foundAt (mkSession (tracked env cfg n crns) r) i = false.
Proof.
  unfold foundAt. simpl.
  destruct (tracked env cfg n crns !! i) as [c|] eqn:Hc; [|reflexivity].
  pose proof (tracked_from env cfg crns n) as Ht. rewrite Forall_forall in Ht.
  apply list_elem_of_lookup_2 in Hc. destruct (Ht c Hc) as (_ & _ & Hf). exact Hf.
Qed.

(** X19.  When the configuration has an email, the run calls
    [sendEmail] for an entity exactly once if the entity is found, and
    never if it is not: no entity becomes found without its
    notification being attempted, at any moment of the session. *)
Theorem found_is_notified_exactly_once env opts fuel cfg i :
  loadConfig env (ConfigPath opts) = (cfg, None) ->
  Email cfg <> "" ->
  notificationsOf i (trace (snd (Run env fuel opts initialWorld))) =
  if foundAt (session (fst (Run env fuel opts initialWorld))) i then 1%nat else 0%nat.
Proof.
  intros Hload Hemail.
  destruct (Run_startup env opts cfg Hload) as (w0 & B0 & HR).
  rewrite HR. destruct (length _ =? 0)%nat; simpl.
  { rewrite tracked_unfound. destruct (B0 i) as [_ ->]. reflexivity. }
  match goal with |- context [runLoop env fuel cfg ?iv ?a ?s ?w] =>
    destruct (runLoop_announced env cfg iv fuel Hemail a s w) as (_ & evs1 & T1 & C1) end.
  rewrite T1. simpl. rewrite !notificationsOf_app, C1.
  destruct (B0 i) as [_ ->].
  unfold notificationsOf at 1. simpl. rewrite andb_false_r. simpl.
  unfold becameFound, firstSession. rewrite tracked_unfound. reflexivity.
Qed.

Lemma found_is_notified_exactly_once_witness :
  notificationsOf 0 (trace (snd (Run (Demo.world (Some 3%nat) "" false) 2 Demo.options
                                   initialWorld))) = 1%nat.
Proof.
  exact (found_is_notified_exactly_once (Demo.world (Some 3%nat) "" false) Demo.options 2
           Demo.config 0 eq_refl ltac:(discriminate)).
Defined.

(** *** The clock *)

Lemma checkCourse_now env cfg a t s i w c :
  courses s !! i = Some c ->
  now (snd (checkCourse env cfg a t s i w)) = now w + pauseOf env cfg (posts w) c.
Proof.
  intros Hc. unfold checkCourse, pauseOf. rewrite Hc.
  destruct (Found c); [simpl; lia|].
  unfold time_Sleep, Printf, bind, at_pos, emit, ret. simpl.
  rewrite checkSectionOpen_run. simpl.
  destruct (availability env cfg (CRN c) (posts w)) as [[|]|err]; simpl;
    try (unfold Millisecond; lia).
  destruct (bool_decide (Email cfg <> "")); simpl; [|unfold Millisecond; lia].
  match goal with |- context [sendEmail env ?a ?b ?c ?w0] =>
    pose proof (sendEmail_world env a b c w0) as Hs;
    destruct (sendEmail env a b c w0) as [e ws] end.
  simpl in Hs. subst ws. simpl. unfold Millisecond. lia.
Qed.

Lemma pauseOf_bounds env cfg n c :
  0 <= pauseOf env cfg n c <= if Found c then 0 else 500 * Millisecond.
Proof.
  unfold pauseOf, Millisecond. destruct (Found c); [lia|].
  destruct (answered _); lia.
Qed.

Lemma ticks_nonpos d : d <= 0 -> ticks d = 0.
Proof.
  intros H. unfold ticks, Millisecond.
  assert ((d + 100 * 1000000 - 1) / (100 * 1000000) < 1)
    by (apply Z.div_lt_upper_bound; lia).
  lia.
Qed.

Lemma ticks_pos d : 0 < d -> ticks d = 1 + ticks (d - 100 * Millisecond).
Proof.
  intros H. unfold ticks, Millisecond.
  replace (d + 100 * 1000000 - 1) with (d - 1 + 1 * (100 * 1000000)) by lia.
  rewrite Z.div_add by lia.
  replace (d - 100 * 1000000 + 100 * 1000000 - 1) with (d - 1) by lia.
  assert (0 <= (d - 1) / (100 * 1000000)) by (apply Z.div_pos; lia).
  lia.
Qed.

Lemma ticks_nonneg d : 0 <= ticks d.
Proof. unfold ticks. lia. Qed.

Lemma waitLoop_turn fuel a t s u i w :
  now w < u ->
  exists line,
    waitLoop (S fuel) a t s u i w =
    waitLoop fuel a t s u (S i)
      (mkWorld (posts w) (mails w) (now w + 100 * Millisecond) (pos w)
         (trace w ++ [(pos w, EvPrint line); (pos w, EvSleep (100 * Millisecond))])).
Proof.
  intros H. apply Z.ltb_lt in H. cbn [waitLoop].
  unfold bind at 1. unfold time_Now at 1. rewrite H.
  unfold time_Sleep, Printf, bind, time_Now, emit. cbn [fst snd posts mails now pos trace].
  eexists. rewrite <- app_assoc. reflexivity.
Qed.

Lemma waitLoop_over fuel a t s u i w :
  u <= now w -> waitLoop fuel a t s u i w = (tt, w).
Proof.
  intros H. apply Z.ltb_ge in H. destruct fuel; [reflexivity|].
  cbn [waitLoop]. unfold bind at 1. unfold time_Now at 1. rewrite H. reflexivity.
Qed.

Lemma waitLoop_now a t s u : forall fuel i w,
  u - now w <= Z.of_nat fuel * (100 * Millisecond) ->
  now (snd (waitLoop fuel a t s u i w)) = now w + 100 * Millisecond * ticks (u - now w) /\
  length (trace (snd (waitLoop fuel a t s u i w))) =
    (length (trace w) + Z.to_nat (2 * ticks (u - now w)))%nat.
Proof.
  induction fuel as [|fuel IH]; intros i w H.
  - rewrite waitLoop_over by lia. rewrite ticks_nonpos by lia. simpl. split; lia.
  - destruct (Z.lt_ge_cases (now w) u) as [E|E].
    + destruct (waitLoop_turn fuel a t s u i w E) as (line & ->).
      match goal with |- context [waitLoop fuel a t s u (S i) ?w1] =>
        destruct (IH (S i) w1) as [IH1 IH2] end.
      { cbn [now]. unfold Millisecond in *. lia. }
      rewrite IH1, IH2. cbn [now trace]. rewrite length_app. cbn [length].
      rewrite (ticks_pos (u - now w)) by lia.
      replace (u - (now w + 100 * Millisecond)) with (u - now w - 100 * Millisecond) by lia.
      pose proof (ticks_nonneg (u - now w - 100 * Millisecond)).
      unfold Millisecond in *. split; lia.
    + rewrite waitLoop_over by lia. rewrite ticks_nonpos by lia. simpl. split; lia.
Qed.

Lemma loadConfig_CheckInterval env path cfg :
  loadConfig env path = (cfg, None) -> CheckInterval cfg <> 0.
Proof.
  unfold loadConfig. destruct (readConfig env path) as [| |c]; try discriminate.
  cbv zeta. destruct (CheckInterval c =? 0) eqn:Ei;
    repeat (match goal with
            | |- context [bool_decide ?P] => destruct (bool_decide P)
            end; simpl);
    destruct (length _ =? 0)%nat; try discriminate;
    intros H; injection H as <-; simpl; try discriminate;
    apply Z.eqb_neq; exact Ei.
Qed.

(** X20.  A turn of the inner loop pauses for 500 ms exactly when it
    made a lookup and the lookup was answered, open or not; it does not
    pause for a found entity, nor after a lookup that failed.  So a
    cycle never lasts longer than 500 ms for each entity that is pending
    when it starts (on a clock that only sleeping advances). *)
Theorem turn_pauses_after_an_answer env cfg a t s w :
  (forall i,
     now (snd (checkCourse env cfg a t s i w)) =
     now w + match courses s !! i with
             | Some c => pauseOf env cfg (posts w) c
             | None => 0
             end) /\
  now w <= now (snd (pollCycle env cfg a t s w))
        <= now w + 500 * Millisecond * Z.of_nat (length (pending (courses s))).
Proof.
  split.
  - intros i. destruct (courses s !! i) as [c|] eqn:Hc.
    + apply checkCourse_now. exact Hc.
    + rewrite checkCourse_out by exact Hc. simpl. lia.
  - unfold pollCycle.
    set (l0 := courses s). set (n := length l0).
    assert (G : (fun k s' w' =>
               (forall j, (k <= j)%nat -> courses s' !! j = l0 !! j) /\
               now w <= now w' <= now w + 500 * Millisecond * Z.of_nat (rank l0 k))
              (length (seq 0 n))
              (fst (forRange (checkCourse env cfg a t) s (seq 0 n) w))
              (snd (forRange (checkCourse env cfg a t) s (seq 0 n) w))).
    { apply forRange_invariant.
      - split; [reflexivity|]. unfold rank. simpl. lia.
      - intros k x s1 w1 Hx (U1 & N1).
        apply lookup_seq in Hx. destruct Hx as [-> Hk]. simpl in *.
        destruct (l0 !! k) as [c|] eqn:Hc.
        2: { apply lookup_ge_None in Hc. fold n in Hc. lia. }
        assert (Hc1 : courses s1 !! k = Some c) by (rewrite U1 by lia; exact Hc).
        rewrite (checkCourse_now env cfg a t s1 k w1 c Hc1), (rank_S _ _ _ Hc).
        pose proof (pauseOf_bounds env cfg (posts w1) c) as Hb.
        split.
        + intros j Hj. rewrite <- U1 by lia.
          destruct (Found c) eqn:Hf.
          * rewrite checkCourse_skip by (unfold foundAt; rewrite Hc1; exact Hf). reflexivity.
          * destruct (checkCourse_pending env cfg a t s1 k w1 c Hc1 Hf) as (Es & _ & _).
            rewrite Es. unfold stepSession.
            destruct (availability env cfg (CRN c) (posts w1)) as [[|]|e]; try reflexivity.
            simpl. apply list_lookup_insert_ne. lia.
        + destruct (Found c); unfold Millisecond in *; lia. }
    simpl in G. rewrite length_seq in G. destruct G as (_ & N).
    unfold n in N. rewrite rank_all in N. exact N.
Qed.

(** X21.  The wait between two cycles takes one turn of the spinner
    loop, a line and a sleep of 100 ms, for every started tenth of a
    second of the interval: it ends when the interval has passed, less
    than 100 ms late.  With an interval that is not positive it does
    nothing, and the next cycle follows at once. *)
Theorem wait_lasts_the_interval iv a t s w :
  let w' := snd (waitInterval iv a t s w) in
  now w' = now w + 100 * Millisecond * ticks iv /\
  length (emitted w w') = Z.to_nat (2 * ticks iv) /\
  now w + iv <= now w' < now w + Z.max 0 iv + 100 * Millisecond.
Proof.
  simpl.
  assert (H : now (snd (waitInterval iv a t s w)) = now w + 100 * Millisecond * ticks iv /\
              length (trace (snd (waitInterval iv a t s w))) =
              (length (trace w) + Z.to_nat (2 * ticks iv))%nat).
  { unfold waitInterval. unfold bind at 1. unfold at_pos at 1.
    unfold bind at 1. unfold time_Now at 1. cbn [fst snd now].
    match goal with |- context [waitLoop ?f a t s ?u 0 ?w1] =>
      destruct (waitLoop_now a t s u f 0%nat w1) as [H1 H2] end.
    { cbn [now]. replace (100 * Millisecond) with 100000000 by reflexivity.
      destruct (Z.lt_ge_cases iv 0) as [Hn|Hp]; [lia|].
      rewrite Nat2Z.inj_succ, Z2Nat.id by (apply Z.div_pos; lia).
      pose proof (Z.mul_succ_div_gt iv 100000000). lia. }
    cbn [now trace] in H1, H2.
    replace (now w + iv - now w) with iv in H1, H2 by lia.
    split; assumption. }
  destruct H as [H1 H2]. split; [exact H1|]. split.
  - unfold emitted. rewrite length_drop, H2. lia.
  - rewrite H1. destruct (Z.le_gt_cases iv 0) as [Hn|Hp].
    + rewrite ticks_nonpos by exact Hn. unfold Millisecond. lia.
    + unfold ticks, Millisecond.
      assert (0 <= (iv + 100 * 1000000 - 1) / (100 * 1000000)) by (apply Z.div_pos; lia).
      pose proof (Z.mul_div_le (iv + 100 * 1000000 - 1) (100 * 1000000)).
      pose proof (Z.mul_succ_div_gt (iv + 100 * 1000000 - 1) (100 * 1000000)).
      lia.
Qed.

(** X22.  The interval between two cycles is the configured number of
    seconds, as long as that number of seconds fits the 64-bit duration
    in nanoseconds; it is never zero then, since a configuration that
    is loaded has no zero check interval. *)
Theorem interval_is_seconds env path cfg :
  loadConfig env path = (cfg, None) ->
  Z.abs (CheckInterval cfg) <= 9223372036 ->
  interval cfg = CheckInterval cfg * Second /\ interval cfg <> 0.
Proof.
  intros Hload Hfit. pose proof (loadConfig_CheckInterval _ _ _ Hload) as Hnz.
  assert (E : interval cfg = CheckInterval cfg * Second).
  { unfold interval, wrap64, Second.
    rewrite Z.mod_small by lia. lia. }
  split; [exact E|]. rewrite E. unfold Second. lia.
Qed.

Lemma interval_is_seconds_witness :
  interval Demo.config = CheckInterval Demo.config * Second /\ interval Demo.config <> 0.
Proof.
  apply (interval_is_seconds (Demo.world (Some 3%nat) "" false) "config.json" Demo.config).
  - reflexivity.
  - simpl. lia.
Defined.

(** *** The end of a run *)





